(** * termuxbot: the command dispatcher, the room tracker and the hourly scheduler

    A shallow embedding of [commands.py], [bot.py] and [scheduler.py].

    Python [str] values are Rocq strings, a text outside ASCII being the
    bytes of its UTF-8 form.  The character classes used by [str.strip],
    [str.split] and [str.lower] are those of the ASCII range ([str.isspace]
    holds of the code points 9-13, 28-31 and 32 below 128), so these three
    are the library's on ASCII text ([Py.isascii]) and the statements that
    depend on how an arbitrary text is split, stripped or put into lower case
    assume it.
    Python [int] is [Z]; [//] and [%] with a positive divisor are [Z.div] and
    [Z.modulo] (both round towards minus infinity). *)

From Stdlib Require Import ZArith QArith Ascii String List Bool Lia DecimalString.
From stdpp Require Import gmap strings list.

Local Open Scope Z_scope.

(** ** Python strings *)

Module Py.

Definition nl : string := String (ascii_of_nat 10) "".

Definition in_range (lo hi : N) (c : ascii) : bool :=
  ((lo <=? N_of_ascii c) && (N_of_ascii c <=? hi))%N.

(** [str.isspace] on one ASCII character: TAB, LF, VT, FF, CR, FS, GS, RS,
    US and the space. *)
Definition isspace (c : ascii) : bool :=
  in_range 9 13 c || in_range 28 31 c || in_range 32 32 c.

Definition isupper (c : ascii) : bool := in_range 65 90 c.

Definition lower_char (c : ascii) : ascii :=
  if isupper c then ascii_of_N (N_of_ascii c + 32) else c.

(** [s.lower()] *)
Fixpoint lower (s : string) : string :=
  match s with
  | EmptyString => EmptyString
  | String c s' => String (lower_char c) (lower s')
  end.

(** [s.lstrip()], [s.rstrip()] and [s.strip()] *)
Fixpoint lstrip (s : string) : string :=
  match s with
  | EmptyString => EmptyString
  | String c s' => if isspace c then lstrip s' else s
  end.

Definition is_empty (s : string) : bool :=
  match s with EmptyString => true | String _ _ => false end.

Fixpoint rstrip (s : string) : string :=
  match s with
  | EmptyString => EmptyString
  | String c s' =>
      let r := rstrip s' in
      if isspace c && is_empty r then EmptyString else String c r
  end.

Definition strip (s : string) : string := rstrip (lstrip s).

(** [s.split()]: the maximal runs of characters that are not white space. *)
Fixpoint split (s : string) : list string :=
  match s with
  | EmptyString => []
  | String c s' =>
      if isspace c then split s'
      else
        match s' with
        | EmptyString => [String c EmptyString]
        | String c' _ =>
            if isspace c' then String c EmptyString :: split s'
            else
              match split s' with
              | t :: ts => String c t :: ts
              | [] => [String c EmptyString]
              end
        end
  end.

(** [s.startswith(p)] *)
Definition startswith (s p : string) : bool := String.prefix p s.

(** [s[n:]] *)
Fixpoint drop (n : nat) (s : string) : string :=
  match n, s with
  | O, _ => s
  | S k, String _ s' => drop k s'
  | S _, EmptyString => EmptyString
  end.

(** [s.replace(old, new)] for a non-empty [old]: the occurrences are found
    from the left and do not overlap.  [skip] counts the characters of the
    occurrence just matched that are still to be passed over. *)
Fixpoint replace_from (old new : string) (skip : nat) (s : string) : string :=
  match s with
  | EmptyString => EmptyString
  | String c s' =>
      match skip with
      | S k => replace_from old new k s'
      | O =>
          if String.prefix old s
          then new +:+ replace_from old new (String.length old - 1) s'
          else String c (replace_from old new 0 s')
      end
  end.

(** With an empty [old], Python puts [new] before every character and at
    the end. *)
Fixpoint intersperse (new s : string) : string :=
  match s with
  | EmptyString => new
  | String c s' => new +:+ String c (intersperse new s')
  end.

Definition replace (s old new : string) : string :=
  if is_empty old then intersperse new s else replace_from old new 0 s.

(** [x in s] for strings *)
Fixpoint contains (s x : string) : bool :=
  String.prefix x s ||
  match s with
  | EmptyString => false
  | String _ s' => contains s' x
  end.

(** [str(n)] for an [int] *)
Definition str_of_int (n : Z) : string := NilZero.string_of_int (Z.to_int n).

(** [s.isascii()]: every code point is below 128. *)
Fixpoint isascii (s : string) : bool :=
  match s with
  | EmptyString => true
  | String c s' => (N_of_ascii c <? 128)%N && isascii s'
  end.

(** [s.split(sep)] for a separator of one character: the pieces between the
    separators; there is always at least one piece. *)
Fixpoint split_on (sep : ascii) (s : string) : list string :=
  match s with
  | EmptyString => [EmptyString]
  | String c s' =>
      if Ascii.eqb c sep then EmptyString :: split_on sep s'
      else
        match split_on sep s' with
        | t :: ts => String c t :: ts
        | [] => [String c EmptyString]
        end
  end.

End Py.

(** ** Data model *)

(** The outcome of a Python call that may raise: [Raise e] carries [str(e)]. *)
Inductive exn (A : Type) : Type :=
| Ok (a : A)
| Raise (e : string).
Arguments Ok {A} a.
Arguments Raise {A} e.

(** [config.py], class [BotConfig]: the attributes the core reads. *)
Record BotConfig := {
  server : string;
  nickname : string;
  rooms : list string;
  timezone_offset : Z;
  welcome_message : string;
  user_welcome_message : string;
  hourly_message : string
}.

(** An aware [datetime] in a fixed-offset zone.  The date is kept as its
    proleptic Gregorian ordinal (as [datetime] arithmetic does); the bounds
    of the type (years 1 to 9999) are not modelled. *)
Record datetime := {
  ordinal : Z;
  hour : Z;
  minute : Z;
  second : Z;
  microsecond : Z
}.

(** What a handler does to the outside world. *)
Inductive action :=
| Sleep (microseconds : Z)                       (* [await asyncio.sleep(..)] *)
| SendMessage (mto mbody mtype : string)         (* [self.send_message(..)] *)
| Reply (mbody : string)                         (* [msg.reply(..).send()] *)
| Exec (argv : list string)                      (* [create_subprocess_exec(..)] *)
| Fire.                                          (* [send_hourly_message()] is called *)

(** Library functions the repository calls and does not define:
    [datetime.strftime] and [str.format] with keyword arguments (which raises
    on a template it cannot fill). *)
Class PyRuntime := {
  strftime : datetime -> string -> string;
  str_format : string -> list (string * string) -> exn string
}.

(** ** [datetime] arithmetic *)

Module DateTime.

Definition to_microseconds (d : datetime) : Z :=
  (((ordinal d * 24 + hour d) * 60 + minute d) * 60 + second d) * 1000000
  + microsecond d.

Definition of_microseconds (t : Z) : datetime :=
  {| ordinal := t / 86400000000;
     hour := (t / 3600000000) mod 24;
     minute := (t / 60000000) mod 60;
     second := (t / 1000000) mod 60;
     microsecond := t mod 1000000 |}.

(** Ordinal of 1970-01-01. *)
Definition epoch_ordinal : Z := 719163.

Definition tz_range_error : string :=
  "offset must be a timedelta strictly between -timedelta(hours=24) and timedelta(hours=24).".

(** [datetime.now(timezone(timedelta(hours=offset)))]; [clock] is the
    system clock in microseconds since the epoch (UTC).  [timezone] refuses
    an offset that is not strictly between -24 h and 24 h. *)
Definition now (clock offset : Z) : exn datetime :=
  if (-24 <? offset) && (offset <? 24)
  then Ok (of_microseconds
             (epoch_ordinal * 86400000000 + clock + offset * 3600000000))
  else Raise tz_range_error.

(** [d.replace(minute=0, second=0, microsecond=0)] *)
Definition replace_minute_second_microsecond (d : datetime) : datetime :=
  {| ordinal := ordinal d; hour := hour d;
     minute := 0; second := 0; microsecond := 0 |}.

(** [d + timedelta(..)], the [timedelta] given in microseconds *)
Definition add (d : datetime) (delta : Z) : datetime :=
  of_microseconds (to_microseconds d + delta).

(** [a - b] for two datetimes of the same zone, in microseconds *)
Definition sub (a b : datetime) : Z := to_microseconds a - to_microseconds b.

(** [timedelta.total_seconds()], as an exact fraction *)
Definition total_seconds (delta : Z) : Q := Qmake delta 1000000.

Definition lt (a b : datetime) : Prop := to_microseconds a < to_microseconds b.

(** The field ranges every [datetime] object satisfies. *)
Definition wf (d : datetime) : Prop :=
  0 <= hour d < 24 /\ 0 <= minute d < 60 /\ 0 <= second d < 60 /\
  0 <= microsecond d < 1000000.

End DateTime.

(** ** [scheduler.py], class [MessageScheduler]

    The scheduler runs [_schedule_loop] as a task of the [asyncio] event
    loop.  The loop runs one task at a time, and a task runs from one
    [await] to the next without interruption; so the scheduler is a state
    machine whose steps are the calls of [start] and [stop] and the
    resumptions of its tasks.  A task suspended in [asyncio.sleep] is resumed
    when the time is over or when it has been cancelled; the model lets it
    be resumed at any moment, which covers every timing. *)

Module MessageScheduler.

(** Where the coroutine [_schedule_loop] of a task is suspended. *)
Inductive point :=
| Created     (* made by [create_task], not yet run *)
| Waiting     (* in [await asyncio.sleep(wait_seconds)], line 46 *)
| Backoff     (* in [await asyncio.sleep(60)], line 57 *)
| Done.       (* returned, or ended by a cancellation *)

(** A task of the event loop; [must_cancel] is set by [Task.cancel()] and
    makes the next resumption raise [CancelledError] at the suspension
    point. *)
Record task_state := { at_point : point; must_cancel : bool }.

(** The scheduler object, with the tasks it has created (a handle is the
    index of its task). *)
Record t := {
  offset : Z;
  running : bool;
  task : option nat;
  tasks : list task_state
}.

(** [__init__] *)
Definition init (timezone_offset : Z) : t :=
  {| offset := timezone_offset; running := false; task := None; tasks := [] |}.

(** [asyncio.create_task(self._schedule_loop())] *)
Definition create_task (ts : list task_state) : nat * list task_state :=
  (length ts, ts ++ [ {| at_point := Created; must_cancel := false |} ]).

(** [Task.cancel()]: no effect on a task that is done. *)
Definition cancel (tk : task_state) : task_state :=
  match at_point tk with
  | Done => tk
  | p => {| at_point := p; must_cancel := true |}
  end.

Definition start (s : t) : t :=
  if running s then s
  else
    let '(h, ts) := create_task (tasks s) in
    {| offset := offset s; running := true; task := Some h; tasks := ts |}.

Definition stop (s : t) : t :=
  {| offset := offset s;
     running := false;
     task := task s;
     tasks := match task s with
              | Some h => alter cancel h (tasks s)
              | None => tasks s
              end |}.

(** Lines 39-41: the next top of the hour and the time to wait for it. *)
Definition next_hour (now : datetime) : datetime :=
  DateTime.add (DateTime.replace_minute_second_microsecond now) 3600000000.

Definition wait_microseconds (now : datetime) : Z :=
  DateTime.sub (next_hour now) now.

Definition wait_seconds (now : datetime) : Q :=
  DateTime.total_seconds (wait_microseconds now).

(** The handler [except Exception] of the loop, lines 53-58, up to its
    [await]. *)
Definition on_error (s : t) : point * list action :=
  if running s then (Backoff, [Sleep 60000000]) else (Done, []).

(** From the test [while self.running] to the next [await], lines 37-46. *)
Definition loop_head (s : t) (clock : Z) : point * list action :=
  if running s then
    match DateTime.now clock (offset s) with
    | Ok now => (Waiting, [Sleep (wait_microseconds now)])
    | Raise _ => on_error s
    end
  else (Done, []).

Definition set_point (h : nat) (p : point) (s : t) : t :=
  {| offset := offset s; running := running s; task := task s;
     tasks := alter (fun tk => {| at_point := p; must_cancel := must_cancel tk |})
                    h (tasks s) |}.

(** The event loop resumes task [h]: [_schedule_loop] runs from its
    suspension point to the next one.  [clock] is the system clock and
    [callback] the outcome [send_hourly_message] has if it is called now. *)
Definition _schedule_loop (clock : Z) (callback : exn (list action))
    (h : nat) (s : t) : t * list action :=
  match tasks s !! h with
  | None => (s, [])
  | Some tk =>
      if must_cancel tk then (set_point h Done s, [])
      else
        match at_point tk with
        | Created =>
            let '(p, out) := loop_head s clock in (set_point h p s, out)
        | Waiting =>
            if running s then
              match callback with
              | Ok sent =>
                  let '(p, out) := loop_head s clock in
                  (set_point h p s, Fire :: sent ++ out)
              | Raise _ =>
                  let '(p, out) := on_error s in
                  (set_point h p s, Fire :: out)
              end
            else
              let '(p, out) := loop_head s clock in (set_point h p s, out)
        | Backoff =>
            let '(h', ts) := create_task (tasks (set_point h Done s)) in
            ({| offset := offset s; running := running s;
                task := Some h'; tasks := ts |}, [])
        | Done => (s, [])
        end
  end.

(** What can happen to a scheduler. *)
Inductive event :=
| CallStart
| CallStop
| Resume (h : nat) (clock : Z) (callback : exn (list action)).

Definition step (s : t) (e : event) : t * list action :=
  match e with
  | CallStart => (start s, [])
  | CallStop => (stop s, [])
  | Resume h clock callback => _schedule_loop clock callback h s
  end.

Fixpoint run (s : t) (es : list event) : t * list action :=
  match es with
  | [] => (s, [])
  | e :: es' =>
      let '(s1, out1) := step s e in
      let '(s2, out2) := run s1 es' in
      (s2, out1 ++ out2)
  end.

Definition is_start (e : event) : bool :=
  match e with CallStart => true | _ => false end.

Definition is_fire (a : action) : bool :=
  match a with Fire => true | _ => false end.

(** How often the broadcast callback was called. *)
Definition fired (out : list action) : nat := length (filter is_fire out).

End MessageScheduler.

(** ** [bot.py], class [JabberBot]: the state *)

(** [joined_rooms] is a Python [set], [room_users] a [dict] from a room to the
    [set] of its known nicknames.  [start_time] is the attribute of the
    command handler, in microseconds. *)
Record JabberBot := {
  config : BotConfig;
  boundjid_bare : string;
  joined_rooms : gset string;
  room_users : gmap string (gset string);
  scheduler : MessageScheduler.t;
  start_time : Z
}.

(** An inbound message stanza: [msg['type']], [msg['from'].bare],
    [msg['mucnick']] and [msg['body']]. *)
Record message := {
  mtype : string;
  from_bare : string;
  mucnick : string;
  body : string
}.

(** An inbound presence stanza: [presence['from'].bare] (the room),
    [presence['from'].resource] (the nickname), and whether it announces the
    occupant as online or as gone. *)
Record presence := {
  presence_room : string;
  presence_nick : string;
  online : bool
}.

(** ** [commands.py], class [CommandHandler] *)

Module CommandHandler.

(** What awaiting a handler gives first: the value it returns, or, for
    [ping] with an accepted host, the point where the subprocess is created
    and awaited (lines 67-73).  The text [cmd_ping] returns when the
    subprocess has ended is [cmd_ping_result]. *)
Inductive reply :=
| Return (r : option string)
| Probe (argv : list string).

(** Floating point numbers of the library: [float(s)], where [None] stands
    for [ValueError], and the format [.nf] with [n] digits behind the point. *)
Class PyFloat := {
  float : Type;
  float_of_str : string -> option float;
  format_fixed : nat -> float -> string
}.

(** What the [try] block of [cmd_ping] meets, lines 64-109: an exception,
    [FileNotFoundError] or another one with its text [str(e)] (a failure of
    [decode] is one), or the end of the subprocess, with its return code, its
    two outputs decoded, and the time it took, in milliseconds. *)
Inductive probe_outcome `{PyFloat} :=
| ProbeNotFound
| ProbeRaised (e : string)
| ProbeExited (returncode : Z) (stdout stderr : string) (total_ms : float).

(** The class [[a-zA-Z0-9.-]] *)
Definition hostname_char (c : ascii) : bool :=
  Py.in_range 97 122 c || Py.in_range 65 90 c || Py.in_range 48 57 c
  || Py.in_range 46 46 c || Py.in_range 45 45 c.

(** [[a-zA-Z0-9.-]*$]: the dollar matches at the end of the string and
    before a line feed that ends it. *)
Fixpoint match_tail (s : string) : bool :=
  match s with
  | EmptyString => true
  | String c s' =>
      if hostname_char c then match_tail s'
      else Py.in_range 10 10 c && Py.is_empty s'
  end.

(** [bool(re.match(r'^[a-zA-Z0-9.-]+$', s))] *)
Definition re_match (s : string) : bool :=
  match s with
  | EmptyString => false
  | String c s' => hostname_char c && match_tail s'
  end.

Definition is_valid_hostname (hostname : string) : bool :=
  re_match hostname && (String.length hostname <=? 253)%nat.

Definition cmd_ping (args : list string) : exn reply :=
  let target := match args with a :: _ => a | [] => "google.com" end in
  if negb (is_valid_hostname target)
  then Ok (Return (Some "❌ Invalid hostname format"))
  else Ok (Probe ["ping"; "-c"; "3"; "-W"; "5"; target]).

(** Lines 83-86: the first line of the output that holds [avg] and [ms]. *)
Definition stats_line (output : string) : option string :=
  List.find (fun line => Py.contains line "avg" && Py.contains line "ms")
            (Py.split_on (ascii_of_nat 10) output).

(** Lines 92-93, [float(stats_line.split('=')[1].strip().split('/')[1])];
    [None] stands for the [IndexError] or [ValueError] that line 95 catches. *)
Definition average `{PyFloat} (stats_line : string) : option float :=
  match Py.split_on "=" stats_line with
  | _ :: after :: _ =>
      match Py.split_on "/" (Py.strip after) with
      | _ :: avg :: _ => float_of_str avg
      | _ => None
      end
  | _ => None
  end.

(** [cmd_ping] from the creation of the subprocess on, lines 64-109: the
    text it returns.  [target] is the accepted host. *)
Definition cmd_ping_result `{PyFloat} (target : string) (o : probe_outcome)
    : string :=
  match o with
  | ProbeNotFound => "❌ Ping command not available on this system"
  | ProbeRaised e => "❌ Ping error: " +:+ e
  | ProbeExited returncode stdout stderr total_ms =>
      if returncode =? 0 then
        let fallback :=
          "🏓 Ping to " +:+ target +:+ ": " +:+ format_fixed 0 total_ms +:+
          "ms (total time)" in
        match stats_line stdout with
        | Some line =>
            if Py.is_empty line then fallback
            else
              match average line with
              | Some avg_ms =>
                  "🏓 Ping to " +:+ target +:+ ": " +:+ format_fixed 1 avg_ms +:+
                  "ms average"
              | None => fallback
              end
        | None => fallback
        end
      else "❌ Ping failed to " +:+ target +:+ ": " +:+ Py.strip stderr
  end.

Definition cmd_help : exn reply :=
  Ok (Return (Some (
    "🤖 Available Commands:" +:+ Py.nl +:+
    "• ping [host] - Ping a host (default: google.com)" +:+ Py.nl +:+
    "• time - Show current time (GMT+7)" +:+ Py.nl +:+
    "• status - Show bot status" +:+ Py.nl +:+
    "• uptime - Show bot uptime" +:+ Py.nl +:+
    "• help - Show this help message" +:+ Py.nl +:+ Py.nl +:+
    "💡 Use: !<command> or BotName: <command>"))).

(** Lines 146-158 of [cmd_uptime] *)
Definition uptime_str (uptime_seconds : Z) : string :=
  let days := uptime_seconds / 86400 in
  let hours := (uptime_seconds mod 86400) / 3600 in
  let minutes := (uptime_seconds mod 3600) / 60 in
  let seconds := uptime_seconds mod 60 in
  let s := "" in
  let s := if 0 <? days then s +:+ Py.str_of_int days +:+ "d " else s in
  let s := if 0 <? hours then s +:+ Py.str_of_int hours +:+ "h " else s in
  let s := if 0 <? minutes then s +:+ Py.str_of_int minutes +:+ "m " else s in
  s +:+ Py.str_of_int seconds +:+ "s".

Definition uptime_reply (uptime_seconds : Z) : string :=
  "⏱️ Bot uptime: " +:+ Py.strip (uptime_str uptime_seconds).

Section Handlers.
Context `{PyRuntime}.
(** The bot the handler belongs to, and the system clock in microseconds
    since the epoch. *)
Variable bot : JabberBot.
Variable clock : Z.

Definition cmd_time : exn reply :=
  match DateTime.now clock (timezone_offset (config bot)) with
  | Raise e => Raise e
  | Ok now =>
      let time_str := strftime now "%H:%M:%S GMT+7" in
      let date_str := strftime now "%A, %d %B %Y" in
      Ok (Return (Some ("🕐 Current time: " +:+ time_str +:+ Py.nl +:+
                        "📅 Date: " +:+ date_str)))
  end.

Definition cmd_status : exn reply :=
  Ok (Return (Some (
    "🤖 Bot Status:" +:+ Py.nl +:+
    "• Online: ✅ Yes" +:+ Py.nl +:+
    "• Connected rooms: " +:+
      Py.str_of_int (Z.of_nat (size (joined_rooms bot))) +:+ Py.nl +:+
    "• Server: " +:+ server (config bot) +:+ Py.nl +:+
    "• Nickname: " +:+ nickname (config bot) +:+ Py.nl +:+
    "• Timezone: GMT+" +:+ Py.str_of_int (timezone_offset (config bot))))).

(** [int(time.time() - self.start_time)]: [int] cuts towards zero. *)
Definition cmd_uptime : exn reply :=
  let uptime_seconds := Z.quot (clock - start_time bot) 1000000 in
  Ok (Return (Some (uptime_reply uptime_seconds))).

(** [self.commands] *)
Definition commands : gmap string (list string -> exn reply) :=
  list_to_map
    [ ("ping", cmd_ping);
      ("help", fun _ => cmd_help);
      ("time", fun _ => cmd_time);
      ("status", fun _ => cmd_status);
      ("uptime", fun _ => cmd_uptime) ].

Definition process_command (command_text : string) : reply :=
  if Py.is_empty command_text then Return None
  else
    match Py.split (Py.strip command_text) with
    | [] => Return None
    | part0 :: args =>
        let command := Py.lower part0 in
        match commands !! command with
        | Some handler =>
            match handler args with
            | Ok r => r
            | Raise e => Return (Some ("❌ Error executing command: " +:+ e))
            end
        | None =>
            Return (Some ("❓ Unknown command '" +:+ command +:+
                          "'. Type 'help' for available commands."))
        end
    end.

End Handlers.

End CommandHandler.

(** ** [bot.py], class [JabberBot]: the handlers *)

Module JabberBot.

Definition set_scheduler (s : MessageScheduler.t) (bot : JabberBot) : JabberBot :=
  {| config := config bot; boundjid_bare := boundjid_bare bot;
     joined_rooms := joined_rooms bot; room_users := room_users bot;
     scheduler := s; start_time := start_time bot |}.

Definition set_rooms (jr : gset string) (ru : gmap string (gset string))
    (bot : JabberBot) : JabberBot :=
  {| config := config bot; boundjid_bare := boundjid_bare bot;
     joined_rooms := jr; room_users := ru;
     scheduler := scheduler bot; start_time := start_time bot |}.

(** [self.room_users.get(room, set())]: the known nicknames of a room. *)
Definition occupants (bot : JabberBot) (room : string) : gset string :=
  default ∅ (room_users bot !! room).

(** [str(KeyError(key))] *)
Definition key_error (key : string) : string := "'" +:+ key +:+ "'".

(** [if response:] holds of a string that is not empty. *)
Definition truthy (r : option string) : option string :=
  match r with
  | Some s => if Py.is_empty s then None else Some s
  | None => None
  end.

(** Lines 122-125: the text handed to [process_command], if the body is
    addressed to the bot.  [body] is the stripped body of line 116. *)
Definition addressed_command (nick body : string) : option string :=
  if Py.startswith body (nick +:+ ":") || Py.startswith body "!" then
    let command := Py.strip (Py.replace body (nick +:+ ":") "") in
    Some (if Py.startswith command "!" then Py.drop 1 command else command)
  else None.

Section Handlers.
Context `{PyRuntime}.
Context `{CommandHandler.PyFloat}.

(** The two message handlers run until they await the subprocess of [ping],
    which gives [Exec], or to their end when there is no probe.  What they do
    once the subprocess has ended is [handle_private_message_resumed] and
    [handle_group_message_resumed]. *)
Definition handle_private_message (bot : JabberBot) (clock : Z)
    (msg : message) : list action :=
  if String.eqb (from_bare msg) (boundjid_bare bot) then []
  else
    let body := Py.strip (body msg) in
    match CommandHandler.process_command bot clock body with
    | CommandHandler.Return r =>
        match truthy r with Some response => [Reply response] | None => [] end
    | CommandHandler.Probe argv => [Exec argv]
    end.

Definition handle_group_message (bot : JabberBot) (clock : Z)
    (msg : message) : list action :=
  if String.eqb (mucnick msg) (nickname (config bot)) then []
  else
    let body := Py.strip (body msg) in
    let room := from_bare msg in
    match addressed_command (nickname (config bot)) body with
    | Some command =>
        match CommandHandler.process_command bot clock command with
        | CommandHandler.Return r =>
            match truthy r with
            | Some response => [SendMessage room response "groupchat"]
            | None => []
            end
        | CommandHandler.Probe argv => [Exec argv]
        end
    | None => []
    end.

Definition message_handler (bot : JabberBot) (clock : Z)
    (msg : message) : list action :=
  if String.eqb (mtype msg) "chat" || String.eqb (mtype msg) "normal"
  then handle_private_message bot clock msg
  else if String.eqb (mtype msg) "groupchat"
  then handle_group_message bot clock msg
  else [].

(** The handlers from the end of the subprocess on: [cmd_ping] returns its
    text, [process_command] hands it on, and lines 108-109 and 131-132 send
    it as any other response.  [target] is the host of the probe the handler
    awaited and [o] what became of the probe. *)
Definition handle_private_message_resumed (target : string)
    (o : CommandHandler.probe_outcome) : list action :=
  match truthy (Some (CommandHandler.cmd_ping_result target o)) with
  | Some response => [Reply response]
  | None => []
  end.

Definition handle_group_message_resumed (msg : message) (target : string)
    (o : CommandHandler.probe_outcome) : list action :=
  let room := from_bare msg in
  match truthy (Some (CommandHandler.cmd_ping_result target o)) with
  | Some response => [SendMessage room response "groupchat"]
  | None => []
  end.

Definition message_handler_resumed (msg : message) (target : string)
    (o : CommandHandler.probe_outcome) : list action :=
  if String.eqb (mtype msg) "chat" || String.eqb (mtype msg) "normal"
  then handle_private_message_resumed target o
  else if String.eqb (mtype msg) "groupchat"
  then handle_group_message_resumed msg target o
  else [].

(** [join_muc] is the transport's; [joined] is its outcome.  Whatever is
    raised inside is caught and logged (line 85). *)
Definition join_room (joined : exn unit) (clock : Z) (room_jid : string)
    (bot : JabberBot) : JabberBot * list action :=
  match joined with
  | Raise _ => (bot, [])
  | Ok _ =>
      let bot' := set_rooms ({[room_jid]} ∪ joined_rooms bot)
                            (<[room_jid := ∅]> (room_users bot)) bot in
      match DateTime.now clock (timezone_offset (config bot)) with
      | Raise _ => (bot', [Sleep 2000000])
      | Ok now =>
          match str_format (welcome_message (config bot))
                  [("nickname", nickname (config bot));
                   ("time", strftime now "%H:%M GMT+7")] with
          | Raise _ => (bot', [Sleep 2000000])
          | Ok welcome_msg =>
              (bot', [Sleep 2000000; SendMessage room_jid welcome_msg "groupchat"])
          end
      end
  end.

(** The handler reads the sender of the presence and nothing else of it.
    A [KeyError] of [self.room_users[room]] and a failure of [format]
    leave the handler by an exception, after the changes made so far.  The
    nickname is added before the handler first awaits, so deliveries that
    overlap in time change the state as deliveries one after the other do. *)
Definition muc_presence_handler (bot : JabberBot) (p : presence)
    : JabberBot * exn (list action) :=
  let room := presence_room p in
  let nick := presence_nick p in
  if decide (room ∈ joined_rooms bot) then
    if decide (nick ∈ occupants bot room) then (bot, Ok [])
    else if String.eqb nick (nickname (config bot)) then (bot, Ok [])
    else
      match room_users bot !! room with
      | None => (bot, Raise (key_error room))
      | Some users =>
          let bot' := set_rooms (joined_rooms bot)
                        (<[room := {[nick]} ∪ users]> (room_users bot)) bot in
          match str_format (user_welcome_message (config bot))
                  [("nickname", nick); ("room", room);
                   ("bot_nick", nickname (config bot))] with
          | Raise e => (bot', Raise e)
          | Ok welcome_msg =>
              (bot', Ok [Sleep 1000000; SendMessage room welcome_msg "groupchat"])
          end
      end
  else (bot, Ok []).

Definition disconnected_handler (bot : JabberBot) : JabberBot * list action :=
  (set_scheduler (MessageScheduler.stop (scheduler bot)) bot, [Sleep 5000000]).

Definition send_hourly_message (bot : JabberBot) (clock : Z) : exn (list action) :=
  match DateTime.now clock (timezone_offset (config bot)) with
  | Raise e => Raise e
  | Ok now =>
      match str_format (hourly_message (config bot))
              [("time", strftime now "%H:%M");
               ("date", strftime now "%d/%m/%Y");
               ("day", strftime now "%A")] with
      | Raise e => Raise e
      | Ok message =>
          Ok (map (fun room => SendMessage room message "groupchat")
                  (elements (joined_rooms bot)))
      end
  end.

(** The welcome events among the actions of a handler: the group messages
    it sends. *)
Definition welcomes (r : exn (list action)) : list (string * string) :=
  match r with
  | Ok out =>
      omap (fun a => match a with
                     | SendMessage mto mbody _ => Some (mto, mbody)
                     | _ => None
                     end) out
  | Raise _ => []
  end.

(** The same presence delivered [n] times: the state at the end and the
    welcome events of each delivery, in order. *)
Fixpoint repeat_presence (n : nat) (bot : JabberBot) (p : presence)
    : JabberBot * list (list (string * string)) :=
  match n with
  | O => (bot, [])
  | S k =>
      let '(bot1, r) := muc_presence_handler bot p in
      let '(bot2, ws) := repeat_presence k bot1 p in
      (bot2, welcomes r :: ws)
  end.

End Handlers.

End JabberBot.

(** ** The shape of an uptime text

    A text [Xd Xh Xm Xs] is a list of fields, each a number and a unit,
    written with one space between two fields. *)

Module UptimeFormat.

Inductive unit_of_time := Days | Hours | Minutes | Seconds.

Definition suffix (u : unit_of_time) : string :=
  match u with Days => "d" | Hours => "h" | Minutes => "m" | Seconds => "s" end.

Definition seconds_in (u : unit_of_time) : Z :=
  match u with Days => 86400 | Hours => 3600 | Minutes => 60 | Seconds => 1 end.

Definition field_text (f : Z * unit_of_time) : string :=
  Py.str_of_int (fst f) +:+ suffix (snd f).

Fixpoint join_fields (fs : list (Z * unit_of_time)) : string :=
  match fs with
  | [] => ""
  | [f] => field_text f
  | f :: fs' => field_text f +:+ " " +:+ join_fields fs'
  end.

Fixpoint duration (fs : list (Z * unit_of_time)) : Z :=
  match fs with
  | [] => 0
  | f :: fs' => fst f * seconds_in (snd f) + duration fs'
  end.

End UptimeFormat.

(** ** Readings of the specification used in the statements *)

(** "Alphanumerics, dot, hyphen", on ASCII code points. *)
Definition alnum_dot_hyphen (c : ascii) : Prop :=
  let n := N_of_ascii c in
  (97 <= n <= 122 \/ 65 <= n <= 90 \/ 48 <= n <= 57 \/ n = 46 \/ n = 45)%N.

(** Every character of a string satisfies [P]. *)
Definition only_of (P : ascii -> Prop) (s : string) : Prop :=
  Forall P (list_ascii_of_string s).

(** The addressing parse in the words of the specification: the body begins
    with the prefix [<nickname>:] or with [!]; that leading prefix is
    stripped, and a following [!]; nothing else of the body changes.  It is
    lines 122-125 with the removal of the prefix confined to the start. *)
Definition strip_leading_prefix (nick body : string) : option string :=
  let prefix := nick +:+ ":" in
  if Py.startswith body prefix || Py.startswith body "!" then
    let rest := if Py.startswith body prefix
                then Py.drop (String.length prefix) body else body in
    let command := Py.strip rest in
    Some (if Py.startswith command "!" then Py.drop 1 command else command)
  else None.

(** ** A configuration and a runtime for the examples *)

(** The default values of [BotConfig.__init__], lines 19-28. *)
Definition default_config : BotConfig :=
  {| server := "jabber.ru";
     nickname := "PyBot";
     rooms := [];
     timezone_offset := 7;
     welcome_message := "🤖 PyBot is now online! Time: {time}";
     user_welcome_message :=
       "👋 Welcome {nickname}! I'm {bot_nick}, your friendly bot assistant.";
     hourly_message := "⏰ Time update: {time} GMT+7 | Date: {date} ({day})" |}.

Module ExampleRuntime.

Definition two_digits (n : Z) : string :=
  if n <? 10 then "0" +:+ Py.str_of_int n else Py.str_of_int n.

(** The directives [%H], [%M] and [%S]; every other character is copied. *)
Fixpoint strftime_go (d : datetime) (directive : bool) (fmt : string) : string :=
  match fmt with
  | EmptyString => EmptyString
  | String c fmt' =>
      if directive then
        (if Ascii.eqb c "H" then two_digits (hour d)
         else if Ascii.eqb c "M" then two_digits (minute d)
         else if Ascii.eqb c "S" then two_digits (second d)
         else String "%" (String c EmptyString))
        +:+ strftime_go d false fmt'
      else if Ascii.eqb c "%" then strftime_go d true fmt'
      else String c (strftime_go d false fmt')
  end.

Fixpoint assoc (key : string) (kw : list (string * string)) : option string :=
  match kw with
  | [] => None
  | (k, v) :: kw' => if String.eqb k key then Some v else assoc key kw'
  end.

(** Replacement fields of the plain form [{name}]; a name that is not among
    the keyword arguments raises [KeyError]. *)
Fixpoint format_go (kw : list (string * string)) (field : option string)
    (tmpl : string) : exn string :=
  match tmpl with
  | EmptyString =>
      match field with
      | None => Ok EmptyString
      | Some _ => Raise "expected '}' before end of string"
      end
  | String c tmpl' =>
      match field with
      | None =>
          if Ascii.eqb c "{" then format_go kw (Some EmptyString) tmpl'
          else
            match format_go kw None tmpl' with
            | Ok r => Ok (String c r)
            | Raise e => Raise e
            end
      | Some name =>
          if Ascii.eqb c "}" then
            match assoc name kw with
            | Some v =>
                match format_go kw None tmpl' with
                | Ok r => Ok (v +:+ r)
                | Raise e => Raise e
                end
            | None => Raise (JabberBot.key_error name)
            end
          else format_go kw (Some (name +:+ String c EmptyString)) tmpl'
      end
  end.

Definition runtime : PyRuntime :=
  {| strftime := fun d fmt => strftime_go d false fmt;
     str_format := fun tmpl kw => format_go kw None tmpl |}.

(** A bot as [__init__] leaves it, with the default configuration. *)
Definition fresh_bot : JabberBot :=
  {| config := default_config;
     boundjid_bare := "pybot@jabber.ru";
     joined_rooms := ∅;
     room_users := ∅;
     scheduler := MessageScheduler.init 7;
     start_time := 0 |}.

(** The same bot once it has joined one room. *)
Definition bot_in (room : string) (users : gset string) : JabberBot :=
  {| config := default_config;
     boundjid_bare := "pybot@jabber.ru";
     joined_rooms := {[room]};
     room_users := {[room := users]};
     scheduler := MessageScheduler.init 7;
     start_time := 0 |}.

End ExampleRuntime.

(** ** Vocabulary of the proofs *)

(** The first character is not white space. *)
Definition head_nonspace (s : string) : bool :=
  match s with String c _ => negb (Py.isspace c) | EmptyString => false end.

(** The last character is not white space. *)
Definition ends_nonspace (s : string) : Prop :=
  exists t c, s = t +:+ String c "" /\ Py.isspace c = false.

Definition is_digit (c : ascii) : bool := Py.in_range 48 57 c.

(** No character of the string is white space. *)
Definition no_space (s : string) : Prop :=
  only_of (fun c => Py.isspace c = false) s.

(** The same presence with the other value of its online flag. *)
Definition flip_online (p : presence) : presence :=
  {| presence_room := presence_room p; presence_nick := presence_nick p;
     online := negb (online p) |}.

(** The task the scheduler holds, if any, is done or is asked to cancel. *)
Definition task_cancelled (s : MessageScheduler.t) : bool :=
  match MessageScheduler.task s with
  | None => true
  | Some h =>
      match MessageScheduler.tasks s !! h with
      | None => true
      | Some tk =>
          MessageScheduler.must_cancel tk ||
          match MessageScheduler.at_point tk with
          | MessageScheduler.Done => true
          | _ => false
          end
      end
  end.

(** A task that can still run code of [_schedule_loop]: it is not done and
    has not been asked to cancel. *)
Definition live (tk : MessageScheduler.task_state) : bool :=
  negb (MessageScheduler.must_cancel tk) &&
  match MessageScheduler.at_point tk with
  | MessageScheduler.Done => false
  | _ => true
  end.

(** The running flag and the task handle agree: a live task is the one the
    scheduler holds, and the scheduler is running. *)
Definition consistent (s : MessageScheduler.t) : Prop :=
  forall h tk, MessageScheduler.tasks s !! h = Some tk -> live tk = true ->
    MessageScheduler.running s = true /\ MessageScheduler.task s = Some h.

(** A stopped scheduler without a live task. *)
Definition quiet (s : MessageScheduler.t) : Prop :=
  MessageScheduler.running s = false /\
  forall h tk, MessageScheduler.tasks s !! h = Some tk -> live tk = false.

(** No event of the list is a call of [start]. *)
Definition no_start (es : list MessageScheduler.event) : bool :=
  forallb (fun e => negb (MessageScheduler.is_start e)) es.


(** ** [bot.py]: the life of a session *)

Module Session.

(** [JabberBot.__init__], lines 17-28: no room is joined, no occupant is
    known, the scheduler is made for the configured offset and is not
    running.  [jid_bare] is the bare address the bot is bound to and [now]
    the clock at the start, in microseconds. *)
Definition init (cfg : BotConfig) (jid_bare : string) (now : Z) : JabberBot :=
  {| config := cfg;
     boundjid_bare := jid_bare;
     joined_rooms := ∅;
     room_users := ∅;
     scheduler := MessageScheduler.init (timezone_offset cfg);
     start_time := now |}.

(** What [await self.get_roster()] does: it returns, or raises [IqError],
    which line 54 catches, or raises something else, which leaves the
    handler. *)
Inductive roster_outcome :=
| RosterOk
| RosterIqError
| RosterRaises (e : string).

(** What the session handlers do to the outside world: the presence stanza of
    [send_presence], and the actions of the other handlers. *)
Inductive session_action :=
| SendPresence
| Act (a : action).

Section Handlers.
Context `{PyRuntime}.

(** The loop of lines 58-59.  [env i] is what the [i]-th turn of the loop
    meets: the outcome of [join_muc] and the clock. *)
Fixpoint join_rooms (env : nat -> exn unit * Z) (i : nat) (rooms : list string)
    (bot : JabberBot) : JabberBot * list action :=
  match rooms with
  | [] => (bot, [])
  | room :: rest =>
      let '(bot1, out1) := JabberBot.join_room (fst (env i)) (snd (env i)) room bot in
      let '(bot2, out2) := join_rooms env (S i) rest bot1 in
      (bot2, out1 ++ out2)
  end.

(** [session_start], lines 44-64: the new state, what was sent, and the
    exception that left the handler, if one did.  The handler is taken in one
    piece: what other handlers do while it awaits is not woven in. *)
Definition session_start (roster : roster_outcome) (env : nat -> exn unit * Z)
    (bot : JabberBot) : JabberBot * list session_action * option string :=
  match roster with
  | RosterRaises e => (bot, [SendPresence], Some e)
  | _ =>
      let '(bot1, out) := join_rooms env 0 (rooms (config bot)) bot in
      (JabberBot.set_scheduler (MessageScheduler.start (scheduler bot1)) bot1,
       SendPresence :: map Act out, None)
  end.

(** The events the bot has a handler for (lines 31-35), and the resumption
    of a task of its scheduler, whose callback is [send_hourly_message].  A
    message handler that starts a probe is taken up to there; what it does
    at the end of the probe, [message_handler_resumed], sends one message and
    reads and changes nothing of the state, and is not among the events. *)
Inductive event :=
| SessionStart (roster : roster_outcome) (env : nat -> exn unit * Z)
| Message (clock : Z) (msg : message)
| MucPresence (p : presence)
| MucJoin (p : presence)
| Disconnected
| Resume (h : nat) (clock : Z).

Definition step (bot : JabberBot) (e : event) : JabberBot * list session_action :=
  match e with
  | SessionStart roster env =>
      let '(bot', out, _) := session_start roster env bot in (bot', out)
  | Message clock msg => (bot, map Act (JabberBot.message_handler bot clock msg))
  | MucPresence p =>
      let '(bot', r) := JabberBot.muc_presence_handler bot p in
      (bot', match r with Ok out => map Act out | Raise _ => [] end)
  | MucJoin _ => (bot, [])
  | Disconnected =>
      let '(bot', out) := JabberBot.disconnected_handler bot in (bot', map Act out)
  | Resume h clock =>
      let '(s, out) :=
        MessageScheduler._schedule_loop clock
          (JabberBot.send_hourly_message bot clock) h (scheduler bot) in
      (JabberBot.set_scheduler s bot, map Act out)
  end.

Fixpoint run (bot : JabberBot) (es : list event) : JabberBot * list session_action :=
  match es with
  | [] => (bot, [])
  | e :: es' =>
      let '(bot1, out1) := step bot e in
      let '(bot2, out2) := run bot1 es' in
      (bot2, out1 ++ out2)
  end.

End Handlers.

End Session.

(** Every joined room has an occupant set. *)
Definition rooms_have_sets (bot : JabberBot) : Prop :=
  forall room, room ∈ joined_rooms bot -> is_Some (room_users bot !! room).

(** The bot's own nickname is in no occupant set. *)
Definition bot_not_occupant (bot : JabberBot) : Prop :=
  forall room, nickname (config bot) ∉ JabberBot.occupants bot room.

(** What holds of the bot all along a session. *)
Definition session_invariant (cfg : BotConfig) (bot : JabberBot) : Prop :=
  config bot = cfg
  /\ rooms_have_sets bot
  /\ bot_not_occupant bot
  /\ consistent (scheduler bot)
  /\ MessageScheduler.offset (scheduler bot) = timezone_offset cfg.

(** A running scheduler holds a live task. *)
Definition held_live (s : MessageScheduler.t) : Prop :=
  MessageScheduler.running s = true ->
  exists h tk,
    MessageScheduler.task s = Some h
    /\ MessageScheduler.tasks s !! h = Some tk
    /\ live tk = true.

(** No task of the scheduler waits for the top of the hour. *)
Definition never_waiting (s : MessageScheduler.t) : Prop :=
  forall h tk, MessageScheduler.tasks s !! h = Some tk ->
    MessageScheduler.at_point tk <> MessageScheduler.Waiting.

(** A text of white space only; the empty text is one. *)
Definition blank (s : string) : Prop :=
  only_of (fun c => Py.isspace c = true) s.

(** ** [config.py]: the environment and the validation *)

Module Config.

(** [[room.strip() for room in s.split(',') if room.strip()]], lines 64
    and 103. *)
Definition parse_rooms (s : string) : list string :=
  omap (fun room =>
          let r := Py.strip room in
          if Py.is_empty r then None else Some r)
       (Py.split_on "," s).

(** [int(s)] of the Python library; [None] stands for [ValueError]. *)
Class PyInt := { int_of_str : string -> option Z }.

(** The attributes of a [BotConfig] object: the ones the core reads, and the
    account and the port. *)
Record t := {
  jid : option string;
  password : option string;
  port : Z;
  core : BotConfig
}.

(** [not x] for an attribute that is [None] or a string. *)
Definition missing (x : option string) : bool :=
  match x with
  | None => true
  | Some s => Py.is_empty s
  end.

Section Loading.
Context `{PyInt}.

(** [int(os.getenv(name, str(n)))] under [except ValueError]: without the
    variable the number is read back from its own text. *)
Definition getenv_int (env : gmap string string) (name : string) (n : Z) : Z :=
  match env !! name with
  | None => n
  | Some v => match int_of_str v with Some m => m | None => n end
  end.

(** [load_env_config], lines 81-103; [env] is [os.environ]. *)
Definition load_env_config (env : gmap string string) (c : t) : t :=
  {| jid := match env !! "XMPP_JID" with Some v => Some v | None => jid c end;
     password :=
       match env !! "XMPP_PASSWORD" with Some v => Some v | None => password c end;
     port := getenv_int env "XMPP_PORT" (port c);
     core :=
       {| server := default (server (core c)) (env !! "XMPP_SERVER");
          nickname := default (nickname (core c)) (env !! "XMPP_NICKNAME");
          rooms :=
            (let env_rooms := default "" (env !! "XMPP_ROOMS") in
             if Py.is_empty env_rooms then rooms (core c)
             else parse_rooms env_rooms);
          timezone_offset :=
            getenv_int env "TIMEZONE_OFFSET" (timezone_offset (core c));
          welcome_message := welcome_message (core c);
          user_welcome_message := user_welcome_message (core c);
          hourly_message := hourly_message (core c) |} |}.

End Loading.

(** [validate_config], lines 105-113 *)
Definition validate_config (c : t) : exn unit :=
  if missing (jid c) then
    Raise "XMPP JID is required (set in config.ini or XMPP_JID environment variable)"
  else if missing (password c) then
    Raise "XMPP password is required (set in config.ini or XMPP_PASSWORD environment variable)"
  else Ok tt.

End Config.

(** A reading of [int] for the examples: decimal digits behind an optional
    sign, with white space around them. *)
Definition example_int : Config.PyInt :=
  {| Config.int_of_str :=
       fun s => option_map Z.of_int (NilZero.int_of_string (Py.strip s)) |}.

(** A character that is white space or the comma. *)
Definition space_or_comma (c : ascii) : Prop :=
  Py.isspace c = true \/ c = ","%char.

(** A room name as the configuration keeps it: not empty, without white
    space around it and without a comma. *)
Definition clean_room (r : string) : Prop :=
  r <> "" /\ Py.strip r = r /\ only_of (fun c => c <> ","%char) r.

Definition is_session_fire (a : Session.session_action) : bool :=
  match a with
  | Session.Act Fire => true
  | _ => false
  end.

(** How often the hourly callback was called in what a session did. *)
Definition session_fired (out : list Session.session_action) : nat :=
  length (filter is_session_fire out).

(** No event of the list is a run of [session_start]. *)
Definition no_session_start (es : list Session.event) : bool :=
  forallb (fun e => match e with
                    | Session.SessionStart _ _ => false
                    | _ => true
                    end) es.

(** * Properties *)

(** ** Strings *)

Section StringFacts.

Lemma str_app_nil_l (s : string) : "" +:+ s = s.
Proof. reflexivity. Qed.

Lemma str_app_cons (c : ascii) (a b : string) :
  String c a +:+ b = String c (a +:+ b).
Proof. reflexivity. Qed.

Lemma str_app_assoc (a b c : string) : (a +:+ b) +:+ c = a +:+ (b +:+ c).
Proof.
  induction a as [|x a IH]; [reflexivity|].
  rewrite !str_app_cons, IH. reflexivity.
Qed.

Lemma rstrip_snoc (s : string) (c : ascii) :
  Py.isspace c = false -> Py.rstrip (s +:+ String c "") = s +:+ String c "".
Proof.
  intros Hc. induction s as [|x s IH].
  - rewrite str_app_nil_l. simpl. rewrite Hc. reflexivity.
  - rewrite str_app_cons. simpl. rewrite IH.
    destruct s; rewrite ?str_app_nil_l, ?str_app_cons, andb_false_r; reflexivity.
Qed.

Lemma lstrip_cons (c : ascii) (s : string) :
  Py.isspace c = false -> Py.lstrip (String c s) = String c s.
Proof. intros Hc. simpl. rewrite Hc. reflexivity. Qed.

Lemma head_nonspace_app (a b : string) :
  head_nonspace a = true -> head_nonspace (a +:+ b) = true.
Proof. destruct a; [discriminate|]. rewrite str_app_cons. trivial. Qed.

Lemma ends_nonspace_app (a b : string) :
  ends_nonspace b -> ends_nonspace (a +:+ b).
Proof.
  intros (t & c & -> & Hc). exists (a +:+ t), c.
  rewrite str_app_assoc. auto.
Qed.

Lemma ends_nonspace_cons (x : ascii) (s : string) :
  ends_nonspace s -> ends_nonspace (String x s).
Proof. apply (ends_nonspace_app (String x "")). Qed.

Lemma ends_nonspace_s : ends_nonspace "s".
Proof. exists "", "s"%char. split; reflexivity. Qed.

(** [strip] leaves a text alone that begins and ends with something else
    than white space. *)
Lemma strip_keep (s : string) :
  head_nonspace s = true -> ends_nonspace s -> Py.strip s = s.
Proof.
  intros Hh (t & c & Ht & Hc). unfold Py.strip.
  destruct s as [|x s]; [discriminate|].
  rewrite lstrip_cons by (apply negb_true_iff, Hh).
  rewrite Ht. apply rstrip_snoc, Hc.
Qed.

Lemma digit_not_space (c : ascii) : is_digit c = true -> Py.isspace c = false.
Proof.
  unfold is_digit, Py.isspace, Py.in_range. intros H.
  apply andb_true_iff in H as [H1 H2].
  apply N.leb_le in H1, H2.
  repeat match goal with
  | |- context [(?a <=? ?b)%N] => destruct (N.leb_spec a b)
  end; try reflexivity; simpl; lia.
Qed.

Lemma uint_head (d : Decimal.uint) :
  exists c r, NilZero.string_of_uint d = String c r /\ is_digit c = true.
Proof. destruct d; simpl; eexists _, _; (split; reflexivity). Qed.

(** The decimal text of a number that is not negative begins with a digit. *)
Lemma str_of_int_head (n : Z) :
  0 <= n -> exists c r, Py.str_of_int n = String c r /\ is_digit c = true.
Proof.
  intros Hn. unfold Py.str_of_int.
  destruct n as [|p|p]; [| |lia].
  - exists "0"%char, ""; split; reflexivity.
  - apply uint_head.
Qed.

Lemma head_nonspace_str (n : Z) :
  0 <= n -> head_nonspace (Py.str_of_int n) = true.
Proof.
  intros Hn. destruct (str_of_int_head n Hn) as (c & r & -> & Hc).
  simpl. rewrite (digit_not_space c Hc). reflexivity.
Qed.

End StringFacts.

Ltac norm_app :=
  repeat first [rewrite str_app_assoc | rewrite str_app_nil_l | rewrite str_app_cons].

Ltac elem_cases H :=
  repeat (apply elem_of_cons in H as [H|H]);
  [ .. | apply elem_of_nil in H; contradiction ].

(** ** The uptime text *)

Section Uptime.
Import UptimeFormat.

Local Ltac uptime_text_ok :=
  unfold field_text, fst, snd, suffix; norm_app;
  rewrite strip_keep;
  [ reflexivity
  | apply head_nonspace_app, head_nonspace_str; lia
  | repeat first [ apply ends_nonspace_s | apply ends_nonspace_app
                 | apply ends_nonspace_cons ] ].

(** C4.  For an elapsed time of [s >= 0] seconds the reply of [uptime] is
    the fixed label followed by fields [Xd Xh Xm Xs], in this order and
    one space apart: the seconds field is always there and is the last one;
    a field of days, hours or minutes is there only with a value above
    zero, so no zero-valued unit leads the text; hours stay below 24 and
    minutes below 60; and the fields add up to [s].  90061 seconds read
    [1d 1h 1m 1s] and 45 seconds read [45s]. *)
Theorem cmd_uptime_format :
  (forall s : Z, 0 <= s ->
     exists fields : list (Z * unit_of_time),
       CommandHandler.uptime_reply s = "⏱️ Bot uptime: " +:+ join_fields fields
       /\ map snd fields `sublist_of` [Days; Hours; Minutes; Seconds]
       /\ last fields = Some (s mod 60, Seconds)
       /\ (forall v u, (v, u) ∈ fields -> u <> Seconds -> 0 < v)
       /\ (forall v, (v, Hours) ∈ fields -> v < 24)
       /\ (forall v, (v, Minutes) ∈ fields -> v < 60)
       /\ duration fields = s)
  /\ CommandHandler.uptime_reply 90061 = "⏱️ Bot uptime: 1d 1h 1m 1s"
  /\ CommandHandler.uptime_reply 45 = "⏱️ Bot uptime: 45s".
Proof.
  split; [|split; reflexivity].
  intros s Hs. unfold CommandHandler.uptime_reply, CommandHandler.uptime_str.
  set (days := s / 86400). set (hours := s mod 86400 / 3600).
  set (minutes := s mod 3600 / 60). set (seconds := s mod 60).
  assert (Hsec : 0 <= seconds) by (subst seconds; Z.div_mod_to_equations; lia).
  assert (Hd : 0 <= days) by (subst days; Z.div_mod_to_equations; lia).
  assert (Hh : 0 <= hours < 24) by (subst hours; Z.div_mod_to_equations; lia).
  assert (Hm : 0 <= minutes < 60) by (subst minutes; Z.div_mod_to_equations; lia).
  assert (Hsum : days * 86400 + hours * 3600 + minutes * 60 + seconds = s)
    by (subst days hours minutes seconds; Z.div_mod_to_equations; lia).
  exists ((if 0 <? days then [(days, Days)] else []) ++
          (if 0 <? hours then [(hours, Hours)] else []) ++
          (if 0 <? minutes then [(minutes, Minutes)] else []) ++
          [(seconds, Seconds)]).
  clearbody days hours minutes seconds.
  destruct (Z.ltb_spec 0 days), (Z.ltb_spec 0 hours), (Z.ltb_spec 0 minutes);
    cbn [app join_fields map last duration seconds_in fst snd];
    (split; [f_equal; uptime_text_ok|]);
    (split; [repeat first [ apply sublist_nil | apply sublist_skip
                          | apply sublist_cons ]|]);
    (split; [reflexivity|]);
    (split; [intros v u Hin Hu; elem_cases Hin; inversion Hin; subst;
             first [lia | congruence]|]);
    (split; [intros v Hin; elem_cases Hin; inversion Hin; subst; lia|]);
    (split; [intros v Hin; elem_cases Hin; inversion Hin; subst; lia|]);
    lia.
Qed.

(** The handler applies this to the whole seconds since the start. *)
Lemma cmd_uptime_elapsed (bot : JabberBot) (clock : Z) :
  start_time bot <= clock ->
  CommandHandler.cmd_uptime bot clock =
  Ok (CommandHandler.Return
        (Some (CommandHandler.uptime_reply ((clock - start_time bot) / 1000000)))).
Proof.
  intros Hle. unfold CommandHandler.cmd_uptime.
  rewrite Z.quot_div_nonneg by lia. reflexivity.
Qed.

Lemma cmd_uptime_format_witness :
  0 <= 86405 /\
  exists fields : list (Z * unit_of_time),
    CommandHandler.uptime_reply 86405 = "⏱️ Bot uptime: " +:+ join_fields fields
    /\ map snd fields `sublist_of` [Days; Hours; Minutes; Seconds]
    /\ last fields = Some (86405 mod 60, Seconds)
    /\ (forall v u, (v, u) ∈ fields -> u <> Seconds -> 0 < v)
    /\ (forall v, (v, Hours) ∈ fields -> v < 24)
    /\ (forall v, (v, Minutes) ∈ fields -> v < 60)
    /\ duration fields = 86405.
Proof.
  split; [lia|]. apply (proj1 cmd_uptime_format 86405). lia.
Defined.

(** Units of value zero are left out wherever they stand, not only in
    front. *)
Example uptime_inner_zero :
  CommandHandler.uptime_reply 86405 = "⏱️ Bot uptime: 1d 5s".
Proof. reflexivity. Qed.

End Uptime.

(** ** Tokens and host names *)

Section Tokens.

Lemma only_of_nil (P : ascii -> Prop) : only_of P "".
Proof. constructor. Qed.

Lemma only_of_cons (P : ascii -> Prop) (c : ascii) (s : string) :
  only_of P (String c s) <-> P c /\ only_of P s.
Proof. unfold only_of. simpl. apply Forall_cons. Qed.

(** A token of [split] is not empty and holds no white space. *)
Lemma split_tokens (s t : string) :
  t ∈ Py.split s -> t <> "" /\ no_space t.
Proof.
  revert t. induction s as [|c s IH]; intros t Hin; simpl in Hin.
  - apply elem_of_nil in Hin. contradiction.
  - destruct (Py.isspace c) eqn:Hc; [auto|].
    assert (Hone : String c "" <> "" /\ no_space (String c "")).
    { split; [discriminate|].
      apply only_of_cons. split; [exact Hc|apply only_of_nil]. }
    destruct s as [|c' s'].
    + apply list_elem_of_singleton in Hin as ->. exact Hone.
    + destruct (Py.isspace c') eqn:Hc'.
      * apply elem_of_cons in Hin as [->|Hin]; auto.
      * destruct (Py.split (String c' s')) as [|t0 ts] eqn:Hsp.
        -- apply list_elem_of_singleton in Hin as ->. exact Hone.
        -- apply elem_of_cons in Hin as [->|Hin].
           ++ destruct (IH t0) as [_ Hns]; [left|].
              split; [discriminate|]. apply only_of_cons. auto.
           ++ apply IH. right. exact Hin.
Qed.

Lemma newline_is_space (c : ascii) :
  Py.in_range 10 10 c = true -> Py.isspace c = true.
Proof.
  unfold Py.isspace, Py.in_range. intros H.
  apply andb_true_iff in H as [H1 H2]. apply N.leb_le in H1, H2.
  replace (N_of_ascii c) with 10%N by lia. reflexivity.
Qed.

Lemma hostname_char_spec (c : ascii) :
  CommandHandler.hostname_char c = true <-> alnum_dot_hyphen c.
Proof.
  unfold CommandHandler.hostname_char, alnum_dot_hyphen, Py.in_range.
  rewrite !orb_true_iff, !andb_true_iff, !N.leb_le. lia.
Qed.

(** Without white space in the string the dollar of the pattern can only
    match at its end. *)
Lemma match_tail_no_space (s : string) :
  no_space s ->
  CommandHandler.match_tail s = true <-> only_of alnum_dot_hyphen s.
Proof.
  induction s as [|c s IH]; intros Hns.
  - split; [intros _; apply only_of_nil|reflexivity].
  - apply only_of_cons in Hns as [Hc Hns]. simpl.
    rewrite only_of_cons, <- hostname_char_spec.
    destruct (CommandHandler.hostname_char c) eqn:Hh.
    + rewrite (IH Hns). tauto.
    + destruct (Py.in_range 10 10 c) eqn:Hnl.
      * apply newline_is_space in Hnl. congruence.
      * simpl. split; [discriminate|intros [? _]; discriminate].
Qed.

(** On a token, the validation accepts exactly the hosts made of letters,
    digits, dots and hyphens that are at most 253 characters long. *)
Lemma is_valid_hostname_token (h : string) :
  h <> "" -> no_space h ->
  CommandHandler.is_valid_hostname h = true <->
  only_of alnum_dot_hyphen h /\ (String.length h <= 253)%nat.
Proof.
  intros Hne Hns. unfold CommandHandler.is_valid_hostname.
  rewrite andb_true_iff, Nat.leb_le.
  destruct h as [|c h]; [contradiction|].
  pose proof (match_tail_no_space (String c h) Hns) as Hmt.
  simpl in Hmt. unfold CommandHandler.re_match.
  rewrite andb_true_iff.
  destruct (CommandHandler.hostname_char c) eqn:Hh.
  - rewrite <- Hmt. tauto.
  - split.
    + intros [[? _] _]. discriminate.
    + intros [Hall _]. apply only_of_cons in Hall as [Hc _].
      apply hostname_char_spec in Hc. congruence.
Qed.

(** Called on other strings than tokens, the pattern refuses the empty
    string and lets one line feed at the end pass. *)
Example is_valid_hostname_off_tokens :
  CommandHandler.is_valid_hostname "" = false /\
  CommandHandler.is_valid_hostname ("example.com" +:+ Py.nl) = true.
Proof. split; reflexivity. Qed.


Lemma contains_prefix (s x : string) :
  String.prefix x s = true -> Py.contains s x = true.
Proof. intros Hp. destruct s; simpl in *; rewrite Hp; reflexivity. Qed.


End Tokens.

(** ** The dispatcher *)

Section Dispatch.
Context `{PyRuntime}.
Variable bot : JabberBot.
Variable clock : Z.

Lemma commands_ping :
  CommandHandler.commands bot clock !! "ping" = Some CommandHandler.cmd_ping.
Proof. reflexivity. Qed.


Lemma split_nonempty_text (text : string) (t : string) (ts : list string) :
  Py.split (Py.strip text) = t :: ts -> Py.is_empty text = false.
Proof. destruct text; [discriminate|reflexivity]. Qed.

Lemma process_command_ping (text c : string) (args : list string) :
  Py.split (Py.strip text) = c :: args -> Py.lower c = "ping" ->
  CommandHandler.process_command bot clock text =
  match CommandHandler.cmd_ping args with
  | Ok r => r
  | Raise e => CommandHandler.Return (Some ("❌ Error executing command: " +:+ e))
  end.
Proof.
  intros Hsp Hlow. unfold CommandHandler.process_command.
  rewrite (split_nonempty_text _ _ _ Hsp), Hsp, Hlow, commands_ping.
  reflexivity.
Qed.

(** C5.  An argument [h] of [ping] that is a token, not empty and without
    white space, as every argument the dispatcher hands on is: the host is
    accepted if and only if it is made of letters, digits, dots and hyphens
    only and is at most 253 characters long; an accepted host reaches the
    probe; a rejected one is answered by the validation error and the
    handler returns before the probe.  The same, seen from the text of the
    command, for an ASCII text whose first token is [ping] in any case and
    whose second token is [h].  [evil;rm -rf /] is rejected and
    [example.com] accepted. *)
Theorem ping_validation :
  (forall (h : string) (rest : list string),
     h <> "" -> no_space h ->
     (CommandHandler.is_valid_hostname h = true <->
        only_of alnum_dot_hyphen h /\ (String.length h <= 253)%nat)
     /\ (CommandHandler.is_valid_hostname h = true ->
         CommandHandler.cmd_ping (h :: rest) =
         Ok (CommandHandler.Probe ["ping"; "-c"; "3"; "-W"; "5"; h]))
     /\ (CommandHandler.is_valid_hostname h = false ->
         CommandHandler.cmd_ping (h :: rest) =
         Ok (CommandHandler.Return (Some "❌ Invalid hostname format"))))
  /\ (forall (text c h : string) (rest : list string),
     Py.isascii text = true ->
     Py.split (Py.strip text) = c :: h :: rest ->
     Py.lower c = "ping" ->
     (CommandHandler.is_valid_hostname h = true <->
        only_of alnum_dot_hyphen h /\ (String.length h <= 253)%nat)
     /\ (CommandHandler.is_valid_hostname h = true ->
         CommandHandler.process_command bot clock text =
         CommandHandler.Probe ["ping"; "-c"; "3"; "-W"; "5"; h])
     /\ (CommandHandler.is_valid_hostname h = false ->
         CommandHandler.process_command bot clock text =
         CommandHandler.Return (Some "❌ Invalid hostname format")))
  /\ CommandHandler.is_valid_hostname "evil;rm -rf /" = false
  /\ CommandHandler.process_command bot clock "ping evil;rm -rf /" =
     CommandHandler.Return (Some "❌ Invalid hostname format")
  /\ CommandHandler.is_valid_hostname "example.com" = true
  /\ CommandHandler.process_command bot clock "ping example.com" =
     CommandHandler.Probe ["ping"; "-c"; "3"; "-W"; "5"; "example.com"].
Proof.
  split; [|split; [|repeat split; reflexivity]].
  - intros h rest Hne Hns.
    split; [apply is_valid_hostname_token; assumption|].
    unfold CommandHandler.cmd_ping.
    split; intros ->; reflexivity.
  - intros text c h rest _ Hsp Hlow.
    assert (Hin : h ∈ Py.split (Py.strip text)) by (rewrite Hsp; set_solver).
    apply split_tokens in Hin as [Hne Hns].
    split; [apply is_valid_hostname_token; assumption|].
    rewrite (process_command_ping _ _ _ Hsp Hlow).
    unfold CommandHandler.cmd_ping.
    split; intros ->; reflexivity.
Qed.

(** C10.  Without an argument [ping] probes [google.com], which passes
    the validation. *)
Theorem ping_default_target :
  CommandHandler.cmd_ping [] =
    Ok (CommandHandler.Probe ["ping"; "-c"; "3"; "-W"; "5"; "google.com"])
  /\ CommandHandler.is_valid_hostname "google.com" = true
  /\ CommandHandler.process_command bot clock "ping" =
     CommandHandler.Probe ["ping"; "-c"; "3"; "-W"; "5"; "google.com"].
Proof. repeat split; reflexivity. Qed.


End Dispatch.

Lemma ping_validation_witness :
  Py.isascii "PING a_b" = true /\
  Py.split (Py.strip "PING a_b") = ["PING"; "a_b"] /\
  Py.lower "PING" = "ping" /\
  CommandHandler.is_valid_hostname "a_b" = false /\
  @CommandHandler.process_command ExampleRuntime.runtime
     ExampleRuntime.fresh_bot 0 "PING a_b" =
  CommandHandler.Return (Some "❌ Invalid hostname format").
Proof.
  assert (Hasc : Py.isascii "PING a_b" = true) by reflexivity.
  assert (Hsp : Py.split (Py.strip "PING a_b") = ["PING"; "a_b"]) by reflexivity.
  assert (Hlow : Py.lower "PING" = "ping") by reflexivity.
  assert (Hbad : CommandHandler.is_valid_hostname "a_b" = false) by reflexivity.
  split; [exact Hasc|]. split; [exact Hsp|]. split; [exact Hlow|].
  split; [exact Hbad|].
  exact (proj2 (proj2 (proj1 (proj2 (@ping_validation ExampleRuntime.runtime
                                        ExampleRuntime.fresh_bot 0))
                              "PING a_b" "PING" "a_b" [] Hasc Hsp Hlow)) Hbad).
Defined.



(** ** Addressing of group messages *)

Section Addressing.

Lemma drop_nil (n : nat) : Py.drop n "" = "".
Proof. destruct n; reflexivity. Qed.

(** Passing over [k] characters is dropping them. *)
Lemma replace_from_skip (old new : string) (k : nat) (s : string) :
  Py.replace_from old new k s = Py.replace_from old new 0 (Py.drop k s).
Proof.
  revert k. induction s as [|c s IH]; intros k.
  - rewrite drop_nil. reflexivity.
  - destruct k as [|k]; [reflexivity|]. simpl. apply IH.
Qed.

(** Removing a leading occurrence and going on behind it. *)
Lemma replace_leading (old s : string) :
  old <> "" -> Py.startswith s old = true ->
  Py.replace s old "" = Py.replace (Py.drop (String.length old) s) old "".
Proof.
  intros Hold Hpre. unfold Py.replace, Py.startswith in *.
  destruct old as [|o old]; [contradiction|]. simpl Py.is_empty. cbv iota.
  destruct s as [|c s]; [discriminate|].
  unfold Py.replace_from at 1. fold Py.replace_from. rewrite Hpre.
  rewrite str_app_nil_l, replace_from_skip. simpl.
  rewrite Nat.sub_0_r. reflexivity.
Qed.

Lemma prefix_colon_nonempty (nick : string) : nick +:+ ":" <> "".
Proof. destruct nick; discriminate. Qed.

(** Where [<nickname>:] occurs nowhere behind the leading prefix, the
    handler strips exactly the leading prefix. *)
Lemma addressed_command_single (nick body : string) :
  let prefix := nick +:+ ":" in
  let rest := if Py.startswith body prefix
              then Py.drop (String.length prefix) body else body in
  Py.replace rest prefix "" = rest ->
  JabberBot.addressed_command nick body = strip_leading_prefix nick body.
Proof.
  intros prefix rest Hrest.
  unfold JabberBot.addressed_command, strip_leading_prefix.
  fold prefix.
  destruct (Py.startswith body prefix) eqn:Hpre; subst rest; simpl orb.
  - rewrite (replace_leading prefix body (prefix_colon_nonempty nick) Hpre),
      Hrest.
    reflexivity.
  - rewrite Hrest. reflexivity.
Qed.

(** The three bodies the specification lists. *)
Example addressed_command_examples :
  JabberBot.addressed_command "Bot" "Bot: help" = Some "help"
  /\ JabberBot.addressed_command "Bot" "!time" = Some "time"
  /\ JabberBot.addressed_command "Bot" "hello everyone" = None
  /\ strip_leading_prefix "Bot" "Bot: help" = Some "help"
  /\ strip_leading_prefix "Bot" "!time" = Some "time"
  /\ strip_leading_prefix "Bot" "hello everyone" = None.
Proof. repeat split; reflexivity. Qed.

(** C3.  [str.replace] removes [<nickname>:] wherever it stands in the
    body, not only in front: with the nickname [PyBot] the group message
    [!ping PyBot:] is dispatched as [ping], and the default host is probed,
    where stripping the leading [!] alone gives [ping PyBot:], which the
    validation refuses.  Likewise [!say Bot: hi] loses its [Bot:]. *)
Theorem group_prefix_removed_everywhere :
  let msg := {| mtype := "groupchat"; from_bare := "room@conference.jabber.ru";
                mucnick := "alice"; body := "!ping PyBot:" |} in
  JabberBot.addressed_command "PyBot" "!ping PyBot:" = Some "ping"
  /\ strip_leading_prefix "PyBot" "!ping PyBot:" = Some "ping PyBot:"
  /\ @JabberBot.handle_group_message ExampleRuntime.runtime
       ExampleRuntime.fresh_bot 0 msg =
     [Exec ["ping"; "-c"; "3"; "-W"; "5"; "google.com"]]
  /\ @CommandHandler.process_command ExampleRuntime.runtime
       ExampleRuntime.fresh_bot 0 "ping PyBot:" =
     CommandHandler.Return (Some "❌ Invalid hostname format")
  /\ JabberBot.addressed_command "Bot" "!say Bot: hi" = Some "say  hi"
  /\ strip_leading_prefix "Bot" "!say Bot: hi" = Some "say Bot: hi".
Proof. repeat split; vm_compute; reflexivity. Qed.

End Addressing.

(** ** The occupants of a room *)

Section Tracker.
Context `{PyRuntime}.

(** The handler only ever adds to an occupant set. *)
Lemma muc_presence_handler_grows (bot : JabberBot) (p : presence) (room : string) :
  JabberBot.occupants bot room ⊆
  JabberBot.occupants (fst (JabberBot.muc_presence_handler bot p)) room.
Proof.
  unfold JabberBot.muc_presence_handler.
  repeat case_decide; try reflexivity.
  destruct (String.eqb _ _); [reflexivity|].
  destruct (room_users bot !! presence_room p) as [users|] eqn:Hu;
    [|reflexivity].
  assert (Hsub : JabberBot.occupants bot room ⊆
            JabberBot.occupants
              (JabberBot.set_rooms (joined_rooms bot)
                 (<[presence_room p := {[presence_nick p]} ∪ users]>
                    (room_users bot)) bot)
              room).
  { unfold JabberBot.occupants. simpl.
    destruct (decide (presence_room p = room)) as [<-|Hne].
    - rewrite lookup_insert_eq, Hu. simpl. apply union_subseteq_r.
    - rewrite lookup_insert_ne by done. reflexivity. }
  destruct (str_format _ _); exact Hsub.
Qed.

(** C1, as the code has it.  The handler does not look at the online flag.
    A presence, online or not, of a nickname the room already knows, of
    the bot's own nickname, or from a room that is not joined gives no
    welcome and changes nothing; and no presence takes a nickname out of an
    occupant set. *)
Theorem presence_without_welcome (bot : JabberBot) (p : presence) :
  (presence_nick p ∈ JabberBot.occupants bot (presence_room p)
   \/ presence_nick p = nickname (config bot)
   \/ presence_room p ∉ joined_rooms bot ->
   JabberBot.muc_presence_handler bot p = (bot, Ok []))
  /\ JabberBot.muc_presence_handler bot (flip_online p) =
     JabberBot.muc_presence_handler bot p
  /\ (forall room nick,
        nick ∈ JabberBot.occupants bot room ->
        nick ∈ JabberBot.occupants
                 (fst (JabberBot.muc_presence_handler bot p)) room).
Proof.
  split; [|split].
  - intros Hcase. unfold JabberBot.muc_presence_handler.
    repeat case_decide; try reflexivity.
    destruct Hcase as [Hin|[Heq|Hnj]]; [contradiction| |contradiction].
    rewrite Heq, String.eqb_refl. reflexivity.
  - reflexivity.
  - intros room nick Hin.
    apply (muc_presence_handler_grows bot p room), Hin.
Qed.

(** The first presence of a new nickname in a joined room. *)
Lemma first_presence (bot : JabberBot) (p : presence)
    (users : gset string) (body : string) :
  presence_room p ∈ joined_rooms bot ->
  room_users bot !! presence_room p = Some users ->
  presence_nick p ∉ users ->
  presence_nick p <> nickname (config bot) ->
  str_format (user_welcome_message (config bot))
    [("nickname", presence_nick p); ("room", presence_room p);
     ("bot_nick", nickname (config bot))] = Ok body ->
  JabberBot.muc_presence_handler bot p =
  (JabberBot.set_rooms (joined_rooms bot)
     (<[presence_room p := {[presence_nick p]} ∪ users]> (room_users bot)) bot,
   Ok [Sleep 1000000; SendMessage (presence_room p) body "groupchat"]).
Proof.
  intros Hj Hu Hnin Hne Hfmt. unfold JabberBot.muc_presence_handler.
  rewrite decide_True by assumption.
  rewrite decide_False by (unfold JabberBot.occupants; rewrite Hu; exact Hnin).
  apply String.eqb_neq in Hne. rewrite Hne, Hu, Hfmt. reflexivity.
Qed.

(** Presences of a nickname the room knows, however many. *)
Lemma repeat_present (n : nat) (bot : JabberBot) (p : presence) :
  presence_nick p ∈ JabberBot.occupants bot (presence_room p) ->
  JabberBot.repeat_presence n bot p = (bot, replicate n []).
Proof.
  intros Hin. induction n as [|n IH]; [reflexivity|].
  simpl. unfold JabberBot.muc_presence_handler at 1.
  case_decide; [rewrite decide_True by assumption|]; rewrite IH; reflexivity.
Qed.

(** C7, as the code has it.  In a joined room whose occupant set does not
    hold the nickname yet, for a nickname other than the bot's and a welcome
    template that formats, the same presence delivered [n + 1] times gives
    one welcome, at the first delivery, and none after; the state after all
    deliveries is the state after the first; the occupant set is the old
    one with the nickname added, and lists the nickname once. *)
Theorem repeated_presence_one_welcome (bot : JabberBot) (p : presence)
    (users : gset string) (body : string) (n : nat) :
  presence_room p ∈ joined_rooms bot ->
  room_users bot !! presence_room p = Some users ->
  presence_nick p ∉ users ->
  presence_nick p <> nickname (config bot) ->
  str_format (user_welcome_message (config bot))
    [("nickname", presence_nick p); ("room", presence_room p);
     ("bot_nick", nickname (config bot))] = Ok body ->
  let bot' := fst (JabberBot.repeat_presence (S n) bot p) in
  snd (JabberBot.repeat_presence (S n) bot p) =
    [(presence_room p, body)] :: replicate n []
  /\ bot' = fst (JabberBot.muc_presence_handler bot p)
  /\ JabberBot.occupants bot' (presence_room p) = {[presence_nick p]} ∪ users
  /\ presence_nick p ∈ elements (JabberBot.occupants bot' (presence_room p))
  /\ NoDup (elements (JabberBot.occupants bot' (presence_room p))).
Proof.
  intros Hj Hu Hnin Hne Hfmt bot'. subst bot'.
  cbn [JabberBot.repeat_presence].
  rewrite (first_presence bot p users body Hj Hu Hnin Hne Hfmt).
  set (bot1 := JabberBot.set_rooms _ _ bot).
  assert (Hocc : JabberBot.occupants bot1 (presence_room p) =
                 {[presence_nick p]} ∪ users).
  { unfold JabberBot.occupants, bot1. simpl.
    rewrite lookup_insert_eq. reflexivity. }
  assert (Hin : presence_nick p ∈ JabberBot.occupants bot1 (presence_room p)).
  { rewrite Hocc. apply elem_of_union_l, elem_of_singleton. reflexivity. }
  rewrite (repeat_present n bot1 p Hin).
  simpl. rewrite Hocc.
  split; [reflexivity|]. split; [reflexivity|]. split; [reflexivity|].
  split; [rewrite <- Hocc; apply elem_of_elements, Hin|apply NoDup_elements].
Qed.

(** C2, as the code has it.  The handler of the lost session stops the
    scheduler: the running flag is off and the task it holds is asked to
    cancel.  The joined rooms and the occupant sets stay as they were. *)
Theorem disconnected_stops_scheduler_only (bot : JabberBot) :
  let bot' := fst (JabberBot.disconnected_handler bot) in
  MessageScheduler.running (scheduler bot') = false
  /\ task_cancelled (scheduler bot') = true
  /\ joined_rooms bot' = joined_rooms bot
  /\ room_users bot' = room_users bot.
Proof.
  simpl. split; [reflexivity|]. split; [|split; reflexivity].
  unfold task_cancelled, MessageScheduler.stop. simpl.
  destruct (MessageScheduler.task (scheduler bot)) as [h|]; [|reflexivity].
  rewrite list_lookup_alter, decide_True by reflexivity.
  destruct (MessageScheduler.tasks (scheduler bot) !! h) as [tk|];
    [|reflexivity].
  simpl. unfold MessageScheduler.cancel.
  destruct tk as [[] []]; reflexivity.
Qed.

(** An occupant set is emptied when its room is joined again. *)
Lemma join_room_resets (bot : JabberBot) (clock : Z) (room : string) :
  JabberBot.occupants (fst (JabberBot.join_room (Ok ()) clock room bot)) room = ∅.
Proof.
  unfold JabberBot.join_room, JabberBot.occupants.
  destruct (DateTime.now _ _); [destruct (str_format _ _)|];
    simpl; rewrite lookup_insert_eq; reflexivity.
Qed.

End Tracker.


Lemma presence_without_welcome_witness :
  let room := "room@conference.jabber.ru" in
  let bot := ExampleRuntime.bot_in room {["alice"]} in
  let p := {| presence_room := room; presence_nick := "alice"; online := false |} in
  (presence_nick p ∈ JabberBot.occupants bot (presence_room p)) /\
  @JabberBot.muc_presence_handler ExampleRuntime.runtime bot p = (bot, Ok []).
Proof.
  cbv zeta.
  assert (Hin : "alice" ∈ JabberBot.occupants
                  (ExampleRuntime.bot_in "room@conference.jabber.ru" {["alice"]})
                  "room@conference.jabber.ru").
  { apply (bool_decide_unpack _). vm_compute. exact I. }
  split; [exact Hin|].
  apply (proj1 (@presence_without_welcome ExampleRuntime.runtime _ _)).
  left. exact Hin.
Defined.

(** C1, as the specification words it, fails: a presence that reports
    [alice] as gone leaves her in the occupant set, and one that reports the
    unknown [bob] as gone adds him and welcomes him. *)
Lemma offline_presence_not_handled :
  let room := "room@conference.jabber.ru" in
  let bot := ExampleRuntime.bot_in room {["alice"]} in
  let gone nick :=
    {| presence_room := room; presence_nick := nick; online := false |} in
  "alice" ∈ JabberBot.occupants bot room
  /\ "alice" ∈ JabberBot.occupants
       (fst (@JabberBot.muc_presence_handler ExampleRuntime.runtime bot
               (gone "alice"))) room
  /\ JabberBot.welcomes
       (snd (@JabberBot.muc_presence_handler ExampleRuntime.runtime bot
               (gone "bob")))
     = [(room, "👋 Welcome bob! I'm PyBot, your friendly bot assistant.")]
  /\ "bob" ∈ JabberBot.occupants
       (fst (@JabberBot.muc_presence_handler ExampleRuntime.runtime bot
               (gone "bob"))) room.
Proof.
  cbv zeta. split; [|split; [|split]].
  - apply (bool_decide_unpack _). vm_compute. exact I.
  - apply (bool_decide_unpack _). vm_compute. exact I.
  - vm_compute. reflexivity.
  - apply (bool_decide_unpack _). vm_compute. exact I.
Qed.

Lemma repeated_presence_one_welcome_witness :
  let room := "room@conference.jabber.ru" in
  let bot := ExampleRuntime.bot_in room ∅ in
  let p := {| presence_room := room; presence_nick := "alice"; online := true |} in
  let body := "👋 Welcome alice! I'm PyBot, your friendly bot assistant." in
  let bot' := fst (@JabberBot.repeat_presence ExampleRuntime.runtime 3 bot p) in
  snd (@JabberBot.repeat_presence ExampleRuntime.runtime 3 bot p) =
    [[(room, body)]; []; []]
  /\ bot' = fst (@JabberBot.muc_presence_handler ExampleRuntime.runtime bot p)
  /\ JabberBot.occupants bot' room = {["alice"]} ∪ ∅
  /\ "alice" ∈ elements (JabberBot.occupants bot' room)
  /\ NoDup (elements (JabberBot.occupants bot' room)).
Proof.
  cbv zeta.
  apply (@repeated_presence_one_welcome ExampleRuntime.runtime
           (ExampleRuntime.bot_in "room@conference.jabber.ru" ∅)
           {| presence_room := "room@conference.jabber.ru";
              presence_nick := "alice"; online := true |}
           ∅ "👋 Welcome alice! I'm PyBot, your friendly bot assistant." 2).
  - apply (bool_decide_unpack _). vm_compute. exact I.
  - apply lookup_singleton_eq.
  - apply not_elem_of_empty.
  - discriminate.
  - vm_compute. reflexivity.
Defined.

(** C7, as the specification words it, fails: in a room that is not joined
    the online presences of [alice] give no welcome at all and she is not
    added; and when the room knows her already, the first presence gives no
    welcome either. *)
Lemma repeated_presence_without_welcome :
  let room := "room@conference.jabber.ru" in
  let p := {| presence_room := room; presence_nick := "alice"; online := true |} in
  @JabberBot.repeat_presence ExampleRuntime.runtime 3 ExampleRuntime.fresh_bot p
    = (ExampleRuntime.fresh_bot, [[]; []; []])
  /\ ("alice" ∉ JabberBot.occupants ExampleRuntime.fresh_bot room)
  /\ snd (@JabberBot.repeat_presence ExampleRuntime.runtime 3
            (ExampleRuntime.bot_in room {["alice"]}) p) = [[]; []; []].
Proof.
  cbv zeta. split; [|split].
  - reflexivity.
  - apply (bool_decide_unpack _). vm_compute. exact I.
  - vm_compute. reflexivity.
Qed.

(** C2, as the specification words it, fails: after the handler the room is
    still among the joined rooms and its occupant set still holds [alice]. *)
Lemma disconnected_keeps_membership :
  let room := "room@conference.jabber.ru" in
  let bot := ExampleRuntime.bot_in room {["alice"]} in
  let bot' := fst (JabberBot.disconnected_handler bot) in
  room ∈ joined_rooms bot'
  /\ "alice" ∈ JabberBot.occupants bot' room
  /\ joined_rooms bot' <> ∅
  /\ room_users bot' <> ∅.
Proof.
  cbv zeta. split; [|split; [|split]].
  - apply (bool_decide_unpack _). vm_compute. exact I.
  - apply (bool_decide_unpack _). vm_compute. exact I.
  - apply (bool_decide_unpack _). vm_compute. exact I.
  - apply (bool_decide_unpack _). vm_compute. exact I.
Qed.


(** ** The next top of the hour *)

Section Timing.
Import MessageScheduler.

Lemma datetime_eq (a b : datetime) :
  ordinal a = ordinal b -> hour a = hour b -> minute a = minute b ->
  second a = second b -> microsecond a = microsecond b -> a = b.
Proof. destruct a, b; simpl; intros; subst; reflexivity. Qed.

(** Every reading of the clock is a well-formed [datetime]. *)
Lemma of_microseconds_wf (t : Z) : DateTime.wf (DateTime.of_microseconds t).
Proof.
  unfold DateTime.wf, DateTime.of_microseconds. simpl.
  repeat split; Z.div_mod_to_equations; lia.
Qed.

Lemma now_wf (clock offset : Z) (now : datetime) :
  DateTime.now clock offset = Ok now -> DateTime.wf now.
Proof.
  unfold DateTime.now. destruct (_ && _); [|discriminate].
  intros [= <-]. apply of_microseconds_wf.
Qed.

Lemma now_valid_offset (clock offset : Z) :
  -24 < offset < 24 -> exists now, DateTime.now clock offset = Ok now.
Proof.
  intros Hoff. unfold DateTime.now.
  destruct (Z.ltb_spec (-24) offset), (Z.ltb_spec offset 24); try lia.
  eexists. reflexivity.
Qed.

Lemma of_to_microseconds (d : datetime) :
  DateTime.wf d -> DateTime.of_microseconds (DateTime.to_microseconds d) = d.
Proof.
  intros (Hh & Hm & Hs & Hu).
  apply datetime_eq; unfold DateTime.of_microseconds, DateTime.to_microseconds; simpl;
    Z.div_mod_to_equations; lia.
Qed.

(** The next top of the hour, field by field. *)
Lemma next_hour_fields (now : datetime) :
  DateTime.wf now ->
  next_hour now =
  if hour now <? 23
  then {| ordinal := ordinal now; hour := hour now + 1;
          minute := 0; second := 0; microsecond := 0 |}
  else {| ordinal := ordinal now + 1; hour := 0;
          minute := 0; second := 0; microsecond := 0 |}.
Proof.
  intros (Hh & Hm & Hs & Hu).
  destruct (Z.ltb_spec (hour now) 23); apply datetime_eq;
    unfold next_hour, DateTime.add, DateTime.replace_minute_second_microsecond,
      DateTime.of_microseconds, DateTime.to_microseconds; simpl;
    Z.div_mod_to_equations; lia.
Qed.

Lemma wait_microseconds_eq (now : datetime) :
  DateTime.wf now ->
  wait_microseconds now =
  3600000000 - ((minute now * 60 + second now) * 1000000 + microsecond now).
Proof.
  intros Hwf. unfold wait_microseconds, DateTime.sub.
  rewrite (next_hour_fields now Hwf).
  destruct Hwf as (Hh & Hm & Hs & Hu).
  destruct (Z.ltb_spec (hour now) 23); unfold DateTime.to_microseconds; simpl; lia.
Qed.

(** C6.  For every current time the next top of the hour lies strictly
    after it, on a full hour, and no full hour lies between the two; the wait
    is above 0 and at most 3600 seconds.  Every reading of the clock in a
    zone of a fixed offset is such a time.  At 14:23:10 the next boundary is
    15:00:00 of the same day and the wait is 2210 seconds. *)
Theorem next_hour_wait :
  (forall now : datetime, DateTime.wf now ->
     DateTime.wf (next_hour now)
     /\ minute (next_hour now) = 0 /\ second (next_hour now) = 0
     /\ microsecond (next_hour now) = 0
     /\ DateTime.lt now (next_hour now)
     /\ (forall d : datetime,
           DateTime.wf d -> minute d = 0 -> second d = 0 -> microsecond d = 0 ->
           DateTime.lt now d ->
           DateTime.to_microseconds (next_hour now) <= DateTime.to_microseconds d)
     /\ 0 < wait_microseconds now <= 3600000000
     /\ (0 < wait_seconds now)%Q /\ (wait_seconds now <= 3600)%Q)
  /\ (forall clock offset : Z, -24 < offset < 24 ->
        exists now, DateTime.now clock offset = Ok now /\ DateTime.wf now)
  /\ (forall day : Z,
        let now := {| ordinal := day; hour := 14; minute := 23; second := 10;
                      microsecond := 0 |} in
        next_hour now = {| ordinal := day; hour := 15; minute := 0; second := 0;
                           microsecond := 0 |}
        /\ (wait_seconds now == 2210)%Q).
Proof.
  split; [|split].
  2:{ intros clock offset Hoff.
      destruct (now_valid_offset clock offset Hoff) as [now Hnow].
      exists now. split; [exact Hnow|exact (now_wf _ _ _ Hnow)]. }
  - intros now Hwf.
    pose proof (wait_microseconds_eq now Hwf) as Hw.
    pose proof (next_hour_fields now Hwf) as Hn.
    destruct Hwf as (Hh & Hm & Hs & Hu).
    assert (Hrange : 0 < wait_microseconds now <= 3600000000) by lia.
    split; [|split; [|split; [|split; [|split; [|split; [|split; [|split]]]]]]].
    + rewrite Hn. destruct (hour now <? 23) eqn:E; unfold DateTime.wf; simpl;
        [apply Z.ltb_lt in E|]; lia.
    + rewrite Hn. destruct (hour now <? 23); reflexivity.
    + rewrite Hn. destruct (hour now <? 23); reflexivity.
    + rewrite Hn. destruct (hour now <? 23); reflexivity.
    + unfold DateTime.lt. unfold wait_microseconds, DateTime.sub in Hrange. lia.
    + intros d (Hdh & _) Hdm Hds Hdu Hlt.
      rewrite Hn. unfold DateTime.lt, DateTime.to_microseconds in *.
      rewrite Hdm, Hds, Hdu in *.
      destruct (Z.ltb_spec (hour now) 23); simpl; lia.
    + lia.
    + unfold wait_seconds, DateTime.total_seconds, Qlt. simpl. lia.
    + unfold wait_seconds, DateTime.total_seconds, Qle. simpl. lia.
  - intros day now.
    assert (Hwf : DateTime.wf now) by (unfold DateTime.wf, now; simpl; lia).
    split.
    + rewrite (next_hour_fields now Hwf). reflexivity.
    + unfold wait_seconds. rewrite (wait_microseconds_eq now Hwf). reflexivity.
Qed.

(** With an offset the zone accepts, the loop of a running scheduler reads
    the clock and sleeps for that wait. *)
Lemma loop_head_sleeps (s : t) (clock : Z) :
  running s = true -> -24 < offset s < 24 ->
  exists now, DateTime.now clock (offset s) = Ok now /\ DateTime.wf now /\
    loop_head s clock = (Waiting, [Sleep (wait_microseconds now)]).
Proof.
  intros Hr Hoff. destruct (now_valid_offset clock (offset s) Hoff) as [now Hnow].
  exists now. split; [exact Hnow|]. split; [exact (now_wf _ _ _ Hnow)|].
  unfold loop_head. rewrite Hr, Hnow. reflexivity.
Qed.

End Timing.

Lemma next_hour_wait_witness :
  let now := {| ordinal := 739000; hour := 23; minute := 59; second := 59;
                microsecond := 999999 |} in
  DateTime.wf now /\
  MessageScheduler.next_hour now =
    {| ordinal := 739001; hour := 0; minute := 0; second := 0; microsecond := 0 |}
  /\ 0 < MessageScheduler.wait_microseconds now <= 3600000000.
Proof.
  cbv zeta.
  assert (Hwf : DateTime.wf {| ordinal := 739000; hour := 23; minute := 59;
                               second := 59; microsecond := 999999 |})
    by (unfold DateTime.wf; simpl; lia).
  split; [exact Hwf|]. split; [reflexivity|].
  apply (proj1 next_hour_wait _ Hwf).
Defined.

(** ** Starting and stopping the scheduler *)

Section Scheduler.
Import MessageScheduler.

Lemma cancel_not_live (tk : task_state) : live (cancel tk) = false.
Proof. destruct tk as [[] []]; reflexivity. Qed.

Lemma cancel_idemp (tk : task_state) : cancel (cancel tk) = cancel tk.
Proof. destruct tk as [[] []]; reflexivity. Qed.

Lemma stop_idemp (s : t) : stop (stop s) = stop s.
Proof.
  unfold stop. simpl. f_equal.
  destruct (task s) as [h|]; [|reflexivity].
  apply list_eq. intros i. destruct (decide (h = i)) as [<-|Hne].
  - rewrite !list_lookup_alter_eq.
    destruct (tasks s !! h); simpl; [rewrite cancel_idemp|]; reflexivity.
  - rewrite !list_lookup_alter_ne by done. reflexivity.
Qed.

Lemma start_running (s : t) : running (start s) = true.
Proof. unfold start. destruct (running s) eqn:E; [exact E|reflexivity]. Qed.

Lemma start_idemp (s : t) : start (start s) = start s.
Proof. unfold start at 1. rewrite start_running. reflexivity. Qed.

Lemma init_consistent (off : Z) : consistent (init off).
Proof. intros h tk Hl. discriminate. Qed.

Lemma quiet_consistent (s : t) : quiet s -> consistent s.
Proof. intros [_ Hq] h tk Hl Hlive. rewrite (Hq h tk Hl) in Hlive. discriminate. Qed.

Lemma consistent_stopped_quiet (s : t) :
  consistent s -> running s = false -> quiet s.
Proof.
  intros Hc Hr. split; [exact Hr|]. intros h tk Hl.
  destruct (live tk) eqn:E; [|reflexivity].
  destruct (Hc h tk Hl E) as [Hrun _]. congruence.
Qed.

Lemma stop_quiet (s : t) : consistent s -> quiet (stop s).
Proof.
  intros Hc. split; [reflexivity|]. intros h' tk'. unfold stop. simpl.
  destruct (task s) as [h|] eqn:Ht.
  - rewrite list_lookup_alter. case_decide as Hh.
    + subst h'. destruct (tasks s !! h) as [tk|]; [|discriminate].
      intros [= <-]. apply cancel_not_live.
    + intros Hl. destruct (live tk') eqn:E; [|reflexivity].
      destruct (Hc h' tk' Hl E) as [_ Hts]. congruence.
  - intros Hl. destruct (live tk') eqn:E; [|reflexivity].
    destruct (Hc h' tk' Hl E) as [_ Hts]. congruence.
Qed.

Lemma lookup_set_point (h h' : nat) (p : point) (s : t) :
  tasks (set_point h p s) !! h' =
  if decide (h = h')
  then (fun tk => {| at_point := p; must_cancel := must_cancel tk |}) <$> tasks s !! h
  else tasks s !! h'.
Proof. unfold set_point. simpl. apply list_lookup_alter. Qed.

(** A task that is not live does nothing but end. *)
Lemma resume_quiet (clock : Z) (cb : exn (list action)) (h : nat) (s : t) :
  quiet s ->
  quiet (fst (_schedule_loop clock cb h s)) /\
  snd (_schedule_loop clock cb h s) = [].
Proof.
  intros [Hr Hq]. unfold _schedule_loop.
  destruct (tasks s !! h) as [tk|] eqn:Hl; [|split; [split|]; auto].
  destruct (must_cancel tk) eqn:Hmc.
  - simpl. split; [|reflexivity]. split; [exact Hr|].
    intros h' tk'. rewrite lookup_set_point. case_decide as Hh.
    + subst h'. rewrite Hl. intros [= <-]. unfold live. simpl.
      apply andb_false_r.
    + apply Hq.
  - pose proof (Hq h tk Hl) as Hnl. unfold live in Hnl. rewrite Hmc in Hnl.
    destruct (at_point tk); try discriminate.
    split; [split|]; auto.
Qed.

Lemma step_quiet (s : t) (e : event) :
  quiet s -> is_start e = false ->
  quiet (fst (step s e)) /\ snd (step s e) = [].
Proof.
  intros Hq Hns. destruct e as [| |h clock cb]; [discriminate| |].
  - simpl. split; [|reflexivity]. apply stop_quiet, quiet_consistent, Hq.
  - apply resume_quiet, Hq.
Qed.

Lemma run_quiet (es : list event) (s : t) :
  quiet s -> no_start es = true -> snd (run s es) = [].
Proof.
  revert s. induction es as [|e es IH]; intros s Hq Hns; [reflexivity|].
  simpl in Hns. apply andb_true_iff in Hns as [He Hes].
  apply negb_true_iff in He.
  destruct (step_quiet s e Hq He) as [Hq1 Hout].
  simpl. destruct (step s e) as [s1 out1]. simpl in *.
  specialize (IH s1 Hq1 Hes). destruct (run s1 es) as [s2 out2].
  simpl in *. subst. reflexivity.
Qed.

Lemma loop_head_point (s : t) (clock : Z) :
  running s = false -> loop_head s clock = (Done, []).
Proof. intros Hr. unfold loop_head. rewrite Hr. reflexivity. Qed.

Lemma consistent_set_point (h : nat) (p : point) (s : t) (tk : task_state) :
  consistent s -> tasks s !! h = Some tk ->
  (live tk = true \/ p = Done) ->
  consistent (set_point h p s).
Proof.
  intros Hc Hl Hcase h' tk'. rewrite lookup_set_point. case_decide as Hh.
  - subst h'. rewrite Hl. intros [= <-] Hlive.
    destruct Hcase as [Hlv| ->].
    + apply (Hc h tk Hl Hlv).
    + unfold live in Hlive. simpl in Hlive. rewrite andb_false_r in Hlive. discriminate.
  - apply Hc.
Qed.

Lemma resume_consistent (clock : Z) (cb : exn (list action)) (h : nat) (s : t) :
  consistent s -> consistent (fst (_schedule_loop clock cb h s)).
Proof.
  intros Hc. unfold _schedule_loop.
  destruct (tasks s !! h) as [tk|] eqn:Hl; [|exact Hc].
  destruct (must_cancel tk) eqn:Hmc.
  { simpl. apply (consistent_set_point h Done s tk Hc Hl). right. reflexivity. }
  destruct (at_point tk) eqn:Hp.
  - destruct (loop_head s clock) as [p out]. simpl.
    apply (consistent_set_point h p s tk Hc Hl). left.
    unfold live. rewrite Hmc, Hp. reflexivity.
  - assert (Hlv : live tk = true) by (unfold live; rewrite Hmc, Hp; reflexivity).
    destruct (running s); [destruct cb|].
    + destruct (loop_head s clock) as [p out]. simpl.
      apply (consistent_set_point h p s tk Hc Hl). left. exact Hlv.
    + destruct (on_error s) as [p out]. simpl.
      apply (consistent_set_point h p s tk Hc Hl). left. exact Hlv.
    + destruct (loop_head s clock) as [p out]. simpl.
      apply (consistent_set_point h p s tk Hc Hl). left. exact Hlv.
  - assert (Hlv : live tk = true) by (unfold live; rewrite Hmc, Hp; reflexivity).
    destruct (Hc h tk Hl Hlv) as [Hrun Htask].
    simpl. intros h' tk' Hl' Hlive'. simpl in *.
    split; [exact Hrun|].
    apply lookup_app_Some in Hl' as [Hl'|[Hlen Hl']].
    + exfalso. rewrite list_lookup_alter in Hl'. case_decide as Hh.
      * subst h'. rewrite Hl in Hl'. injection Hl' as <-.
        unfold live in Hlive'. simpl in Hlive'. rewrite andb_false_r in Hlive'.
        discriminate.
      * destruct (Hc h' tk' Hl' Hlive') as [_ Hts]. congruence.
    + apply list_lookup_singleton_Some in Hl' as [Hz _].
      f_equal. lia.
  - exact Hc.
Qed.

Lemma start_consistent (s : t) : consistent s -> consistent (start s).
Proof.
  intros Hc. unfold start. destruct (running s) eqn:Hr; [exact Hc|].
  destruct (consistent_stopped_quiet s Hc Hr) as [_ Hq].
  simpl. intros h tk Hl Hlive. simpl in *. split; [reflexivity|].
  apply lookup_app_Some in Hl as [Hl|[Hlen Hl]].
  - rewrite (Hq h tk Hl) in Hlive. discriminate.
  - apply list_lookup_singleton_Some in Hl as [Hz _]. f_equal. lia.
Qed.

Lemma step_consistent (s : t) (e : event) :
  consistent s -> consistent (fst (step s e)).
Proof.
  intros Hc. destruct e as [| |h clock cb]; simpl.
  - apply start_consistent, Hc.
  - apply quiet_consistent, stop_quiet, Hc.
  - apply resume_consistent, Hc.
Qed.

Lemma run_consistent (es : list event) (s : t) :
  consistent s -> consistent (fst (run s es)).
Proof.
  revert s. induction es as [|e es IH]; intros s Hc; [exact Hc|].
  simpl. pose proof (step_consistent s e Hc) as Hc1.
  destruct (step s e) as [s1 out1]. simpl in Hc1.
  specialize (IH s1 Hc1). destruct (run s1 es) as [s2 out2]. exact IH.
Qed.

(** The callback is called only by a scheduler that is running. *)
Lemma step_fires_running (s : t) (e : event) :
  fired (snd (step s e)) <> 0%nat -> running s = true.
Proof.
  destruct (running s) eqn:Hr; [reflexivity|]. intros Hf. exfalso. apply Hf.
  destruct e as [| |h clock cb]; [reflexivity|reflexivity|].
  simpl. unfold _schedule_loop.
  destruct (tasks s !! h) as [tk|]; [|reflexivity].
  destruct (must_cancel tk); [reflexivity|].
  rewrite Hr, (loop_head_point s clock Hr).
  destruct (at_point tk); reflexivity.
Qed.

Lemma on_error_running (s : t) :
  running s = true -> on_error s = (Backoff, [Sleep 60000000]).
Proof. intros Hr. unfold on_error. rewrite Hr. reflexivity. Qed.

(** A running scheduler leaves the head of its loop asleep: waiting for the
    hour, or backing off. *)
Lemma loop_head_running (s : t) (clock : Z) :
  running s = true ->
  fst (loop_head s clock) = Waiting \/ fst (loop_head s clock) = Backoff.
Proof.
  intros Hr. unfold loop_head. rewrite Hr.
  destruct (DateTime.now clock (offset s)); [left; reflexivity|].
  rewrite (on_error_running s Hr). right. reflexivity.
Qed.

Lemma live_set_point (p : point) (tk : task_state) :
  must_cancel tk = false -> p <> Done ->
  live {| at_point := p; must_cancel := must_cancel tk |} = true.
Proof.
  intros Hmc Hp. unfold live. simpl. rewrite Hmc.
  destruct p; try reflexivity. contradiction.
Qed.

Lemma held_live_set_point (h : nat) (p : point) (s : t) (tk : task_state) :
  consistent s -> held_live s -> tasks s !! h = Some tk ->
  (live tk = true -> p <> Done) ->
  held_live (set_point h p s).
Proof.
  intros Hc Hh Hl Hp Hr. simpl in Hr.
  destruct (Hh Hr) as (h0 & tk0 & Ht & Hl0 & Hlive0).
  destruct (decide (h = h0)) as [->|Hne].
  - rewrite Hl in Hl0. injection Hl0 as <-.
    exists h0, {| at_point := p; must_cancel := must_cancel tk |}.
    split; [exact Ht|]. split.
    + rewrite lookup_set_point, decide_True, Hl by reflexivity. reflexivity.
    + apply live_set_point; [|exact (Hp Hlive0)].
      unfold live in Hlive0. apply andb_true_iff in Hlive0 as [Hmc _].
      apply negb_true_iff in Hmc. exact Hmc.
  - exists h0, tk0. split; [exact Ht|]. split; [|exact Hlive0].
    rewrite lookup_set_point, decide_False by exact Hne. exact Hl0.
Qed.

Lemma start_held_live (s : t) : held_live s -> held_live (start s).
Proof.
  intros Hh. unfold start. destruct (running s) eqn:Hr; [exact Hh|].
  intros _. simpl. eexists _, _. split; [reflexivity|]. split.
  - rewrite lookup_app_r by lia. rewrite Nat.sub_diag. reflexivity.
  - reflexivity.
Qed.

Lemma resume_held_live (clock : Z) (cb : exn (list action)) (h : nat) (s : t) :
  consistent s -> held_live s -> held_live (fst (_schedule_loop clock cb h s)).
Proof.
  intros Hc Hh. unfold _schedule_loop.
  destruct (tasks s !! h) as [tk|] eqn:Hl; [|exact Hh].
  destruct (must_cancel tk) eqn:Hmc.
  { simpl. apply (held_live_set_point h Done s tk Hc Hh Hl).
    unfold live. rewrite Hmc. discriminate. }
  destruct (at_point tk) eqn:Hp.
  - assert (Hlv : live tk = true) by (unfold live; rewrite Hmc, Hp; reflexivity).
    destruct (Hc h tk Hl Hlv) as [Hr _].
    pose proof (loop_head_running s clock Hr) as Hlh.
    destruct (loop_head s clock) as [p out]. simpl in *.
    apply (held_live_set_point h p s tk Hc Hh Hl). intros _.
    destruct Hlh as [-> | ->]; discriminate.
  - assert (Hlv : live tk = true) by (unfold live; rewrite Hmc, Hp; reflexivity).
    destruct (Hc h tk Hl Hlv) as [Hr _]. rewrite Hr.
    pose proof (loop_head_running s clock Hr) as Hlh.
    destruct cb.
    + destruct (loop_head s clock) as [p out]. simpl in *.
      apply (held_live_set_point h p s tk Hc Hh Hl). intros _.
      destruct Hlh as [-> | ->]; discriminate.
    + rewrite (on_error_running s Hr). simpl.
      apply (held_live_set_point h Backoff s tk Hc Hh Hl). discriminate.
  - intros _. simpl. eexists _, _. split; [reflexivity|]. split.
    + rewrite lookup_app_r by lia. rewrite Nat.sub_diag. reflexivity.
    + reflexivity.
  - exact Hh.
Qed.

Lemma step_held_live (s : t) (e : event) :
  consistent s -> held_live s -> held_live (fst (step s e)).
Proof.
  intros Hc Hh. destruct e as [| |h clock cb]; simpl.
  - apply start_held_live, Hh.
  - intros Hr. discriminate.
  - apply resume_held_live; assumption.
Qed.

Lemma run_held_live (es : list event) (s : t) :
  consistent s -> held_live s ->
  consistent (fst (run s es)) /\ held_live (fst (run s es)).
Proof.
  revert s. induction es as [|e es IH]; intros s Hc Hh; [split; assumption|].
  simpl. pose proof (step_consistent s e Hc) as Hc1.
  pose proof (step_held_live s e Hc Hh) as Hh1.
  destruct (step s e) as [s1 out1]. simpl in *.
  specialize (IH s1 Hc1 Hh1). destruct (run s1 es) as [s2 out2]. exact IH.
Qed.

(** A task that is not live stays so, whatever happens to the scheduler. *)
Lemma not_live_set_point (h' h : nat) (p : point) (s : t) (tk : task_state) :
  tasks s !! h = Some tk -> live tk = false ->
  (h' <> h \/ must_cancel tk = true \/ p = Done) ->
  exists tk', tasks (set_point h' p s) !! h = Some tk' /\ live tk' = false.
Proof.
  intros Hl Hnl Hcase. rewrite lookup_set_point. case_decide as Hh.
  - subst h'. rewrite Hl. simpl. eexists. split; [reflexivity|].
    destruct Hcase as [Hne|[Hmc| ->]].
    + contradiction.
    + unfold live. simpl. rewrite Hmc. reflexivity.
    + unfold live. simpl. apply andb_false_r.
  - eauto.
Qed.

Lemma step_not_live (s : t) (e : event) (h : nat) (tk : task_state) :
  tasks s !! h = Some tk -> live tk = false ->
  exists tk', tasks (fst (step s e)) !! h = Some tk' /\ live tk' = false.
Proof.
  intros Hl Hnl. destruct e as [| |h' clock cb]; simpl.
  - unfold start. destruct (running s); [eauto|]. simpl.
    exists tk. split; [|exact Hnl]. apply lookup_app_l_Some. exact Hl.
  - unfold stop. simpl. destruct (task s) as [h0|]; [|eauto].
    rewrite list_lookup_alter. case_decide as Hh.
    + subst h0. rewrite Hl. simpl. eexists. split; [reflexivity|].
      apply cancel_not_live.
    + eauto.
  - unfold _schedule_loop.
    destruct (tasks s !! h') as [tk0|] eqn:Hl0; [|eauto].
    destruct (decide (h' = h)) as [->|Hne].
    + rewrite Hl in Hl0. injection Hl0 as <-.
      destruct (must_cancel tk) eqn:Hmc.
      * simpl. apply (not_live_set_point h h Done s tk Hl Hnl). auto.
      * pose proof Hnl as Hp. unfold live in Hp. rewrite Hmc in Hp. simpl in Hp.
        destruct (at_point tk); try discriminate. simpl. eauto.
    + destruct (must_cancel tk0).
      { simpl. apply (not_live_set_point h' h Done s tk Hl Hnl). auto. }
      destruct (at_point tk0).
      * destruct (loop_head s clock) as [p out]. simpl.
        apply (not_live_set_point h' h p s tk Hl Hnl). auto.
      * destruct (running s); [destruct cb|].
        -- destruct (loop_head s clock) as [p out]. simpl.
           apply (not_live_set_point h' h p s tk Hl Hnl). auto.
        -- destruct (on_error s) as [p out]. simpl.
           apply (not_live_set_point h' h p s tk Hl Hnl). auto.
        -- destruct (loop_head s clock) as [p out]. simpl.
           apply (not_live_set_point h' h p s tk Hl Hnl). auto.
      * simpl. exists tk. split; [|exact Hnl]. apply lookup_app_l_Some.
        rewrite list_lookup_alter_ne by exact Hne. exact Hl.
      * simpl. eauto.
Qed.

Lemma run_not_live (es : list event) (s : t) (h : nat) (tk : task_state) :
  tasks s !! h = Some tk -> live tk = false ->
  exists tk', tasks (fst (run s es)) !! h = Some tk' /\ live tk' = false.
Proof.
  revert s tk. induction es as [|e es IH]; intros s tk Hl Hnl; [simpl; eauto|].
  destruct (step_not_live s e h tk Hl Hnl) as (tk1 & Hl1 & Hnl1).
  simpl. destruct (step s e) as [s1 out1]. simpl in Hl1.
  destruct (IH s1 tk1 Hl1 Hnl1) as (tk2 & Hl2 & Hnl2).
  destruct (run s1 es) as [s2 out2]. simpl in *. eauto.
Qed.

(** The resumption of a task that is not live does nothing. *)
Lemma resume_not_live (clock : Z) (cb : exn (list action)) (h : nat) (s : t)
    (tk : task_state) :
  tasks s !! h = Some tk -> live tk = false ->
  snd (_schedule_loop clock cb h s) = [].
Proof.
  intros Hl Hnl. unfold _schedule_loop. rewrite Hl.
  destruct (must_cancel tk) eqn:Hmc; [reflexivity|].
  unfold live in Hnl. rewrite Hmc in Hnl. simpl in Hnl.
  destruct (at_point tk); try discriminate. reflexivity.
Qed.

Lemma task_cancelled_stop (s : t) : task_cancelled (stop s) = true.
Proof.
  unfold task_cancelled, stop. simpl.
  destruct (task s) as [h|]; [|reflexivity].
  rewrite list_lookup_alter_eq.
  destruct (tasks s !! h) as [tk|]; [|reflexivity].
  destruct tk as [[] []]; reflexivity.
Qed.


(** C8.  For every scheduler [s] that calls of [start] and [stop] and
    resumptions of its tasks can lead to: [stop] and [start] are idempotent;
    a step calls the broadcast callback only if the scheduler is running;
    after [stop], no sequence of further events without a call of [start]
    produces any action, so the callback is not called again; the same holds
    of a scheduler that is not running; and a task waiting for the top of the
    hour when [stop] is called ends at its next resumption, without any
    action.  The wait in flight is aborted by the cancellation of its task,
    not by the flag alone: after [stop] the task the scheduler holds is done
    or asked to cancel; a running scheduler holds a live task, and [stop]
    leaves that task where it is suspended with its cancellation requested;
    and the task held at [stop] never acts again, whatever follows, a later
    [start] included. *)
Theorem stop_silences_scheduler (off : Z) (es0 : list event) :
  let s := fst (run (init off) es0) in
  stop (stop s) = stop s
  /\ start (start s) = start s
  /\ (forall e, fired (snd (step s e)) <> 0%nat -> running s = true)
  /\ (forall es, no_start es = true ->
        snd (run (stop s) es) = [] /\ fired (snd (run (stop s) es)) = 0%nat)
  /\ (running s = false ->
      forall es, no_start es = true -> fired (snd (run s es)) = 0%nat)
  /\ (forall h tk clock callback,
        task s = Some h -> tasks s !! h = Some tk -> at_point tk = Waiting ->
        _schedule_loop clock callback h (stop s) = (set_point h Done (stop s), []))
  /\ task_cancelled (stop s) = true
  /\ (running s = true ->
      exists h tk,
        task s = Some h /\ tasks s !! h = Some tk /\ live tk = true
        /\ tasks (stop s) !! h =
           Some {| at_point := at_point tk; must_cancel := true |})
  /\ (forall h tk es clock callback,
        task s = Some h -> tasks s !! h = Some tk ->
        snd (_schedule_loop clock callback h (fst (run (stop s) es))) = []).
Proof.
  intros s.
  assert (Hc : consistent s) by (apply run_consistent, init_consistent).
  assert (Hstop : forall h tk, task s = Some h -> tasks s !! h = Some tk ->
            tasks (stop s) !! h = Some (cancel tk)).
  { intros h tk Ht Hl. unfold stop. simpl.
    rewrite Ht, list_lookup_alter_eq, Hl. reflexivity. }
  split; [apply stop_idemp|]. split; [apply start_idemp|].
  split; [apply step_fires_running|].
  split; [|split; [|split; [|split; [|split]]]].
  - intros es Hns.
    rewrite (run_quiet es (stop s) (stop_quiet s Hc) Hns). split; reflexivity.
  - intros Hr es Hns.
    rewrite (run_quiet es s (consistent_stopped_quiet s Hc Hr) Hns). reflexivity.
  - intros h tk clock callback Ht Hl Hp. unfold _schedule_loop.
    rewrite (Hstop h tk Ht Hl). unfold cancel. rewrite Hp. reflexivity.
  - apply task_cancelled_stop.
  - intros Hr.
    destruct (run_held_live es0 (init off) (init_consistent off)) as [_ Hh].
    { intros Hr0. discriminate. }
    destruct (Hh Hr) as (h & tk & Ht & Hl & Hlive).
    exists h, tk. split; [exact Ht|]. split; [exact Hl|]. split; [exact Hlive|].
    rewrite (Hstop h tk Ht Hl). unfold live in Hlive.
    apply andb_true_iff in Hlive as [_ Hp]. unfold cancel.
    destruct (at_point tk); [reflexivity|reflexivity|reflexivity|discriminate].
  - intros h tk es clock callback Ht Hl.
    destruct (run_not_live es (stop s) h (cancel tk) (Hstop h tk Ht Hl)
                (cancel_not_live tk)) as (tk' & Hl' & Hnl').
    apply (resume_not_live clock callback h _ tk' Hl' Hnl').
Qed.

End Scheduler.

Lemma stop_silences_scheduler_witness :
  let s := fst (MessageScheduler.run (MessageScheduler.init 7)
                  [MessageScheduler.CallStart;
                   MessageScheduler.Resume 0 0 (Ok [])]) in
  let es := [MessageScheduler.Resume 0 3600000000 (Ok []);
             MessageScheduler.CallStop;
             MessageScheduler.Resume 0 7200000000 (Ok []);
             MessageScheduler.Resume 1 7200000000 (Ok [])] in
  no_start es = true /\
  MessageScheduler.fired (snd (MessageScheduler.run (MessageScheduler.stop s) es)) = 0%nat.
Proof.
  cbv zeta. split; [reflexivity|].
  apply (proj1 (proj2 (proj2 (proj2
           (stop_silences_scheduler 7
              [MessageScheduler.CallStart; MessageScheduler.Resume 0 0 (Ok [])]))))).
  reflexivity.
Defined.

(** Left running, the same scheduler calls the callback at the top of the
    hour and sleeps again. *)
Example running_scheduler_fires :
  let s := fst (MessageScheduler.run (MessageScheduler.init 7)
                  [MessageScheduler.CallStart;
                   MessageScheduler.Resume 0 0 (Ok [])]) in
  snd (MessageScheduler.step s (MessageScheduler.Resume 0 3600000000 (Ok [])))
  = [Fire; Sleep 3600000000].
Proof. reflexivity. Qed.

(** * Further properties *)

(** ** The state of the bot over a session *)

Section SessionInvariants.
Context `{PyRuntime}.

Lemma join_room_state (joined : exn unit) (clock : Z) (room : string)
    (bot : JabberBot) :
  fst (JabberBot.join_room joined clock room bot) =
  match joined with
  | Ok _ => JabberBot.set_rooms ({[room]} ∪ joined_rooms bot)
              (<[room := ∅]> (room_users bot)) bot
  | Raise _ => bot
  end.
Proof.
  unfold JabberBot.join_room. destruct joined; [|reflexivity].
  destruct (DateTime.now _ _); [destruct (str_format _ _)|]; reflexivity.
Qed.

(** What a presence can do to the state: nothing, or add its nickname,
    which is not the bot's, to the occupant set its room has. *)
Lemma muc_presence_handler_state (bot : JabberBot) (p : presence) :
  fst (JabberBot.muc_presence_handler bot p) = bot
  \/ exists users,
       presence_room p ∈ joined_rooms bot
       /\ room_users bot !! presence_room p = Some users
       /\ (presence_nick p ∉ users)
       /\ presence_nick p <> nickname (config bot)
       /\ fst (JabberBot.muc_presence_handler bot p) =
          JabberBot.set_rooms (joined_rooms bot)
            (<[presence_room p := {[presence_nick p]} ∪ users]> (room_users bot))
            bot.
Proof.
  unfold JabberBot.muc_presence_handler.
  destruct (decide (presence_room p ∈ joined_rooms bot)) as [Hj|]; [|left; reflexivity].
  destruct (decide (presence_nick p ∈ JabberBot.occupants bot (presence_room p)))
    as [|Hnin]; [left; reflexivity|].
  destruct (String.eqb_spec (presence_nick p) (nickname (config bot))) as [|Hne];
    [left; reflexivity|].
  unfold JabberBot.occupants in Hnin.
  destruct (room_users bot !! presence_room p) as [users|] eqn:Hu;
    [|left; reflexivity].
  right. exists users. simpl in Hnin.
  destruct (str_format _ _); auto 10.
Qed.

Lemma init_invariant (cfg : BotConfig) (jid_bare : string) (now : Z) :
  session_invariant cfg (Session.init cfg jid_bare now).
Proof.
  split; [reflexivity|]. split; [|split; [|split; [|reflexivity]]].
  - intros room Hin. simpl in Hin. apply not_elem_of_empty in Hin. contradiction.
  - intros room. unfold JabberBot.occupants. simpl.
    rewrite lookup_empty. apply not_elem_of_empty.
  - apply init_consistent.
Qed.

Lemma join_room_invariant (cfg : BotConfig) (joined : exn unit) (clock : Z)
    (room : string) (bot : JabberBot) :
  session_invariant cfg bot ->
  session_invariant cfg (fst (JabberBot.join_room joined clock room bot)).
Proof.
  intros Hinv. rewrite join_room_state. destruct joined; [|exact Hinv].
  destruct Hinv as (Hcfg & Hsets & Hnick & Hcons & Hoff).
  split; [exact Hcfg|]. split; [|split; [|split; assumption]].
  - intros r Hin. simpl in *. destruct (decide (room = r)) as [<-|Hne].
    + rewrite lookup_insert_eq. eauto.
    + rewrite lookup_insert_ne by done. apply Hsets.
      apply elem_of_union in Hin as [Hin|Hin]; [|exact Hin].
      apply elem_of_singleton in Hin. congruence.
  - intros r. unfold JabberBot.occupants. simpl.
    destruct (decide (room = r)) as [<-|Hne].
    + rewrite lookup_insert_eq. apply not_elem_of_empty.
    + rewrite lookup_insert_ne by done. apply Hnick.
Qed.

Lemma join_rooms_invariant (cfg : BotConfig) (env : nat -> exn unit * Z)
    (rooms : list string) (i : nat) (bot : JabberBot) :
  session_invariant cfg bot ->
  session_invariant cfg (fst (Session.join_rooms env i rooms bot)).
Proof.
  revert i bot. induction rooms as [|room rest IH]; intros i bot Hinv; [exact Hinv|].
  simpl.
  pose proof (join_room_invariant cfg (fst (env i)) (snd (env i)) room bot Hinv) as H1.
  destruct (JabberBot.join_room _ _ room bot) as [bot1 out1]. simpl in H1.
  specialize (IH (S i) bot1 H1).
  destruct (Session.join_rooms env (S i) rest bot1) as [bot2 out2]. exact IH.
Qed.

Lemma set_scheduler_invariant (cfg : BotConfig) (s : MessageScheduler.t)
    (bot : JabberBot) :
  session_invariant cfg bot -> consistent s ->
  MessageScheduler.offset s = MessageScheduler.offset (scheduler bot) ->
  session_invariant cfg (JabberBot.set_scheduler s bot).
Proof.
  intros (Hcfg & Hsets & Hnick & _ & Hoff) Hcons Hs.
  split; [exact Hcfg|]. split; [exact Hsets|]. split; [exact Hnick|].
  split; [exact Hcons|]. simpl. congruence.
Qed.

Lemma start_offset (s : MessageScheduler.t) :
  MessageScheduler.offset (MessageScheduler.start s) = MessageScheduler.offset s.
Proof. unfold MessageScheduler.start. destruct (MessageScheduler.running s); reflexivity. Qed.

Lemma schedule_loop_offset (clock : Z) (cb : exn (list action)) (h : nat)
    (s : MessageScheduler.t) :
  MessageScheduler.offset (fst (MessageScheduler._schedule_loop clock cb h s)) =
  MessageScheduler.offset s.
Proof.
  unfold MessageScheduler._schedule_loop.
  destruct (MessageScheduler.tasks s !! h) as [tk|]; [|reflexivity].
  destruct (MessageScheduler.must_cancel tk); [reflexivity|].
  destruct (MessageScheduler.at_point tk); try reflexivity.
  - destruct (MessageScheduler.loop_head s clock). reflexivity.
  - destruct (MessageScheduler.running s); [destruct cb|].
    + destruct (MessageScheduler.loop_head s clock). reflexivity.
    + destruct (MessageScheduler.on_error s). reflexivity.
    + destruct (MessageScheduler.loop_head s clock). reflexivity.
Qed.

Lemma presence_invariant (cfg : BotConfig) (bot : JabberBot) (p : presence) :
  session_invariant cfg bot ->
  session_invariant cfg (fst (JabberBot.muc_presence_handler bot p)).
Proof.
  intros Hinv.
  destruct (muc_presence_handler_state bot p)
    as [->|(users & Hj & Hu & Hnin & Hne & ->)]; [exact Hinv|].
  destruct Hinv as (Hcfg & Hsets & Hnick & Hcons & Hoff).
  split; [exact Hcfg|]. split; [|split; [|split; assumption]].
  - intros r Hin. simpl in *. destruct (decide (presence_room p = r)) as [<-|Hr].
    + rewrite lookup_insert_eq. eauto.
    + rewrite lookup_insert_ne by done. apply Hsets, Hin.
  - intros r. unfold JabberBot.occupants. simpl.
    destruct (decide (presence_room p = r)) as [<-|Hr].
    + rewrite lookup_insert_eq. simpl. intros Hin.
      apply elem_of_union in Hin as [Hin|Hin].
      * apply elem_of_singleton in Hin. congruence.
      * specialize (Hnick (presence_room p)). unfold JabberBot.occupants in Hnick.
        rewrite Hu in Hnick. contradiction.
    + rewrite lookup_insert_ne by done. apply Hnick.
Qed.

Lemma step_invariant (cfg : BotConfig) (bot : JabberBot) (e : Session.event) :
  session_invariant cfg bot -> session_invariant cfg (fst (Session.step bot e)).
Proof.
  intros Hinv. destruct e as [roster env|clock msg|p|p| |h clock]; simpl.
  - unfold Session.session_start.
    assert (Hj : session_invariant cfg
                   (fst (Session.join_rooms env 0 (rooms (config bot)) bot)))
      by (apply join_rooms_invariant, Hinv).
    destruct (Session.join_rooms env 0 (rooms (config bot)) bot) as [bot1 out].
    simpl in Hj.
    assert (Hs : session_invariant cfg
              (JabberBot.set_scheduler (MessageScheduler.start (scheduler bot1)) bot1)).
    { apply set_scheduler_invariant; [exact Hj| |apply start_offset].
      apply start_consistent. apply Hj. }
    destruct roster; simpl; assumption.
  - exact Hinv.
  - pose proof (presence_invariant cfg bot p Hinv) as Hp.
    destruct (JabberBot.muc_presence_handler bot p). exact Hp.
  - exact Hinv.
  - apply set_scheduler_invariant; [exact Hinv| |reflexivity].
    apply quiet_consistent, stop_quiet, Hinv.
  - pose proof (resume_consistent clock (JabberBot.send_hourly_message bot clock)
                  h (scheduler bot)) as Hc.
    pose proof (schedule_loop_offset clock (JabberBot.send_hourly_message bot clock)
                  h (scheduler bot)) as Ho.
    destruct (MessageScheduler._schedule_loop _ _ h (scheduler bot)) as [s out].
    simpl in *. apply set_scheduler_invariant; [exact Hinv| |exact Ho].
    apply Hc, Hinv.
Qed.

Lemma run_invariant (cfg : BotConfig) (es : list Session.event) (bot : JabberBot) :
  session_invariant cfg bot -> session_invariant cfg (fst (Session.run bot es)).
Proof.
  revert bot. induction es as [|e es IH]; intros bot Hinv; [exact Hinv|].
  simpl. pose proof (step_invariant cfg bot e Hinv) as H1.
  destruct (Session.step bot e) as [bot1 out1]. simpl in H1.
  specialize (IH bot1 H1). destruct (Session.run bot1 es). exact IH.
Qed.

End SessionInvariants.

Section SessionProperties.
Context `{PyRuntime}.

(** X1.  Along every session, from [__init__] on, every joined room has an
    occupant set; so [self.room_users[room]] of the presence handler never
    raises [KeyError]: if the handler is left by an exception at all, it is
    the one [format] raised on the welcome template. *)
Theorem presence_never_key_error (cfg : BotConfig) (jid_bare : string) (t0 : Z)
    (es : list Session.event) (p : presence) :
  let bot := fst (Session.run (Session.init cfg jid_bare t0) es) in
  rooms_have_sets bot
  /\ match snd (JabberBot.muc_presence_handler bot p) with
     | Ok _ => True
     | Raise e =>
         str_format (user_welcome_message cfg)
           [("nickname", presence_nick p); ("room", presence_room p);
            ("bot_nick", nickname cfg)] = Raise e
     end.
Proof.
  intros bot.
  destruct (run_invariant cfg es (Session.init cfg jid_bare t0)
              (init_invariant cfg jid_bare t0)) as (Hcfg & Hsets & _).
  fold bot in Hcfg, Hsets. split; [exact Hsets|].
  unfold JabberBot.muc_presence_handler.
  destruct (decide (presence_room p ∈ joined_rooms bot)) as [Hj|]; [|exact I].
  destruct (decide (presence_nick p ∈ JabberBot.occupants bot (presence_room p)));
    [exact I|].
  destruct (String.eqb _ _); [exact I|].
  destruct (Hsets _ Hj) as [users Hu]. rewrite Hu, Hcfg.
  destruct (str_format _ _); simpl; [exact I|reflexivity].
Qed.

(** X2.  Along every session the configuration stays the one the bot was
    made with, and the bot's own nickname is in no occupant set, whatever
    presences arrive. *)
Theorem own_nickname_never_occupant (cfg : BotConfig) (jid_bare : string) (t0 : Z)
    (es : list Session.event) (room : string) :
  let bot := fst (Session.run (Session.init cfg jid_bare t0) es) in
  config bot = cfg /\ nickname cfg ∉ JabberBot.occupants bot room.
Proof.
  intros bot.
  destruct (run_invariant cfg es (Session.init cfg jid_bare t0)
              (init_invariant cfg jid_bare t0)) as (Hcfg & _ & Hnick & _).
  fold bot in Hcfg, Hnick. split; [exact Hcfg|].
  rewrite <- Hcfg. apply Hnick.
Qed.

(** A welcome is sent only when the nickname was added to the set of the
    room. *)
Lemma presence_welcome_inv (bot : JabberBot) (p : presence) (mto mbody : string) :
  (mto, mbody) ∈ JabberBot.welcomes (snd (JabberBot.muc_presence_handler bot p)) ->
  mto = presence_room p
  /\ exists users,
       room_users bot !! presence_room p = Some users
       /\ (presence_nick p ∉ users)
       /\ fst (JabberBot.muc_presence_handler bot p) =
          JabberBot.set_rooms (joined_rooms bot)
            (<[presence_room p := {[presence_nick p]} ∪ users]> (room_users bot))
            bot.
Proof.
  unfold JabberBot.muc_presence_handler.
  destruct (decide (presence_room p ∈ joined_rooms bot)) as [Hj|];
    [|intros Hin; apply elem_of_nil in Hin; contradiction].
  destruct (decide (presence_nick p ∈ JabberBot.occupants bot (presence_room p)))
    as [|Hnin]; [intros Hin; apply elem_of_nil in Hin; contradiction|].
  destruct (String.eqb _ _);
    [intros Hin; apply elem_of_nil in Hin; contradiction|].
  unfold JabberBot.occupants in Hnin.
  destruct (room_users bot !! presence_room p) as [users|] eqn:Hu;
    [|intros Hin; apply elem_of_nil in Hin; contradiction].
  destruct (str_format _ _); simpl;
    [|intros Hin; apply elem_of_nil in Hin; contradiction].
  intros Hin. apply list_elem_of_singleton in Hin. injection Hin as -> ->.
  split; [reflexivity|]. exists users. auto.
Qed.

(** X3.  A presence touches nothing but the occupant set of its own room:
    the configuration, the joined rooms, the scheduler and the sets of the
    other rooms stay; the set of its room stays or gains the nickname of the
    presence; and every welcome goes to that room, for a nickname that was
    not in the set before and is in it after. *)
Theorem presence_changes_one_set (bot : JabberBot) (p : presence) :
  let bot' := fst (JabberBot.muc_presence_handler bot p) in
  config bot' = config bot
  /\ joined_rooms bot' = joined_rooms bot
  /\ scheduler bot' = scheduler bot
  /\ (forall room, room <> presence_room p ->
        room_users bot' !! room = room_users bot !! room)
  /\ (JabberBot.occupants bot' (presence_room p) =
        JabberBot.occupants bot (presence_room p)
      \/ JabberBot.occupants bot' (presence_room p) =
           {[presence_nick p]} ∪ JabberBot.occupants bot (presence_room p))
  /\ (forall mto mbody,
        (mto, mbody) ∈ JabberBot.welcomes (snd (JabberBot.muc_presence_handler bot p)) ->
        mto = presence_room p
        /\ (presence_nick p ∉ JabberBot.occupants bot (presence_room p))
        /\ presence_nick p ∈ JabberBot.occupants bot' (presence_room p)).
Proof.
  intros bot'. subst bot'.
  assert (Hwel : forall mto mbody,
    (mto, mbody) ∈ JabberBot.welcomes (snd (JabberBot.muc_presence_handler bot p)) ->
    mto = presence_room p
    /\ (presence_nick p ∉ JabberBot.occupants bot (presence_room p))
    /\ presence_nick p ∈ JabberBot.occupants
                           (fst (JabberBot.muc_presence_handler bot p))
                           (presence_room p)).
  { intros mto mbody Hin.
    destruct (presence_welcome_inv bot p mto mbody Hin)
      as (Hto & users & Hu & Hnin & Hnew).
    split; [exact Hto|]. rewrite Hnew. unfold JabberBot.occupants. simpl.
    rewrite Hu, lookup_insert_eq. simpl. split; [exact Hnin|].
    apply elem_of_union_l, elem_of_singleton. reflexivity. }
  destruct (muc_presence_handler_state bot p)
    as [Hsame|(users & Hj & Hu & Hnin & Hne & Hnew)].
  - rewrite Hsame in *. split; [reflexivity|]. split; [reflexivity|].
    split; [reflexivity|]. split; [reflexivity|]. split; [left; reflexivity|].
    exact Hwel.
  - rewrite Hnew in *. unfold JabberBot.occupants in *. simpl in *.
    rewrite lookup_insert_eq, Hu in *. simpl in *.
    split; [reflexivity|]. split; [reflexivity|]. split; [reflexivity|].
    split; [intros room Hr; apply lookup_insert_ne; congruence|].
    split; [right; reflexivity|]. exact Hwel.
Qed.

End SessionProperties.

Section JoiningRooms.
Context `{PyRuntime}.

(** What [join_room] sends: the pause, and at most the welcome to the
    room. *)
Lemma join_room_sends (joined : exn unit) (clock : Z) (room : string)
    (bot : JabberBot) :
  match joined with
  | Raise _ => snd (JabberBot.join_room joined clock room bot) = []
  | Ok _ =>
      snd (JabberBot.join_room joined clock room bot) = [Sleep 2000000]
      \/ exists mbody,
           snd (JabberBot.join_room joined clock room bot) =
           [Sleep 2000000; SendMessage room mbody "groupchat"]
  end.
Proof.
  unfold JabberBot.join_room. destruct joined; [|reflexivity].
  destruct (DateTime.now _ _); [destruct (str_format _ _)|]; simpl; eauto.
Qed.

(** X4.  [join_room]: when [join_muc] raises, nothing changes and nothing is
    sent.  Otherwise the room is among the joined rooms, its occupant set is
    empty, whatever it held before, the sets of the other rooms are
    untouched, and after the pause at most one message is sent, to that
    room. *)
Theorem join_room_outcome (joined : exn unit) (clock : Z) (room : string)
    (bot : JabberBot) :
  let bot' := fst (JabberBot.join_room joined clock room bot) in
  let out := snd (JabberBot.join_room joined clock room bot) in
  match joined with
  | Raise _ => bot' = bot /\ out = []
  | Ok _ =>
      joined_rooms bot' = {[room]} ∪ joined_rooms bot
      /\ JabberBot.occupants bot' room = ∅
      /\ (forall other, other <> room ->
            room_users bot' !! other = room_users bot !! other)
      /\ config bot' = config bot
      /\ scheduler bot' = scheduler bot
      /\ (out = [Sleep 2000000]
          \/ exists mbody, out = [Sleep 2000000; SendMessage room mbody "groupchat"])
  end.
Proof.
  intros bot' out. subst bot' out.
  pose proof (join_room_sends joined clock room bot) as Hout.
  rewrite join_room_state. destruct joined as [u|e]; [|split; [reflexivity|exact Hout]].
  split; [reflexivity|]. split; [|split; [|split; [|split]]].
  - unfold JabberBot.occupants. simpl. rewrite lookup_insert_eq. reflexivity.
  - intros other Hne. simpl. apply lookup_insert_ne. congruence.
  - reflexivity.
  - reflexivity.
  - exact Hout.
Qed.

(** X5.  Joining a room again makes the bot forget whom it knew there: the
    next presence of any nickname but its own is welcomed, also of one that
    was in the occupant set before the room was joined again. *)
Theorem rejoin_welcomes_again (bot : JabberBot) (clock : Z) (p : presence)
    (mbody : string) :
  presence_nick p <> nickname (config bot) ->
  str_format (user_welcome_message (config bot))
    [("nickname", presence_nick p); ("room", presence_room p);
     ("bot_nick", nickname (config bot))] = Ok mbody ->
  let bot1 := fst (JabberBot.join_room (Ok tt) clock (presence_room p) bot) in
  JabberBot.welcomes (snd (JabberBot.muc_presence_handler bot1 p)) =
    [(presence_room p, mbody)]
  /\ JabberBot.occupants (fst (JabberBot.muc_presence_handler bot1 p))
       (presence_room p) = {[presence_nick p]}.
Proof.
  intros Hne Hfmt bot1. subst bot1. rewrite join_room_state.
  set (bot1 := JabberBot.set_rooms _ _ bot).
  rewrite (first_presence bot1 p ∅ mbody).
  - split; [reflexivity|]. unfold JabberBot.occupants. simpl.
    rewrite lookup_insert_eq. simpl. apply (right_id_L ∅ (∪)).
  - simpl. apply elem_of_union_l, elem_of_singleton. reflexivity.
  - simpl. apply lookup_insert_eq.
  - apply not_elem_of_empty.
  - exact Hne.
  - exact Hfmt.
Qed.

(** What one turn of the loop over the rooms does. *)
Lemma join_room_effect (joined : exn unit) (clock : Z) (room : string)
    (bot : JabberBot) :
  let bot' := fst (JabberBot.join_room joined clock room bot) in
  let out := snd (JabberBot.join_room joined clock room bot) in
  match joined with
  | Raise _ => bot' = bot /\ out = []
  | Ok _ =>
      joined_rooms bot' = {[room]} ∪ joined_rooms bot
      /\ config bot' = config bot
      /\ scheduler bot' = scheduler bot
      /\ (out = [Sleep 2000000]
          \/ exists mbody, out = [Sleep 2000000; SendMessage room mbody "groupchat"])
  end.
Proof.
  intros bot' out. subst bot' out.
  pose proof (join_room_sends joined clock room bot) as Hout.
  rewrite join_room_state. destruct joined; auto.
Qed.

Lemma join_rooms_outcome (env : nat -> exn unit * Z) (rooms : list string)
    (i : nat) (bot : JabberBot) :
  let bot' := fst (Session.join_rooms env i rooms bot) in
  joined_rooms bot ⊆ joined_rooms bot'
  /\ (forall k room, rooms !! k = Some room -> fst (env (i + k)%nat) = Ok tt ->
        room ∈ joined_rooms bot')
  /\ (forall room, room ∈ joined_rooms bot' ->
        room ∈ joined_rooms bot \/ room ∈ rooms)
  /\ config bot' = config bot
  /\ scheduler bot' = scheduler bot
  /\ (forall a, a ∈ snd (Session.join_rooms env i rooms bot) ->
        a = Sleep 2000000
        \/ exists room mbody, room ∈ rooms /\ a = SendMessage room mbody "groupchat").
Proof.
  revert i bot. induction rooms as [|room rest IH]; intros i bot; simpl.
  - split; [reflexivity|]. split; [intros k r Hk; discriminate|].
    split; [auto|]. split; [reflexivity|]. split; [reflexivity|].
    intros a Hin. apply elem_of_nil in Hin. contradiction.
  - pose proof (join_room_effect (fst (env i)) (snd (env i)) room bot) as H1.
    cbv zeta in H1.
    destruct (JabberBot.join_room (fst (env i)) (snd (env i)) room bot)
      as [bot1 out1]. simpl in H1.
    specialize (IH (S i) bot1). cbv zeta in IH.
    destruct (Session.join_rooms env (S i) rest bot1) as [bot2 out2].
    simpl in *. destruct IH as (Isub & Ijoin & Ionly & Icfg & Isch & Iout).
    assert (Hsub1 : joined_rooms bot ⊆ joined_rooms bot1).
    { destruct (fst (env i)); [|destruct H1 as [-> _]; reflexivity].
      destruct H1 as (-> & _). apply union_subseteq_r. }
    assert (Hout1 : forall a, a ∈ out1 ->
              a = Sleep 2000000 \/
              exists r mbody, r ∈ room :: rest /\ a = SendMessage r mbody "groupchat").
    { intros a Hin.
      destruct (fst (env i)).
      - destruct H1 as (_ & _ & _ & [->|[mbody ->]]).
        + apply list_elem_of_singleton in Hin. auto.
        + apply elem_of_cons in Hin as [->|Hin]; [auto|].
          apply list_elem_of_singleton in Hin. right.
          exists room, mbody. split; [left|exact Hin].
      - destruct H1 as [_ ->]. apply elem_of_nil in Hin. contradiction. }
    split; [etrans; eassumption|]. split; [|split; [|split; [|split]]].
    + intros k r Hk Hok. destruct k as [|k]; simpl in Hk.
      * injection Hk as <-. rewrite Nat.add_0_r in Hok. rewrite Hok in H1.
        apply Isub. destruct H1 as (-> & _).
        apply elem_of_union_l, elem_of_singleton. reflexivity.
      * apply (Ijoin k r Hk). rewrite <- Hok. f_equal. f_equal. lia.
    + intros r Hin. destruct (Ionly r Hin) as [Hin1|Hin1]; [|right; right; exact Hin1].
      destruct (fst (env i)).
      * destruct H1 as (Hj & _). rewrite Hj in Hin1.
        apply elem_of_union in Hin1 as [Hin1|Hin1]; [|left; exact Hin1].
        apply elem_of_singleton in Hin1. subst r. right. left.
      * destruct H1 as [-> _]. left. exact Hin1.
    + rewrite Icfg. destruct (fst (env i)); [apply H1|destruct H1 as [-> _]; reflexivity].
    + rewrite Isch. destruct (fst (env i)); [apply H1|destruct H1 as [-> _]; reflexivity].
    + intros a Hin. apply elem_of_app in Hin as [Hin|Hin]; [exact (Hout1 a Hin)|].
      destruct (Iout a Hin) as [->|(r & mbody & Hr & ->)]; [auto|].
      right. exists r, mbody. split; [right; exact Hr|reflexivity].
Qed.

(** X6.  [session_start]: if getting the roster raises something else than
    [IqError], the handler is left with the presence sent and nothing else
    done: no room is joined and the scheduler is not started.  Otherwise the
    scheduler is running afterwards, every configured room whose [join_muc]
    did not raise is joined, no room is left, only configured rooms are
    added, and the messages sent all go to configured rooms. *)
Theorem session_start_outcome (roster : Session.roster_outcome)
    (env : nat -> exn unit * Z) (bot : JabberBot) :
  let bot' := fst (fst (Session.session_start roster env bot)) in
  let out := snd (fst (Session.session_start roster env bot)) in
  match roster with
  | Session.RosterRaises e =>
      Session.session_start roster env bot = (bot, [Session.SendPresence], Some e)
  | _ =>
      snd (Session.session_start roster env bot) = None
      /\ MessageScheduler.running (scheduler bot') = true
      /\ joined_rooms bot ⊆ joined_rooms bot'
      /\ (forall k room, rooms (config bot) !! k = Some room ->
            fst (env k) = Ok tt -> room ∈ joined_rooms bot')
      /\ (forall room, room ∈ joined_rooms bot' ->
            room ∈ joined_rooms bot \/ room ∈ rooms (config bot))
      /\ config bot' = config bot
      /\ (forall mto mbody mtype,
            Session.Act (SendMessage mto mbody mtype) ∈ out ->
            mto ∈ rooms (config bot) /\ mtype = "groupchat")
  end.
Proof.
  intros bot' out. subst bot' out.
  assert (Hgen :
    let r := Session.join_rooms env 0 (rooms (config bot)) bot in
    let bot' := JabberBot.set_scheduler (MessageScheduler.start (scheduler (fst r)))
                  (fst r) in
    MessageScheduler.running (scheduler bot') = true
    /\ joined_rooms bot ⊆ joined_rooms bot'
    /\ (forall k room, rooms (config bot) !! k = Some room ->
          fst (env k) = Ok tt -> room ∈ joined_rooms bot')
    /\ (forall room, room ∈ joined_rooms bot' ->
          room ∈ joined_rooms bot \/ room ∈ rooms (config bot))
    /\ config bot' = config bot
    /\ (forall mto mbody mtype,
          Session.Act (SendMessage mto mbody mtype) ∈
            Session.SendPresence :: map Session.Act (snd r) ->
          mto ∈ rooms (config bot) /\ mtype = "groupchat")).
  { intros r bot'. subst r bot'.
    destruct (join_rooms_outcome env (rooms (config bot)) 0 bot)
      as (Hsub & Hjoin & Honly & Hcfg & _ & Hout).
    simpl. split; [apply start_running|]. split; [exact Hsub|].
    split; [exact Hjoin|]. split; [exact Honly|]. split; [exact Hcfg|].
    intros mto mbody mtype Hin.
    apply elem_of_cons in Hin as [Hin|Hin]; [discriminate|].
    apply list_elem_of_fmap in Hin as (a & Ha & Hin). injection Ha as <-.
    destruct (Hout _ Hin) as [Hs|(room & b & Hr & Heq)]; [discriminate|].
    injection Heq as -> _ ->. auto. }
  cbv zeta in Hgen. unfold Session.session_start.
  destruct (Session.join_rooms env 0 (rooms (config bot)) bot) as [bot1 out1].
  simpl in Hgen.
  destruct roster; simpl; try (split; [reflexivity|exact Hgen]). reflexivity.
Qed.

(** X7.  [send_hourly_message]: when it returns, it has sent one group
    message to every joined room, all with the same body, and nothing else;
    with no room joined it sends nothing.  When the offset or the template is
    refused it raises before the first message: there is no broadcast to a
    part of the rooms. *)
Theorem send_hourly_message_rooms (bot : JabberBot) (clock : Z) :
  match JabberBot.send_hourly_message bot clock with
  | Ok out =>
      exists mbody,
        out = map (fun room => SendMessage room mbody "groupchat")
                  (elements (joined_rooms bot))
        /\ length out = size (joined_rooms bot)
        /\ NoDup out
        /\ (forall room, room ∈ joined_rooms bot <->
              SendMessage room mbody "groupchat" ∈ out)
  | Raise e =>
      DateTime.now clock (timezone_offset (config bot)) = Raise e
      \/ exists now,
           DateTime.now clock (timezone_offset (config bot)) = Ok now
           /\ str_format (hourly_message (config bot))
                [("time", strftime now "%H:%M");
                 ("date", strftime now "%d/%m/%Y");
                 ("day", strftime now "%A")] = Raise e
  end.
Proof.
  unfold JabberBot.send_hourly_message.
  destruct (DateTime.now clock (timezone_offset (config bot))) as [now|e];
    [|left; reflexivity].
  destruct (str_format _ _) as [mbody|e] eqn:Hf;
    [|right; exists now; split; [reflexivity|exact Hf]].
  exists mbody. split; [reflexivity|]. split; [|split].
  - rewrite length_map. reflexivity.
  - apply NoDup_fmap_2; [|apply NoDup_elements].
    intros a b Heq. injection Heq as ->. reflexivity.
  - intros room. rewrite <- elem_of_elements. split.
    + intros Hin. apply list_elem_of_fmap. exists room. auto.
    + intros Hin. apply list_elem_of_fmap in Hin as (r & Heq & Hin).
      injection Heq as ->. exact Hin.
Qed.

End JoiningRooms.

(** ** More on the scheduler *)

Section SchedulerProperties.
Import MessageScheduler.

(** X8.  The running flag and the tasks of a scheduler agree at all times:
    the scheduler is running if and only if one of its tasks is live (not
    done and not asked to cancel); a live task is the one the scheduler
    holds, so there is at most one.  A running scheduler never loses its
    task, whatever fails in the loop. *)
Theorem running_iff_live_task (off : Z) (es : list event) :
  let s := fst (run (init off) es) in
  (running s = true <-> exists h tk, tasks s !! h = Some tk /\ live tk = true)
  /\ (forall h tk, tasks s !! h = Some tk -> live tk = true -> task s = Some h)
  /\ (forall h1 tk1 h2 tk2,
        tasks s !! h1 = Some tk1 -> live tk1 = true ->
        tasks s !! h2 = Some tk2 -> live tk2 = true -> h1 = h2).
Proof.
  intros s.
  destruct (run_held_live es (init off) (init_consistent off)) as [Hc Hh].
  { intros Hr. discriminate. }
  fold s in Hc, Hh. split; [split|split].
  - intros Hr. destruct (Hh Hr) as (h & tk & _ & Hl & Hlive). eauto.
  - intros (h & tk & Hl & Hlive). apply (Hc h tk Hl Hlive).
  - intros h tk Hl Hlive. apply (Hc h tk Hl Hlive).
  - intros h1 tk1 h2 tk2 Hl1 Hv1 Hl2 Hv2.
    destruct (Hc h1 tk1 Hl1 Hv1) as [_ H1]. destruct (Hc h2 tk2 Hl2 Hv2) as [_ H2].
    congruence.
Qed.

Lemma fired_app (a b : list action) : fired (a ++ b) = (fired a + fired b)%nat.
Proof. unfold fired. rewrite filter_app, length_app. reflexivity. Qed.

Lemma now_invalid_offset (clock off : Z) :
  ~ (-24 < off < 24) -> DateTime.now clock off = Raise DateTime.tz_range_error.
Proof.
  intros Hoff. unfold DateTime.now.
  destruct (Z.ltb_spec (-24) off), (Z.ltb_spec off 24); try reflexivity. lia.
Qed.

Lemma loop_head_invalid_offset (s : t) (clock : Z) :
  ~ (-24 < offset s < 24) -> fst (loop_head s clock) <> Waiting.
Proof.
  intros Hoff. unfold loop_head, on_error.
  rewrite (now_invalid_offset clock (offset s) Hoff).
  destruct (running s); discriminate.
Qed.

Lemma never_waiting_set_point (h : nat) (p : point) (s : t) :
  never_waiting s -> p <> Waiting -> never_waiting (set_point h p s).
Proof.
  intros Hn Hp h' tk'. rewrite lookup_set_point. case_decide.
  - destruct (tasks s !! h); [|discriminate]. intros [= <-]. exact Hp.
  - apply Hn.
Qed.

Lemma never_waiting_new_task (ts : list task_state) :
  (forall h tk, ts !! h = Some tk -> at_point tk <> Waiting) ->
  forall h tk, snd (create_task ts) !! h = Some tk -> at_point tk <> Waiting.
Proof.
  intros Hn h tk Hl. unfold create_task in Hl. simpl in Hl.
  apply lookup_app_Some in Hl as [Hl|[_ Hl]]; [exact (Hn h tk Hl)|].
  apply list_lookup_singleton_Some in Hl as [_ <-]. discriminate.
Qed.

Lemma step_never_waiting (s : t) (e : event) :
  ~ (-24 < offset s < 24) -> never_waiting s ->
  never_waiting (fst (step s e))
  /\ offset (fst (step s e)) = offset s
  /\ fired (snd (step s e)) = 0%nat.
Proof.
  intros Hoff Hn. destruct e as [| |h clock cb]; simpl.
  - split; [|split; [|reflexivity]].
    + unfold start. destruct (running s); [exact Hn|].
      intros h tk Hl. revert h tk Hl. apply never_waiting_new_task. exact Hn.
    + unfold start. destruct (running s); reflexivity.
  - split; [|split; reflexivity].
    intros h tk. unfold stop. simpl.
    destruct (task s) as [h0|]; [|apply Hn].
    rewrite list_lookup_alter. case_decide; [|apply Hn].
    destruct (tasks s !! h0) as [tk0|] eqn:Hl0; [|discriminate].
    intros [= <-]. pose proof (Hn h0 tk0 Hl0) as Hw.
    unfold cancel. destruct (at_point tk0) eqn:E; simpl; congruence.
  - pose proof (loop_head_invalid_offset s clock Hoff) as Hlh.
    unfold _schedule_loop.
    destruct (tasks s !! h) as [tk|] eqn:Hl; [|auto].
    destruct (must_cancel tk).
    { simpl. split; [|auto]. apply never_waiting_set_point; [exact Hn|discriminate]. }
    pose proof (Hn h tk Hl) as Hw.
    destruct (at_point tk); [| contradiction | |auto].
    + destruct (loop_head s clock) as [p out] eqn:Hlp. simpl in *.
      split; [apply never_waiting_set_point; assumption|]. split; [reflexivity|].
      revert Hlp. unfold loop_head, on_error.
      rewrite (now_invalid_offset clock (offset s) Hoff).
      destruct (running s); intros [= <- <-]; reflexivity.
    + simpl. split; [|auto]. intros h' tk' Hl'.
      revert h' tk' Hl'. apply never_waiting_new_task.
      apply never_waiting_set_point; [exact Hn|discriminate].
Qed.

Lemma run_never_waiting (es : list event) (s : t) :
  ~ (-24 < offset s < 24) -> never_waiting s -> fired (snd (run s es)) = 0%nat.
Proof.
  revert s. induction es as [|e es IH]; intros s Hoff Hn; [reflexivity|].
  simpl. destruct (step_never_waiting s e Hoff Hn) as (Hn1 & Ho1 & Hf1).
  destruct (step s e) as [s1 out1]. simpl in *.
  rewrite <- Ho1 in Hoff. specialize (IH s1 Hoff Hn1).
  destruct (run s1 es) as [s2 out2]. simpl in *.
  rewrite fired_app, Hf1, IH. reflexivity.
Qed.

(** X9.  With an offset the time zone refuses (24 hours or more, either
    way), the scheduler never calls the broadcast callback, whatever is
    started, stopped or resumed: every entry of the loop fails on reading the
    clock and backs off. *)
Theorem invalid_offset_never_fires (off : Z) (es : list event) :
  ~ (-24 < off < 24) -> fired (snd (run (init off) es)) = 0%nat.
Proof.
  intros Hoff. apply run_never_waiting; [exact Hoff|].
  intros h tk Hl. discriminate.
Qed.

(** X10.  When the wait of the held task of a running scheduler is over
    and the callback returns, the step calls the callback once, passes on
    what it sent, and sleeps again for more than 0 and at most 3600 seconds;
    the task is waiting again and the scheduler is as it was otherwise. *)
Theorem fire_then_sleep_within_hour (s : t) (h : nat) (clock : Z)
    (sent : list action) :
  running s = true ->
  tasks s !! h = Some {| at_point := Waiting; must_cancel := false |} ->
  -24 < offset s < 24 ->
  exists w,
    0 < w <= 3600000000
    /\ step s (Resume h clock (Ok sent)) = (s, Fire :: sent ++ [Sleep w]).
Proof.
  intros Hr Hl Hoff.
  destruct (loop_head_sleeps s clock Hr Hoff) as (now & Hnow & Hwf & Hlh).
  exists (wait_microseconds now). split.
  - rewrite (wait_microseconds_eq now Hwf).
    destruct Hwf as (_ & Hm & Hs & Hu). lia.
  - simpl. unfold _schedule_loop. rewrite Hl. simpl. rewrite Hr, Hlh.
    f_equal. unfold set_point. destruct s as [o r tk ts]. simpl in *. f_equal.
    apply list_eq. intros i. rewrite list_lookup_alter. case_decide; [|reflexivity].
    subst i. rewrite Hl. reflexivity.
Qed.

(** X11.  When the callback raises, the scheduler mends itself without a
    call of [start]: the step sleeps 60 seconds; the next resumption of the
    task makes a new task, which the scheduler holds from then on; and the
    first resumption of the new task sleeps until the next top of the hour.
    The callback was called once and the scheduler is still running. *)
Theorem callback_error_recovers (s : t) (h : nat) (e : string)
    (c1 c2 c3 : Z) (cb2 cb3 : exn (list action)) :
  running s = true ->
  tasks s !! h = Some {| at_point := Waiting; must_cancel := false |} ->
  -24 < offset s < 24 ->
  let h' := length (tasks s) in
  let r := run s [Resume h c1 (Raise e); Resume h c2 cb2; Resume h' c3 cb3] in
  exists w,
    0 < w <= 3600000000
    /\ snd r = [Fire; Sleep 60000000; Sleep w]
    /\ running (fst r) = true
    /\ task (fst r) = Some h'
    /\ tasks (fst r) !! h' = Some {| at_point := Waiting; must_cancel := false |}
    /\ tasks (fst r) !! h = Some {| at_point := Done; must_cancel := false |}.
Proof.
  intros Hr Hl Hoff h' r. subst h' r.
  assert (Hlt : (h < length (tasks s))%nat) by (eapply lookup_lt_Some; eassumption).
  set (s1 := set_point h Backoff s).
  assert (Hl1 : tasks s1 !! h = Some {| at_point := Backoff; must_cancel := false |}).
  { unfold s1. rewrite lookup_set_point, decide_True, Hl by reflexivity. reflexivity. }
  set (ts2 := tasks (set_point h Done s1) ++
              [ {| at_point := Created; must_cancel := false |} ]).
  set (s2 := {| offset := offset s; running := true;
                task := Some (length (tasks s)); tasks := ts2 |}).
  assert (Hlen : length (tasks (set_point h Done s1)) = length (tasks s)).
  { unfold set_point, s1. simpl. rewrite !length_alter. reflexivity. }
  assert (Hl2 : tasks s2 !! length (tasks s) =
                Some {| at_point := Created; must_cancel := false |}).
  { simpl. unfold ts2. rewrite lookup_app_r by lia. rewrite Hlen, Nat.sub_diag.
    reflexivity. }
  assert (Hr2 : running s2 = true) by reflexivity.
  destruct (loop_head_sleeps s2 c3 Hr2 Hoff) as (now & Hnow & Hwf & Hlh).
  exists (wait_microseconds now). split.
  { rewrite (wait_microseconds_eq now Hwf).
    destruct Hwf as (_ & Hm & Hs & Hu). lia. }
  assert (Hstep1 : step s (Resume h c1 (Raise e)) = (s1, [Fire; Sleep 60000000])).
  { simpl. unfold _schedule_loop. rewrite Hl. simpl.
    rewrite Hr, (on_error_running s Hr). reflexivity. }
  assert (Hstep2 : step s1 (Resume h c2 cb2) = (s2, [])).
  { simpl. unfold _schedule_loop. rewrite Hl1. unfold s2, ts2.
    rewrite <- Hlen. cbn [must_cancel at_point create_task].
    replace (running s1) with true by (symmetry; exact Hr). reflexivity. }
  assert (Hstep3 : step s2 (Resume (length (tasks s)) c3 cb3) =
                   (set_point (length (tasks s)) Waiting s2,
                    [Sleep (wait_microseconds now)])).
  { simpl. unfold _schedule_loop. rewrite Hl2. simpl. rewrite Hlh. reflexivity. }
  cbn [run]. rewrite Hstep1, Hstep2, Hstep3. simpl.
  split; [reflexivity|]. split; [reflexivity|]. split; [reflexivity|]. split.
  - rewrite list_lookup_alter, decide_True by reflexivity.
    unfold ts2. rewrite lookup_app_r by lia. rewrite Hlen, Nat.sub_diag. reflexivity.
  - rewrite list_lookup_alter, decide_False by lia.
    unfold ts2. rewrite lookup_app_l by lia.
    rewrite lookup_set_point, decide_True, Hl1 by reflexivity. reflexivity.
Qed.

(** X12.  The wait is the full 3600 seconds exactly when the current time
    is itself on a full hour, and then the boundary is the next hour, not
    the current one; two times of the same hour of the same day wait for the
    same boundary. *)
Theorem wait_full_hour_on_boundary (now : datetime) :
  DateTime.wf now ->
  (wait_microseconds now = 3600000000 <->
     minute now = 0 /\ second now = 0 /\ microsecond now = 0)
  /\ (minute now = 0 -> second now = 0 -> microsecond now = 0 ->
      next_hour now <> now /\ DateTime.sub (next_hour now) now = 3600000000)
  /\ (forall other : datetime,
        DateTime.wf other -> ordinal other = ordinal now -> hour other = hour now ->
        next_hour other = next_hour now).
Proof.
  intros Hwf. pose proof (wait_microseconds_eq now Hwf) as Hw.
  pose proof (next_hour_fields now Hwf) as Hn.
  destruct Hwf as (Hh & Hm & Hs & Hu).
  split; [rewrite Hw; lia|]. split.
  - intros Hm0 Hs0 Hu0. split.
    + intros Heq. unfold wait_microseconds, DateTime.sub in Hw.
      rewrite Heq in Hw. lia.
    + fold (wait_microseconds now). rewrite Hw. lia.
  - intros other Hwfo Ho Hho.
    rewrite (next_hour_fields other Hwfo), Hn, Ho, Hho. reflexivity.
Qed.

End SchedulerProperties.

(** ** More on the dispatcher *)

Section Blank.

Lemma rstrip_empty_head (c : ascii) (s : string) :
  Py.rstrip (String c s) = "" -> Py.isspace c = true /\ Py.rstrip s = "".
Proof.
  simpl. destruct (Py.isspace c); [|discriminate].
  destruct (Py.rstrip s); [auto|discriminate].
Qed.

Lemma split_lstrip (s : string) : Py.split (Py.lstrip s) = Py.split s.
Proof.
  induction s as [|c s IH]; [reflexivity|].
  simpl Py.lstrip. destruct (Py.isspace c) eqn:Hc; [|reflexivity].
  rewrite IH. simpl. rewrite Hc. reflexivity.
Qed.

Lemma split_cons_space (c : ascii) (s : string) :
  Py.isspace c = true -> Py.split (String c s) = Py.split s.
Proof. intros Hc. simpl. rewrite Hc. reflexivity. Qed.

Lemma split_unfold (c : ascii) (s : string) :
  Py.split (String c s) =
  if Py.isspace c then Py.split s
  else match s with
       | EmptyString => [String c ""]
       | String c' _ =>
           if Py.isspace c' then String c "" :: Py.split s
           else match Py.split s with
                | t :: ts => String c t :: ts
                | [] => [String c ""]
                end
       end.
Proof. reflexivity. Qed.

Lemma split_rstrip (s : string) : Py.split (Py.rstrip s) = Py.split s.
Proof.
  induction s as [|c s IH]; [reflexivity|].
  destruct (Py.isspace c) eqn:Hc.
  - rewrite (split_cons_space c s Hc). simpl Py.rstrip. rewrite Hc.
    destruct (Py.rstrip s) eqn:Hr; simpl andb; cbv iota.
    + rewrite <- IH. reflexivity.
    + rewrite split_cons_space by exact Hc. exact IH.
  - assert (Hrs : Py.rstrip (String c s) = String c (Py.rstrip s))
      by (simpl; rewrite Hc; reflexivity).
    rewrite Hrs, (split_unfold c (Py.rstrip s)), (split_unfold c s), Hc, IH.
    destruct s as [|c' s']; [reflexivity|].
    destruct (Py.rstrip (String c' s')) as [|x r] eqn:Hr.
    + destruct (rstrip_empty_head c' s' Hr) as [Hc' _].
      rewrite Hc', <- IH. reflexivity.
    + assert (Hx : x = c').
      { simpl in Hr. destruct (Py.isspace c' && Py.is_empty (Py.rstrip s'));
          [discriminate|]. injection Hr as -> _. reflexivity. }
      subst x. reflexivity.
Qed.

(** Stripping does not change the tokens. *)
Lemma split_strip (s : string) : Py.split (Py.strip s) = Py.split s.
Proof. unfold Py.strip. rewrite split_rstrip. apply split_lstrip. Qed.

(** A text has no token if and only if it is blank. *)
Lemma split_nil_blank (s : string) : Py.split s = [] <-> blank s.
Proof.
  unfold blank. induction s as [|c s IH].
  - split; [intros _; apply only_of_nil|reflexivity].
  - rewrite only_of_cons. destruct (Py.isspace c) eqn:Hc.
    + rewrite (split_cons_space c s Hc), IH. tauto.
    + split; [|intros [? _]; discriminate].
      simpl. rewrite Hc. destruct s as [|c' s']; [discriminate|].
      destruct (Py.isspace c'); [discriminate|].
      destruct (Py.split (String c' s')); discriminate.
Qed.

End Blank.

Section Answers.
Context `{PyRuntime}.
Variable bot : JabberBot.
Variable clock : Z.

Lemma commands_lookup (name : string) (handler : list string -> exn CommandHandler.reply) :
  CommandHandler.commands bot clock !! name = Some handler ->
  (name = "ping" /\ handler = CommandHandler.cmd_ping)
  \/ (name <> "ping" /\
      forall args, exists r,
        r <> "" /\
        match handler args with
        | Ok reply => reply = CommandHandler.Return (Some r)
        | Raise e => "❌ Error executing command: " +:+ e = r
        end).
Proof.
  intros Hl. unfold CommandHandler.commands in Hl.
  apply elem_of_list_to_map_2 in Hl. elem_cases Hl; injection Hl as -> ->.
  - left. auto.
  - right. split; [discriminate|]. intros args. eexists. split; [|reflexivity].
    discriminate.
  - right. split; [discriminate|]. intros args.
    unfold CommandHandler.cmd_time.
    destruct (DateTime.now _ _); eexists; (split; [|reflexivity]); discriminate.
  - right. split; [discriminate|]. intros args. eexists. split; [|reflexivity].
    discriminate.
  - right. split; [discriminate|]. intros args. eexists. split; [|reflexivity].
    discriminate.
Qed.

(** What [process_command] gives on a text with tokens. *)
Lemma process_command_tokens (text part0 : string) (args : list string) :
  Py.split (Py.strip text) = part0 :: args ->
  (Py.lower part0 = "ping" /\
   CommandHandler.process_command bot clock text =
   match CommandHandler.cmd_ping args with
   | Ok r => r
   | Raise e => CommandHandler.Return (Some ("❌ Error executing command: " +:+ e))
   end)
  \/ (Py.lower part0 <> "ping" /\
      exists r, r <> "" /\
        CommandHandler.process_command bot clock text =
        CommandHandler.Return (Some r)).
Proof.
  intros Hsp. unfold CommandHandler.process_command.
  rewrite (split_nonempty_text _ _ _ Hsp), Hsp.
  destruct (CommandHandler.commands bot clock !! Py.lower part0)
    as [handler|] eqn:Hl.
  - destruct (commands_lookup _ _ Hl) as [[Hn ->]|[Hn Hr]]; [left; auto|].
    right. split; [exact Hn|]. destruct (Hr args) as (r & Hne & Hm).
    exists r. split; [exact Hne|].
    destruct (handler args); [rewrite Hm|rewrite <- Hm]; reflexivity.
  - right. split.
    + intros Hp. rewrite Hp in Hl. discriminate.
    + eexists. split; [|reflexivity]. discriminate.
Qed.

(** X13.  On ASCII text the dispatcher is silent exactly when the text is
    blank: it returns no response if and only if the text is empty or white
    space only.  On every other text it answers with a text that is not
    empty, or starts the probe. *)
Theorem dispatch_answers_unless_blank (text : string) :
  Py.isascii text = true ->
  (CommandHandler.process_command bot clock text = CommandHandler.Return None
   <-> blank text)
  /\ (~ blank text ->
      (exists argv,
         CommandHandler.process_command bot clock text = CommandHandler.Probe argv)
      \/ exists r, r <> "" /\
           CommandHandler.process_command bot clock text =
           CommandHandler.Return (Some r)).
Proof.
  intros _.
  assert (Hans : forall part0 args, Py.split (Py.strip text) = part0 :: args ->
    (exists argv,
       CommandHandler.process_command bot clock text = CommandHandler.Probe argv)
    \/ exists r, r <> "" /\
         CommandHandler.process_command bot clock text =
         CommandHandler.Return (Some r)).
  { intros part0 args Hsp.
    destruct (process_command_tokens text part0 args Hsp) as [[_ ->]|[_ Hr]];
      [|right; exact Hr].
    unfold CommandHandler.cmd_ping.
    destruct (negb _); [right|left]; eexists; [split; [|reflexivity]|reflexivity].
    discriminate. }
  rewrite <- split_nil_blank, <- split_strip.
  destruct (Py.split (Py.strip text)) as [|part0 args] eqn:Hsp.
  - split; [split; [reflexivity|]|intros Hn; contradiction].
    intros _. unfold CommandHandler.process_command. rewrite Hsp.
    destruct (Py.is_empty text); reflexivity.
  - split; [|intros _; exact (Hans part0 args eq_refl)].
    split; [|discriminate]. intros Hnone.
    destruct (Hans part0 args eq_refl) as [[argv Hp]|(r & _ & Hr)]; congruence.
Qed.

(** What [cmd_ping] hands to the subprocess when its arguments are tokens. *)
Lemma cmd_ping_probe (args argv : list string) :
  (forall a, a ∈ args -> no_space a) ->
  CommandHandler.cmd_ping args = Ok (CommandHandler.Probe argv) ->
  exists target,
    argv = ["ping"; "-c"; "3"; "-W"; "5"; target]
    /\ target <> ""
    /\ only_of alnum_dot_hyphen target
    /\ (String.length target <= 253)%nat
    /\ target = match args with a :: _ => a | [] => "google.com" end.
Proof.
  intros Htok Hp. unfold CommandHandler.cmd_ping in Hp.
  set (target := match args with a :: _ => a | [] => "google.com" end) in *.
  destruct (CommandHandler.is_valid_hostname target) eqn:Hv; [|discriminate].
  simpl in Hp. injection Hp as <-. exists target. split; [reflexivity|].
  assert (Hne : target <> "").
  { intros He. rewrite He in Hv. discriminate. }
  assert (Hns : no_space target).
  { subst target. destruct args as [|a rest].
    - unfold no_space, only_of. simpl. repeat constructor.
    - apply Htok. left. }
  apply (is_valid_hostname_token target Hne Hns) in Hv as [Hall Hlen].
  auto.
Qed.

(** X14.  Whatever arguments [ping] is called with, as long as none of them
    holds white space, which is so of the tokens the dispatcher hands on,
    the probe is started with the fixed arguments [ping -c 3 -W 5] and one
    target only, the first argument or [google.com], and the target is a
    name of letters, digits, dots and hyphens, not empty and at most 253
    characters long.  Seen from the text of the command, for an ASCII text:
    a probe is started only for a text whose first token is [ping] in some
    case, with the token behind it for target, so that no white space and no
    other character of the text reaches the command line. *)
Theorem probe_target_is_clean :
  (forall (args argv : list string),
     (forall a, a ∈ args -> no_space a) ->
     CommandHandler.cmd_ping args = Ok (CommandHandler.Probe argv) ->
     exists target,
       argv = ["ping"; "-c"; "3"; "-W"; "5"; target]
       /\ target <> ""
       /\ only_of alnum_dot_hyphen target
       /\ (String.length target <= 253)%nat
       /\ target = match args with a :: _ => a | [] => "google.com" end)
  /\ (forall (text : string) (argv : list string),
     Py.isascii text = true ->
     CommandHandler.process_command bot clock text = CommandHandler.Probe argv ->
     exists target,
       argv = ["ping"; "-c"; "3"; "-W"; "5"; target]
       /\ target <> ""
       /\ only_of alnum_dot_hyphen target
       /\ (String.length target <= 253)%nat
       /\ exists part0 args,
            Py.split text = part0 :: args /\ Py.lower part0 = "ping"
            /\ target = match args with a :: _ => a | [] => "google.com" end).
Proof.
  split; [exact cmd_ping_probe|].
  intros text argv _ Hp.
  destruct (Py.split (Py.strip text)) as [|part0 args] eqn:Hsp.
  { unfold CommandHandler.process_command in Hp. rewrite Hsp in Hp.
    destruct (Py.is_empty text); discriminate. }
  destruct (process_command_tokens text part0 args Hsp) as [[Hlow Heq]|[_ (r & _ & Hr)]];
    [|congruence].
  rewrite Heq in Hp.
  destruct (CommandHandler.cmd_ping args) as [r|e] eqn:Hping; [|discriminate].
  subst r.
  destruct (cmd_ping_probe args argv) as (target & Hargv & Hne & Hall & Hlen & Ht).
  { intros a Hin. apply (split_tokens (Py.strip text)). rewrite Hsp. right. exact Hin. }
  { exact Hping. }
  exists target. split; [exact Hargv|]. split; [exact Hne|].
  split; [exact Hall|]. split; [exact Hlen|].
  exists part0, args. rewrite <- split_strip. auto.
Qed.

End Answers.

Section HostNames.

Lemma line_feed_char (c : ascii) :
  Py.in_range 10 10 c = true <-> c = ascii_of_nat 10.
Proof.
  unfold Py.in_range. rewrite andb_true_iff, !N.leb_le. split.
  - intros [H1 H2]. rewrite <- (ascii_N_embedding c).
    replace (N_of_ascii c) with 10%N by lia. reflexivity.
  - intros ->. simpl. lia.
Qed.

Lemma line_feed_not_hostname_char (c : ascii) :
  Py.in_range 10 10 c = true -> CommandHandler.hostname_char c = false.
Proof. intros Hc. apply line_feed_char in Hc. subst c. reflexivity. Qed.

(** The tail of the pattern on any string: the class to the end, or the
    class up to one closing line feed. *)
Lemma match_tail_spec (s : string) :
  CommandHandler.match_tail s = true <->
  only_of alnum_dot_hyphen s
  \/ exists core, only_of alnum_dot_hyphen core /\ s = core +:+ Py.nl.
Proof.
  induction s as [|c s IH].
  - split; [intros _; left; apply only_of_nil|reflexivity].
  - simpl. destruct (CommandHandler.hostname_char c) eqn:Hh.
    + rewrite IH. split.
      * intros [Hall|(core & Hall & ->)].
        -- left. apply only_of_cons. split; [apply hostname_char_spec, Hh|exact Hall].
        -- right. exists (String c core). split; [|reflexivity].
           apply only_of_cons. split; [apply hostname_char_spec, Hh|exact Hall].
      * intros [Hall|(core & Hall & Heq)].
        -- left. apply only_of_cons in Hall. apply Hall.
        -- right. destruct core as [|c0 core].
           ++ rewrite str_app_nil_l in Heq. injection Heq as -> _.
              discriminate Hh.
           ++ rewrite str_app_cons in Heq. injection Heq as -> ->.
              exists core. apply only_of_cons in Hall. split; [apply Hall|reflexivity].
    + rewrite andb_true_iff. split.
      * intros [Hc He]. apply line_feed_char in Hc. subst c.
        destruct s; [|discriminate]. right. exists "". split; [apply only_of_nil|reflexivity].
      * intros [Hall|(core & Hall & Heq)].
        -- apply only_of_cons in Hall as [Hc _].
           apply hostname_char_spec in Hc. congruence.
        -- destruct core as [|c0 core].
           ++ rewrite str_app_nil_l in Heq. injection Heq as -> ->.
              split; reflexivity.
           ++ rewrite str_app_cons in Heq. injection Heq as -> _.
              apply only_of_cons in Hall as [Hc _].
              apply hostname_char_spec in Hc. congruence.
Qed.

(** X15.  [is_valid_hostname] on every string: it accepts the strings of at
    most 253 characters that are a name of letters, digits, dots and hyphens,
    not empty, or such a name followed by one line feed, which the dollar
    of the pattern lets pass; it accepts nothing else, and not the empty
    string. *)
Theorem is_valid_hostname_exact (hostname : string) :
  CommandHandler.is_valid_hostname hostname = true <->
  (String.length hostname <= 253)%nat
  /\ exists core,
       core <> "" /\ only_of alnum_dot_hyphen core
       /\ (hostname = core \/ hostname = core +:+ Py.nl).
Proof.
  unfold CommandHandler.is_valid_hostname.
  rewrite andb_true_iff, Nat.leb_le.
  assert (Hre : CommandHandler.re_match hostname = true <->
    exists core, core <> "" /\ only_of alnum_dot_hyphen core
      /\ (hostname = core \/ hostname = core +:+ Py.nl)).
  { destruct hostname as [|c s]; simpl.
    - split; [discriminate|]. intros (core & Hne & _ & [Heq|Heq]).
      + congruence.
      + destruct core; [contradiction|discriminate].
    - rewrite andb_true_iff, match_tail_spec. split.
      + intros [Hc [Hall|(core & Hall & ->)]].
        * exists (String c s). split; [discriminate|].
          split; [|left; reflexivity].
          apply only_of_cons. split; [apply hostname_char_spec, Hc|exact Hall].
        * exists (String c core). split; [discriminate|].
          split; [|right; reflexivity].
          apply only_of_cons. split; [apply hostname_char_spec, Hc|exact Hall].
      + intros (core & Hne & Hall & Heq).
        destruct core as [|c0 core]; [contradiction|].
        apply only_of_cons in Hall as [Hc0 Hall].
        destruct Heq as [Heq|Heq]; [|rewrite str_app_cons in Heq];
          injection Heq as -> ->; (split; [apply hostname_char_spec, Hc0|]).
        * left. exact Hall.
        * right. exists core. auto. }
  rewrite Hre. tauto.
Qed.

End HostNames.

Section UptimeEdge.

(** X16.  When the clock is behind the start time, so that the elapsed
    seconds are negative, [uptime] shows no days and no sign: the text is the
    one of the elapsed time taken modulo one day. *)
Theorem uptime_of_negative (s : Z) :
  s < 0 ->
  CommandHandler.uptime_str s = CommandHandler.uptime_str (s mod 86400)
  /\ CommandHandler.uptime_reply s = CommandHandler.uptime_reply (s mod 86400)
  /\ 0 <= s mod 86400 < 86400.
Proof.
  intros Hs.
  assert (Hstr : CommandHandler.uptime_str s =
                 CommandHandler.uptime_str (s mod 86400)).
  { unfold CommandHandler.uptime_str. cbv zeta.
    assert (Hd : (0 <? s / 86400) = false)
      by (apply Z.ltb_ge; Z.div_mod_to_equations; lia).
    assert (Hd' : (0 <? (s mod 86400) / 86400) = false)
      by (apply Z.ltb_ge; Z.div_mod_to_equations; lia).
    assert (Hh : (s mod 86400) mod 86400 = s mod 86400)
      by (Z.div_mod_to_equations; lia).
    assert (Hm : (s mod 86400) mod 3600 = s mod 3600)
      by (Z.div_mod_to_equations; lia).
    assert (Hsec : (s mod 86400) mod 60 = s mod 60)
      by (Z.div_mod_to_equations; lia).
    rewrite Hd, Hd', Hh, Hm, Hsec. reflexivity. }
  split; [exact Hstr|]. split.
  - unfold CommandHandler.uptime_reply. rewrite Hstr. reflexivity.
  - Z.div_mod_to_equations; lia.
Qed.

End UptimeEdge.

(** ** Messages *)

Section Messages.
Context `{PyRuntime}.
Context `{CommandHandler.PyFloat}.

Lemma lstrip_blank (s : string) : blank s -> Py.lstrip s = "".
Proof.
  unfold blank. induction s as [|c s IH]; [reflexivity|].
  rewrite only_of_cons. intros [Hc Hs]. simpl. rewrite Hc. exact (IH Hs).
Qed.

Lemma strip_blank (s : string) : blank s -> Py.strip s = "".
Proof. intros Hb. unfold Py.strip. rewrite (lstrip_blank s Hb). reflexivity. Qed.

(** The three ways a dispatch can end. *)
Lemma process_command_cases (bot : JabberBot) (clock : Z) (text : string) :
  CommandHandler.process_command bot clock text = CommandHandler.Return None
  \/ (exists r, r <> "" /\
        CommandHandler.process_command bot clock text =
        CommandHandler.Return (Some r))
  \/ (exists target,
        CommandHandler.is_valid_hostname target = true /\
        CommandHandler.process_command bot clock text =
        CommandHandler.Probe ["ping"; "-c"; "3"; "-W"; "5"; target]).
Proof.
  destruct (Py.split (Py.strip text)) as [|part0 args] eqn:Hsp.
  - left. unfold CommandHandler.process_command. rewrite Hsp.
    destruct (Py.is_empty text); reflexivity.
  - right.
    destruct (process_command_tokens bot clock text part0 args Hsp)
      as [[_ ->]|[_ Hr]]; [|left; exact Hr].
    unfold CommandHandler.cmd_ping.
    destruct (CommandHandler.is_valid_hostname _) eqn:Hv; simpl.
    + right. eexists. split; [exact Hv|reflexivity].
    + left. eexists. split; [|reflexivity]. discriminate.
Qed.

Lemma is_empty_app_cons (c : ascii) (a b : string) :
  Py.is_empty (String c a +:+ b) = false.
Proof. rewrite str_app_cons. reflexivity. Qed.

(** Whatever becomes of the probe, [cmd_ping] returns a text that is not
    empty. *)
Lemma cmd_ping_result_nonempty (target : string) (o : CommandHandler.probe_outcome) :
  Py.is_empty (CommandHandler.cmd_ping_result target o) = false.
Proof.
  unfold CommandHandler.cmd_ping_result.
  destruct o as [|e|returncode stdout stderr total_ms]; [reflexivity| |].
  - apply is_empty_app_cons.
  - destruct (returncode =? 0); [|apply is_empty_app_cons].
    destruct (CommandHandler.stats_line stdout) as [line|];
      [|apply is_empty_app_cons].
    destruct (Py.is_empty line); [apply is_empty_app_cons|].
    destruct (CommandHandler.average line); apply is_empty_app_cons.
Qed.

(** X17.  Whatever message arrives, the bot does at most one thing for it
    before its handler ends or awaits, and only one of three: a reply to a
    private message that is not its own echo, a group message to the room a
    group message came from, sent by someone else than the bot, or the start
    of the probe of an accepted host.  What it sends is never empty, and a
    blank body is answered by nothing.  When the probe was started the
    handler goes on at its end, and then, whatever became of the probe, it
    sends one text and nothing else: the text [cmd_ping] returns, which is
    never empty, to the room for a group message and as a reply
    otherwise. *)
Theorem message_handler_actions (bot : JabberBot) (clock : Z) (msg : message) :
  let out := JabberBot.message_handler bot clock msg in
  (forall target o,
     out = [Exec ["ping"; "-c"; "3"; "-W"; "5"; target]] ->
     CommandHandler.cmd_ping_result target o <> ""
     /\ JabberBot.message_handler_resumed msg target o =
        [if String.eqb (mtype msg) "groupchat"
         then SendMessage (from_bare msg)
                (CommandHandler.cmd_ping_result target o) "groupchat"
         else Reply (CommandHandler.cmd_ping_result target o)])
  /\ (length out <= 1)%nat
  /\ (forall a, a ∈ out ->
        (exists r, r <> "" /\ a = Reply r
           /\ (mtype msg = "chat" \/ mtype msg = "normal")
           /\ from_bare msg <> boundjid_bare bot)
        \/ (exists r, r <> "" /\ a = SendMessage (from_bare msg) r "groupchat"
              /\ mtype msg = "groupchat"
              /\ mucnick msg <> nickname (config bot))
        \/ (exists target,
              CommandHandler.is_valid_hostname target = true
              /\ a = Exec ["ping"; "-c"; "3"; "-W"; "5"; target]))
  /\ (blank (body msg) -> out = []).
Proof.
  intros out. split.
  { intros target o Hout.
    pose proof (cmd_ping_result_nonempty target o) as Hne.
    split; [intros He; rewrite He in Hne; discriminate|].
    subst out. unfold JabberBot.message_handler in Hout.
    unfold JabberBot.message_handler_resumed,
      JabberBot.handle_private_message_resumed,
      JabberBot.handle_group_message_resumed, JabberBot.truthy.
    rewrite Hne.
    destruct (String.eqb (mtype msg) "chat" || String.eqb (mtype msg) "normal")
      eqn:Hty.
    - assert (Hg : String.eqb (mtype msg) "groupchat" = false).
      { apply orb_true_iff in Hty as [Ht|Ht]; apply String.eqb_eq in Ht;
          rewrite Ht; reflexivity. }
      rewrite Hg. reflexivity.
    - destruct (String.eqb (mtype msg) "groupchat"); [reflexivity|discriminate]. }
  subst out. unfold JabberBot.message_handler.
  destruct (String.eqb (mtype msg) "chat" || String.eqb (mtype msg) "normal") eqn:Hty.
  - assert (Hkind : mtype msg = "chat" \/ mtype msg = "normal").
    { apply orb_true_iff in Hty as [Ht|Ht]; apply String.eqb_eq in Ht; auto. }
    unfold JabberBot.handle_private_message.
    destruct (String.eqb_spec (from_bare msg) (boundjid_bare bot)) as [|Hfrom].
    { split; [simpl; lia|]. split; [|reflexivity].
      intros a Hin. apply elem_of_nil in Hin. contradiction. }
    split; [|split].
    + destruct (CommandHandler.process_command bot clock (Py.strip (body msg)))
        as [r|argv]; [destruct (JabberBot.truthy r)|]; simpl; lia.
    + intros a.
      destruct (process_command_cases bot clock (Py.strip (body msg)))
        as [->|[(r & Hr & ->)|(target & Hv & ->)]]; simpl.
      * intros Hin. apply elem_of_nil in Hin. contradiction.
      * destruct r; [contradiction|]. simpl. intros Hin.
        apply list_elem_of_singleton in Hin as ->. left. eexists. eauto.
      * intros Hin. apply list_elem_of_singleton in Hin as ->.
        right. right. eauto.
    + intros Hb. rewrite (strip_blank _ Hb). reflexivity.
  - destruct (String.eqb_spec (mtype msg) "groupchat") as [Hg|].
    2:{ split; [simpl; lia|]. split; [|reflexivity].
        intros a Hin. apply elem_of_nil in Hin. contradiction. }
    unfold JabberBot.handle_group_message.
    destruct (String.eqb_spec (mucnick msg) (nickname (config bot))) as [|Hnick].
    { split; [simpl; lia|]. split; [|reflexivity].
      intros a Hin. apply elem_of_nil in Hin. contradiction. }
    split; [|split].
    + destruct (JabberBot.addressed_command _ _) as [command|]; [|simpl; lia].
      destruct (CommandHandler.process_command bot clock command)
        as [r|argv]; [destruct (JabberBot.truthy r)|]; simpl; lia.
    + intros a.
      destruct (JabberBot.addressed_command _ _) as [command|];
        [|intros Hin; apply elem_of_nil in Hin; contradiction].
      destruct (process_command_cases bot clock command)
        as [->|[(r & Hr & ->)|(target & Hv & ->)]]; simpl.
      * intros Hin. apply elem_of_nil in Hin. contradiction.
      * destruct r; [contradiction|]. simpl. intros Hin.
        apply list_elem_of_singleton in Hin as ->. right. left. eexists. eauto.
      * intros Hin. apply list_elem_of_singleton in Hin as ->.
        right. right. eauto.
    + intros Hb. rewrite (strip_blank _ Hb).
      unfold JabberBot.addressed_command, Py.startswith.
      destruct (nickname (config bot)); reflexivity.
Qed.

End Messages.

Section BangCommands.
Context `{PyRuntime}.

Lemma rstrip_idemp (s : string) : Py.rstrip (Py.rstrip s) = Py.rstrip s.
Proof.
  induction s as [|c s IH]; [reflexivity|].
  simpl. destruct (Py.isspace c && Py.is_empty (Py.rstrip s)) eqn:E; [reflexivity|].
  simpl. rewrite IH, E. reflexivity.
Qed.

(** [rstrip] cuts a string at its end. *)
Lemma rstrip_prefix (s : string) : exists w, s = Py.rstrip s +:+ w.
Proof.
  induction s as [|c s [w IH]]; [exists ""; reflexivity|].
  simpl. destruct (Py.isspace c && Py.is_empty (Py.rstrip s)).
  - exists (String c s). reflexivity.
  - exists w. rewrite str_app_cons, <- IH. reflexivity.
Qed.

Lemma prefix_nil (s : string) : String.prefix "" s = true.
Proof. destruct s; reflexivity. Qed.

Lemma prefix_app_l (x a b : string) :
  String.prefix x a = true -> String.prefix x (a +:+ b) = true.
Proof.
  revert a. induction x as [|c x IH]; intros a Hp; [apply prefix_nil|].
  destruct a as [|c' a]; [discriminate|].
  rewrite str_app_cons. simpl in *.
  destruct (ascii_dec c c'); [apply IH, Hp|discriminate].
Qed.

Lemma contains_app_l (a b x : string) :
  Py.contains a x = true -> Py.contains (a +:+ b) x = true.
Proof.
  induction a as [|c a IH]; intros Hc.
  - simpl in Hc. rewrite orb_false_r in Hc.
    apply contains_prefix. rewrite str_app_nil_l.
    destruct x; [apply prefix_nil|discriminate].
  - rewrite str_app_cons. simpl in *.
    apply orb_true_iff in Hc as [Hp|Hc].
    + apply (prefix_app_l x (String c a) b) in Hp.
      rewrite str_app_cons in Hp. simpl in Hp. rewrite Hp. reflexivity.
    + rewrite (IH Hc). apply orb_true_r.
Qed.

(** Nothing is replaced in a string the pattern does not occur in. *)
Lemma replace_absent (s old new : string) :
  old <> "" -> Py.contains s old = false -> Py.replace s old new = s.
Proof.
  intros Hold. unfold Py.replace.
  destruct old as [|o old]; [contradiction|]. simpl Py.is_empty. cbv iota.
  induction s as [|c s IH]; intros Hc; [reflexivity|].
  simpl in Hc. apply orb_false_iff in Hc as [Hp Hc].
  unfold Py.replace_from. fold Py.replace_from.
  simpl String.prefix. rewrite Hp. rewrite (IH Hc). reflexivity.
Qed.

(** The dispatcher looks at the tokens of the text only. *)
Lemma process_command_split (bot : JabberBot) (clock : Z) (a b : string) :
  Py.split a = Py.split b ->
  CommandHandler.process_command bot clock a =
  CommandHandler.process_command bot clock b.
Proof.
  intros Hab. unfold CommandHandler.process_command.
  rewrite !split_strip, <- Hab.
  destruct (Py.split a) as [|part0 args] eqn:Hsp.
  - destruct (Py.is_empty a), (Py.is_empty b); reflexivity.
  - assert (Ha : Py.is_empty a = false) by (destruct a; [discriminate|reflexivity]).
    assert (Hb : Py.is_empty b = false).
    { destruct b; [simpl in Hab; discriminate|reflexivity]. }
    rewrite Ha, Hb. reflexivity.
Qed.

(** X18.  A command written with a leading [!] in a room is dispatched as
    the same text sent in private is: the answer is the same, sent to the
    room instead of the sender.  This holds for every sender but the bot and
    every text in which [<nickname>:] does not occur. *)
Theorem bang_in_group_as_in_private (bot : JabberBot) (clock : Z)
    (room sender_nick sender_bare text : string) :
  sender_nick <> nickname (config bot) ->
  sender_bare <> boundjid_bare bot ->
  Py.contains ("!" +:+ text) (nickname (config bot) +:+ ":") = false ->
  JabberBot.handle_group_message bot clock
    {| mtype := "groupchat"; from_bare := room; mucnick := sender_nick;
       body := "!" +:+ text |}
  = map (fun a => match a with
                  | Reply r => SendMessage room r "groupchat"
                  | _ => a
                  end)
        (JabberBot.handle_private_message bot clock
           {| mtype := "chat"; from_bare := sender_bare; mucnick := "";
              body := text |}).
Proof.
  intros Hnick Hbare Habsent.
  unfold JabberBot.handle_group_message, JabberBot.handle_private_message.
  cbn [mucnick from_bare body].
  apply String.eqb_neq in Hnick, Hbare. rewrite Hnick, Hbare.
  assert (Hstrip : Py.strip ("!" +:+ text) = "!" +:+ Py.rstrip text)
    by reflexivity.
  rewrite Hstrip.
  assert (Habs' : Py.contains ("!" +:+ Py.rstrip text)
                    (nickname (config bot) +:+ ":") = false).
  { destruct (Py.contains ("!" +:+ Py.rstrip text) _) eqn:E; [|reflexivity].
    destruct (rstrip_prefix text) as [w Hw].
    apply (contains_app_l _ w) in E.
    rewrite str_app_assoc, <- Hw in E. congruence. }
  assert (Hcmd : JabberBot.addressed_command (nickname (config bot))
                   ("!" +:+ Py.rstrip text) = Some (Py.rstrip text)).
  { unfold JabberBot.addressed_command.
    rewrite (replace_absent _ _ "" (prefix_colon_nonempty _) Habs').
    assert (Hs : Py.strip ("!" +:+ Py.rstrip text) = "!" +:+ Py.rstrip text).
    { change (Py.strip ("!" +:+ Py.rstrip text))
        with ("!" +:+ Py.rstrip (Py.rstrip text)).
      rewrite rstrip_idemp. reflexivity. }
    rewrite Hs.
    assert (Hb : Py.startswith ("!" +:+ Py.rstrip text) "!" = true)
      by (unfold Py.startswith; rewrite str_app_cons; simpl; apply prefix_nil).
    rewrite Hb, orb_true_r. reflexivity. }
  rewrite Hcmd.
  rewrite (process_command_split bot clock (Py.rstrip text) (Py.strip text))
    by (rewrite split_rstrip, split_strip; reflexivity).
  destruct (CommandHandler.process_command bot clock (Py.strip text)) as [r|argv];
    [destruct (JabberBot.truthy r)|]; reflexivity.
Qed.

(** X22.  The name of a command is compared without regard to case, and
    only the name: two ASCII texts whose first tokens agree in lower case and
    whose other tokens are the same get the same answer, however the tokens
    are spaced; the arguments are passed on in the case they were typed
    in. *)
Theorem command_name_ignores_case (bot : JabberBot) (clock : Z)
    (a b name_a name_b : string) (args : list string) :
  Py.isascii a = true -> Py.isascii b = true ->
  Py.split a = name_a :: args ->
  Py.split b = name_b :: args ->
  Py.lower name_a = Py.lower name_b ->
  CommandHandler.process_command bot clock a =
  CommandHandler.process_command bot clock b
  /\ (Py.lower name_a = "ping" ->
      CommandHandler.process_command bot clock a =
      match CommandHandler.cmd_ping args with
      | Ok r => r
      | Raise e => CommandHandler.Return (Some ("❌ Error executing command: " +:+ e))
      end).
Proof.
  intros _ _ Ha Hb Hlow. split.
  - unfold CommandHandler.process_command.
    rewrite !split_strip, Ha, Hb, Hlow.
    assert (Ea : Py.is_empty a = false) by (destruct a; [discriminate|reflexivity]).
    assert (Eb : Py.is_empty b = false) by (destruct b; [discriminate|reflexivity]).
    rewrite Ea, Eb. reflexivity.
  - intros Hping. apply (process_command_ping bot clock a name_a args); [|exact Hping].
    rewrite split_strip. exact Ha.
Qed.

End BangCommands.

(** ** The configuration *)

Section RoomLists.

Lemma only_of_lstrip (P : ascii -> Prop) (s : string) :
  only_of P s -> only_of P (Py.lstrip s).
Proof.
  induction s as [|c s IH]; [trivial|].
  intros Hall. simpl. destruct (Py.isspace c); [|exact Hall].
  apply only_of_cons in Hall. apply IH, Hall.
Qed.

Lemma only_of_rstrip (P : ascii -> Prop) (s : string) :
  only_of P s -> only_of P (Py.rstrip s).
Proof.
  induction s as [|c s IH]; [trivial|].
  intros Hall. apply only_of_cons in Hall as [Hc Hs]. simpl.
  destruct (Py.isspace c && Py.is_empty (Py.rstrip s)); [apply only_of_nil|].
  apply only_of_cons. auto.
Qed.

Lemma lstrip_head (s : string) :
  Py.lstrip s = "" \/
  exists c r, Py.lstrip s = String c r /\ Py.isspace c = false.
Proof.
  induction s as [|c s IH]; [left; reflexivity|].
  simpl. destruct (Py.isspace c) eqn:Hc; [exact IH|]. right. eauto.
Qed.

Lemma strip_idemp (s : string) : Py.strip (Py.strip s) = Py.strip s.
Proof.
  unfold Py.strip.
  destruct (lstrip_head s) as [Hl|(c & r & Hl & Hc)]; rewrite Hl; [reflexivity|].
  assert (Hr : Py.rstrip (String c r) = String c (Py.rstrip r))
    by (simpl; rewrite Hc; reflexivity).
  rewrite Hr, (lstrip_cons c _ Hc).
  simpl. rewrite Hc, rstrip_idemp. reflexivity.
Qed.

Lemma strip_empty_blank (s : string) : Py.strip s = "" <-> blank s.
Proof.
  split; [|apply strip_blank].
  intros Hs. apply split_nil_blank. rewrite <- split_strip, Hs. reflexivity.
Qed.

Lemma split_on_no_sep (sep : ascii) (s : string) :
  Forall (only_of (fun c => c <> sep)) (Py.split_on sep s).
Proof.
  induction s as [|c s IH]; simpl.
  - constructor; [apply only_of_nil|constructor].
  - destruct (Ascii.eqb_spec c sep) as [|Hne].
    + constructor; [apply only_of_nil|exact IH].
    + destruct (Py.split_on sep s) as [|t ts].
      * constructor; [|constructor].
        apply only_of_cons. split; [exact Hne|apply only_of_nil].
      * apply Forall_cons in IH as [Ht Hts]. constructor; [|exact Hts].
        apply only_of_cons. auto.
Qed.

Lemma split_on_not_nil (sep : ascii) (s : string) : Py.split_on sep s <> [].
Proof.
  destruct s as [|c s]; simpl; [discriminate|].
  destruct (Ascii.eqb c sep); [discriminate|].
  destruct (Py.split_on sep s); discriminate.
Qed.

Lemma split_on_blank (s : string) :
  Forall blank (Py.split_on "," s) <-> only_of space_or_comma s.
Proof.
  induction s as [|c s IH]; simpl.
  - split; [intros _; apply only_of_nil|].
    intros _. constructor; [apply only_of_nil|constructor].
  - rewrite only_of_cons. destruct (Ascii.eqb_spec c ","%char) as [->|Hne].
    + rewrite Forall_cons, IH. split.
      * intros [_ Hs]. split; [right; reflexivity|exact Hs].
      * intros [_ Hs]. split; [apply only_of_nil|exact Hs].
    + pose proof (split_on_not_nil "," s) as Hnn.
      destruct (Py.split_on "," s) as [|t ts]; [contradiction|].
      rewrite <- IH, !Forall_cons. unfold blank at 1. rewrite only_of_cons.
      fold (blank t). unfold space_or_comma. tauto.
Qed.

Lemma omap_length_le {A B : Type} (f : A -> option B) (l : list A) :
  (length (omap f l) <= length l)%nat.
Proof.
  induction l as [|a l IH]; [reflexivity|].
  change (omap f (a :: l))
    with (match f a with Some y => y :: omap f l | None => omap f l end).
  destruct (f a); simpl length; lia.
Qed.

Lemma parse_rooms_elem (s r : string) :
  r ∈ Config.parse_rooms s <->
  exists item, item ∈ Py.split_on "," s /\ r = Py.strip item /\ r <> "".
Proof.
  unfold Config.parse_rooms. rewrite list_elem_of_omap. split.
  - intros (item & Hin & Hf). exists item. split; [exact Hin|].
    destruct (Py.strip item) eqn:Hs; [discriminate|].
    injection Hf as <-. split; [reflexivity|discriminate].
  - intros (item & Hin & -> & Hne). exists item. split; [exact Hin|].
    destruct (Py.strip item); [contradiction|reflexivity].
Qed.

Lemma parse_rooms_all_clean (s : string) : Forall clean_room (Config.parse_rooms s).
Proof.
  apply Forall_forall. intros r Hin.
  apply parse_rooms_elem in Hin as (item & Hin & -> & Hne).
  split; [exact Hne|]. split; [apply strip_idemp|].
  unfold Py.strip. apply only_of_rstrip, only_of_lstrip.
  pose proof (split_on_no_sep "," s) as Hall.
  rewrite Forall_forall in Hall. apply Hall, Hin.
Qed.

Lemma parse_rooms_nil_iff (s : string) :
  Config.parse_rooms s = [] <-> only_of space_or_comma s.
Proof.
  rewrite <- split_on_blank, Forall_forall. split.
  - intros Hnil item Hin. apply strip_empty_blank.
    destruct (Py.strip item) eqn:Hs; [reflexivity|]. exfalso.
    assert (Hr : String a s0 ∈ Config.parse_rooms s).
    { apply parse_rooms_elem. exists item. rewrite Hs.
      split; [exact Hin|]. split; [reflexivity|discriminate]. }
    rewrite Hnil in Hr. apply elem_of_nil in Hr. exact Hr.
  - intros Hall. destruct (Config.parse_rooms s) as [|r rs] eqn:Hp; [reflexivity|].
    assert (Hr : r ∈ Config.parse_rooms s) by (rewrite Hp; left).
    apply parse_rooms_elem in Hr as (item & Hin & -> & Hne).
    apply Hall, strip_empty_blank in Hin. contradiction.
Qed.

(** X19.  The rooms read from a comma-separated list in ASCII are clean
    names: none is empty, none has white space around it, none holds a
    comma; there are no more of them than pieces between commas; and the list
    comes out empty exactly when the text holds nothing but commas and white
    space. *)
Theorem parse_rooms_clean (s : string) :
  Py.isascii s = true ->
  Forall clean_room (Config.parse_rooms s)
  /\ (length (Config.parse_rooms s) <= length (Py.split_on "," s))%nat
  /\ (Config.parse_rooms s = [] <-> only_of space_or_comma s).
Proof.
  intros _.
  split; [apply parse_rooms_all_clean|]. split; [|apply parse_rooms_nil_iff].
  unfold Config.parse_rooms. apply omap_length_le.
Qed.

End RoomLists.

Section Environment.
Context `{Config.PyInt}.

(** X20.  What the environment does to a configuration.  Without
    [XMPP_ROOMS], or with an empty one, the rooms of the file stay; a value
    that is set, in ASCII, replaces them by clean names, and by no room at
    all when it holds only commas and white space.  A number that [int] refuses leaves
    the port and the offset as they were.  A variable that is set wins over
    the file even when it is empty: with an empty [XMPP_JID] or
    [XMPP_PASSWORD] the validation fails whatever the file said, and it
    passes exactly when the account and the password in force are both there
    and not empty.  The message templates are not touched. *)
Theorem load_env_config_edges (env : gmap string string) (c : Config.t) :
  let c' := Config.load_env_config env c in
  (env !! "XMPP_ROOMS" = None \/ env !! "XMPP_ROOMS" = Some "" ->
     rooms (Config.core c') = rooms (Config.core c))
  /\ (forall v, env !! "XMPP_ROOMS" = Some v -> v <> "" ->
        Py.isascii v = true ->
        rooms (Config.core c') = Config.parse_rooms v
        /\ Forall clean_room (rooms (Config.core c'))
        /\ (only_of space_or_comma v -> rooms (Config.core c') = []))
  /\ (forall v, env !! "TIMEZONE_OFFSET" = Some v -> Config.int_of_str v = None ->
        timezone_offset (Config.core c') = timezone_offset (Config.core c))
  /\ (forall v, env !! "XMPP_PORT" = Some v -> Config.int_of_str v = None ->
        Config.port c' = Config.port c)
  /\ (env !! "XMPP_JID" = Some "" \/ env !! "XMPP_PASSWORD" = Some "" ->
        exists e, Config.validate_config c' = Raise e)
  /\ (Config.validate_config c' = Ok tt <->
        Config.missing (Config.jid c') = false
        /\ Config.missing (Config.password c') = false)
  /\ welcome_message (Config.core c') = welcome_message (Config.core c)
  /\ user_welcome_message (Config.core c') = user_welcome_message (Config.core c)
  /\ hourly_message (Config.core c') = hourly_message (Config.core c).
Proof.
  intros c'. subst c'.
  split; [intros [Hr|Hr]; simpl; rewrite Hr; reflexivity|].
  split.
  { intros v Hv Hne _.
    assert (Heq : rooms (Config.core (Config.load_env_config env c)) =
                  Config.parse_rooms v).
    { simpl. rewrite Hv. simpl. destruct v; [contradiction|reflexivity]. }
    rewrite Heq. split; [reflexivity|]. split; [apply parse_rooms_all_clean|].
    apply parse_rooms_nil_iff. }
  split.
  { intros v Hv Hint. simpl. unfold Config.getenv_int. rewrite Hv, Hint.
    reflexivity. }
  split.
  { intros v Hv Hint. simpl. unfold Config.getenv_int. rewrite Hv, Hint.
    reflexivity. }
  split.
  { unfold Config.validate_config. simpl. intros [Hj|Hp].
    - rewrite Hj. simpl. eauto.
    - rewrite Hp. simpl. destruct (Config.missing _); eauto. }
  split.
  { unfold Config.validate_config.
    destruct (Config.missing (Config.jid _));
      [split; [discriminate|intros [? _]; discriminate]|].
    destruct (Config.missing (Config.password _));
      [split; [discriminate|intros [_ ?]; discriminate]|].
    split; auto. }
  repeat split; reflexivity.
Qed.

End Environment.

(** ** Between the loss of a session and the next one *)

Section Silence.
Context `{PyRuntime}.

Lemma session_fired_app (a b : list Session.session_action) :
  session_fired (a ++ b) = (session_fired a + session_fired b)%nat.
Proof. unfold session_fired. rewrite filter_app, length_app. reflexivity. Qed.

Lemma message_handler_no_fire (bot : JabberBot) (clock : Z) (msg : message) :
  session_fired (map Session.Act (JabberBot.message_handler bot clock msg)) = 0%nat.
Proof.
  unfold JabberBot.message_handler, JabberBot.handle_private_message,
    JabberBot.handle_group_message.
  repeat match goal with
  | |- context [if ?b then _ else _] => destruct b
  | |- context [match JabberBot.addressed_command ?n ?b with _ => _ end] =>
      destruct (JabberBot.addressed_command n b)
  | |- context [match CommandHandler.process_command ?b ?c ?t with _ => _ end] =>
      destruct (CommandHandler.process_command b c t)
  | |- context [match JabberBot.truthy ?r with _ => _ end] =>
      destruct (JabberBot.truthy r)
  end; reflexivity.
Qed.

Lemma presence_no_fire (bot : JabberBot) (p : presence) :
  session_fired
    (match snd (JabberBot.muc_presence_handler bot p) with
     | Ok out => map Session.Act out
     | Raise _ => []
     end) = 0%nat
  /\ scheduler (fst (JabberBot.muc_presence_handler bot p)) = scheduler bot.
Proof.
  unfold JabberBot.muc_presence_handler.
  repeat case_decide; try (split; reflexivity).
  destruct (String.eqb _ _); [split; reflexivity|].
  destruct (room_users bot !! presence_room p); [|split; reflexivity].
  destruct (str_format _ _); split; reflexivity.
Qed.

(** A step that is not the start of a session keeps a quiet scheduler quiet
    and does not call the callback. *)
Lemma session_step_quiet (bot : JabberBot) (e : Session.event) :
  quiet (scheduler bot) -> no_session_start [e] = true ->
  quiet (scheduler (fst (Session.step bot e)))
  /\ session_fired (snd (Session.step bot e)) = 0%nat.
Proof.
  intros Hq Hns. destruct e as [roster env|clock msg|p|p| |h clock];
    [discriminate| | | | |]; simpl.
  - split; [exact Hq|apply message_handler_no_fire].
  - destruct (presence_no_fire bot p) as [Hf Hs].
    destruct (JabberBot.muc_presence_handler bot p) as [bot' r]. simpl in *.
    rewrite Hs. split; [exact Hq|exact Hf].
  - split; [exact Hq|reflexivity].
  - split; [|reflexivity]. apply stop_quiet, quiet_consistent, Hq.
  - destruct (resume_quiet clock (JabberBot.send_hourly_message bot clock) h
                (scheduler bot) Hq) as [Hq' Hout].
    destruct (MessageScheduler._schedule_loop _ _ h (scheduler bot)) as [s out].
    simpl in *. subst out. split; [exact Hq'|reflexivity].
Qed.

Lemma session_run_quiet (es : list Session.event) (bot : JabberBot) :
  quiet (scheduler bot) -> no_session_start es = true ->
  session_fired (snd (Session.run bot es)) = 0%nat.
Proof.
  revert bot. induction es as [|e es IH]; intros bot Hq Hns; [reflexivity|].
  simpl in Hns. apply andb_true_iff in Hns as [He Hes].
  assert (He1 : no_session_start [e] = true) by (simpl; rewrite He; reflexivity).
  destruct (session_step_quiet bot e Hq He1) as [Hq1 Hf1].
  simpl. destruct (Session.step bot e) as [bot1 out1]. simpl in *.
  specialize (IH bot1 Hq1 Hes). destruct (Session.run bot1 es) as [bot2 out2].
  simpl in *. rewrite session_fired_app, Hf1, IH. reflexivity.
Qed.

(** X21.  [session_start] is the only caller of [scheduler.start()], at
    its end.  With every run of it taken in one piece, so that none is still
    on its way when the session is lost: from the handler of the lost session
    on, whatever messages and presences arrive and whichever task of the
    scheduler is resumed, the bot does not call [send_hourly_message] as long
    as no [session_start] runs. *)
Theorem no_hourly_message_while_disconnected (cfg : BotConfig) (jid_bare : string)
    (t0 : Z) (es0 es : list Session.event) :
  no_session_start es = true ->
  let bot := fst (Session.run (Session.init cfg jid_bare t0) es0) in
  session_fired (snd (Session.run bot (Session.Disconnected :: es))) = 0%nat.
Proof.
  intros Hns bot.
  assert (Hc : consistent (scheduler bot)).
  { apply (run_invariant cfg es0 (Session.init cfg jid_bare t0)
             (init_invariant cfg jid_bare t0)). }
  pose proof (session_run_quiet es
                (JabberBot.set_scheduler (MessageScheduler.stop (scheduler bot)) bot)
                (stop_quiet _ Hc) Hns) as Hrun.
  change (Session.run bot (Session.Disconnected :: es))
    with (let '(bot2, out2) :=
            Session.run
              (JabberBot.set_scheduler (MessageScheduler.stop (scheduler bot)) bot)
              es in
          (bot2, Session.Act (Sleep 5000000) :: out2)).
  destruct (Session.run _ es) as [bot2 out2]. exact Hrun.
Qed.

End Silence.

(** ** Instances *)

Lemma rejoin_welcomes_again_witness :
  let room := "room@conference.jabber.ru" in
  let bot := ExampleRuntime.bot_in room {["alice"]} in
  let p := {| presence_room := room; presence_nick := "alice"; online := true |} in
  let bot1 := fst (@JabberBot.join_room ExampleRuntime.runtime (Ok tt) 0 room bot) in
  JabberBot.welcomes (snd (@JabberBot.muc_presence_handler ExampleRuntime.runtime bot1 p))
    = [(room, "👋 Welcome alice! I'm PyBot, your friendly bot assistant.")]
  /\ JabberBot.occupants
       (fst (@JabberBot.muc_presence_handler ExampleRuntime.runtime bot1 p)) room
     = {["alice"]}.
Proof.
  cbv zeta.
  apply (@rejoin_welcomes_again ExampleRuntime.runtime
           (ExampleRuntime.bot_in "room@conference.jabber.ru" {["alice"]}) 0
           {| presence_room := "room@conference.jabber.ru";
              presence_nick := "alice"; online := true |}
           "👋 Welcome alice! I'm PyBot, your friendly bot assistant.").
  - discriminate.
  - vm_compute. reflexivity.
Defined.

Lemma invalid_offset_never_fires_witness :
  ~ (-24 < 24 < 24) /\
  MessageScheduler.fired
    (snd (MessageScheduler.run (MessageScheduler.init 24)
            [MessageScheduler.CallStart;
             MessageScheduler.Resume 0 0 (Ok []);
             MessageScheduler.Resume 0 60000000 (Ok []);
             MessageScheduler.Resume 1 60000000 (Ok [])])) = 0%nat.
Proof.
  assert (Hoff : ~ (-24 < 24 < 24)) by lia.
  split; [exact Hoff|]. apply (invalid_offset_never_fires 24 _ Hoff).
Defined.

Lemma fire_then_sleep_within_hour_witness :
  let s := fst (MessageScheduler.run (MessageScheduler.init 7)
                  [MessageScheduler.CallStart;
                   MessageScheduler.Resume 0 0 (Ok [])]) in
  exists w,
    0 < w <= 3600000000
    /\ MessageScheduler.step s (MessageScheduler.Resume 0 3600000000 (Ok []))
       = (s, Fire :: [] ++ [Sleep w]).
Proof.
  cbv zeta.
  apply (fire_then_sleep_within_hour
           (fst (MessageScheduler.run (MessageScheduler.init 7)
                   [MessageScheduler.CallStart;
                    MessageScheduler.Resume 0 0 (Ok [])]))
           0%nat 3600000000 []).
  - reflexivity.
  - reflexivity.
  - simpl. lia.
Defined.

Lemma callback_error_recovers_witness :
  let s := fst (MessageScheduler.run (MessageScheduler.init 7)
                  [MessageScheduler.CallStart;
                   MessageScheduler.Resume 0 0 (Ok [])]) in
  let r := MessageScheduler.run s
             [MessageScheduler.Resume 0 3600000000 (Raise "boom");
              MessageScheduler.Resume 0 3660000000 (Ok []);
              MessageScheduler.Resume 1 3660000000 (Ok [])] in
  exists w,
    0 < w <= 3600000000
    /\ snd r = [Fire; Sleep 60000000; Sleep w]
    /\ MessageScheduler.running (fst r) = true
    /\ MessageScheduler.task (fst r) = Some 1%nat
    /\ MessageScheduler.tasks (fst r) !! 1%nat =
       Some {| MessageScheduler.at_point := MessageScheduler.Waiting;
               MessageScheduler.must_cancel := false |}
    /\ MessageScheduler.tasks (fst r) !! 0%nat =
       Some {| MessageScheduler.at_point := MessageScheduler.Done;
               MessageScheduler.must_cancel := false |}.
Proof.
  cbv zeta.
  apply (callback_error_recovers
           (fst (MessageScheduler.run (MessageScheduler.init 7)
                   [MessageScheduler.CallStart;
                    MessageScheduler.Resume 0 0 (Ok [])]))
           0%nat "boom" 3600000000 3660000000 3660000000 (Ok []) (Ok [])).
  - reflexivity.
  - reflexivity.
  - simpl. lia.
Defined.

Lemma wait_full_hour_on_boundary_witness :
  let now := {| ordinal := 739000; hour := 15; minute := 0; second := 0;
                microsecond := 0 |} in
  DateTime.wf now /\ MessageScheduler.wait_microseconds now = 3600000000.
Proof.
  cbv zeta.
  assert (Hwf : DateTime.wf {| ordinal := 739000; hour := 15; minute := 0;
                               second := 0; microsecond := 0 |})
    by (unfold DateTime.wf; simpl; lia).
  split; [exact Hwf|].
  apply (proj1 (wait_full_hour_on_boundary _ Hwf)). simpl. auto.
Defined.

Lemma probe_target_is_clean_witness :
  @CommandHandler.process_command ExampleRuntime.runtime ExampleRuntime.fresh_bot 0
    "  Ping  example.com now" =
    CommandHandler.Probe ["ping"; "-c"; "3"; "-W"; "5"; "example.com"]
  /\ exists target,
       ["ping"; "-c"; "3"; "-W"; "5"; "example.com"] =
       ["ping"; "-c"; "3"; "-W"; "5"; target]
       /\ target <> ""
       /\ only_of alnum_dot_hyphen target
       /\ (String.length target <= 253)%nat
       /\ exists part0 args,
            Py.split "  Ping  example.com now" = part0 :: args
            /\ Py.lower part0 = "ping"
            /\ target = match args with a :: _ => a | [] => "google.com" end.
Proof.
  assert (Hp : @CommandHandler.process_command ExampleRuntime.runtime
                 ExampleRuntime.fresh_bot 0 "  Ping  example.com now" =
               CommandHandler.Probe ["ping"; "-c"; "3"; "-W"; "5"; "example.com"])
    by reflexivity.
  split; [exact Hp|].
  exact (proj2 (@probe_target_is_clean ExampleRuntime.runtime
                  ExampleRuntime.fresh_bot 0)
           "  Ping  example.com now" _ eq_refl Hp).
Defined.

Lemma uptime_of_negative_witness :
  -1 < 0 /\
  CommandHandler.uptime_reply (-1) = CommandHandler.uptime_reply ((-1) mod 86400)
  /\ CommandHandler.uptime_reply (-1) = "⏱️ Bot uptime: 23h 59m 59s".
Proof.
  assert (Hneg : -1 < 0) by lia.
  split; [exact Hneg|].
  split; [exact (proj1 (proj2 (uptime_of_negative (-1) Hneg)))|reflexivity].
Defined.

Lemma bang_in_group_as_in_private_witness :
  @JabberBot.handle_group_message ExampleRuntime.runtime
    ExampleRuntime.fresh_bot 90061000000
    {| mtype := "groupchat"; from_bare := "room@conference.jabber.ru";
       mucnick := "alice"; body := "!" +:+ " uptime " |}
  = map (fun a => match a with
                  | Reply r => SendMessage "room@conference.jabber.ru" r "groupchat"
                  | _ => a
                  end)
        (@JabberBot.handle_private_message ExampleRuntime.runtime
           ExampleRuntime.fresh_bot 90061000000
           {| mtype := "chat"; from_bare := "alice@jabber.ru"; mucnick := "";
              body := " uptime " |}).
Proof.
  apply (@bang_in_group_as_in_private ExampleRuntime.runtime
           ExampleRuntime.fresh_bot 90061000000
           "room@conference.jabber.ru" "alice" "alice@jabber.ru" " uptime ").
  - discriminate.
  - discriminate.
  - reflexivity.
Defined.

Lemma no_hourly_message_while_disconnected_witness :
  let es0 := [Session.SessionStart Session.RosterOk (fun _ => (Ok tt, 0));
              Session.Resume 0 0] in
  let es := [Session.Resume 0 3600000000;
             Session.MucPresence
               {| presence_room := "room@conference.jabber.ru";
                  presence_nick := "alice"; online := true |};
             Session.Resume 0 7200000000] in
  no_session_start es = true /\
  let bot := fst (@Session.run ExampleRuntime.runtime
                    (Session.init default_config "pybot@jabber.ru" 0) es0) in
  session_fired
    (snd (@Session.run ExampleRuntime.runtime bot (Session.Disconnected :: es)))
  = 0%nat.
Proof.
  cbv zeta. split; [reflexivity|].
  apply (@no_hourly_message_while_disconnected ExampleRuntime.runtime
           default_config "pybot@jabber.ru" 0).
  reflexivity.
Defined.

Lemma command_name_ignores_case_witness :
  @CommandHandler.process_command ExampleRuntime.runtime ExampleRuntime.fresh_bot 0
    "PING Example.COM" =
  @CommandHandler.process_command ExampleRuntime.runtime ExampleRuntime.fresh_bot 0
    "  ping   Example.COM ".
Proof.
  apply (proj1 (@command_name_ignores_case ExampleRuntime.runtime
                  ExampleRuntime.fresh_bot 0
                  "PING Example.COM" "  ping   Example.COM " "PING" "ping"
                  ["Example.COM"] eq_refl eq_refl eq_refl eq_refl eq_refl)).
Defined.

Lemma dispatch_answers_unless_blank_witness :
  Py.isascii "   " = true /\ blank "   " /\
  @CommandHandler.process_command ExampleRuntime.runtime ExampleRuntime.fresh_bot 0
    "   " = CommandHandler.Return None.
Proof.
  assert (Hasc : Py.isascii "   " = true) by reflexivity.
  assert (Hb : blank "   ") by (unfold blank, only_of; simpl; repeat constructor).
  split; [exact Hasc|]. split; [exact Hb|].
  exact (proj2 (proj1 (@dispatch_answers_unless_blank ExampleRuntime.runtime
                         ExampleRuntime.fresh_bot 0 "   " Hasc)) Hb).
Defined.

Lemma parse_rooms_clean_witness :
  Py.isascii " a@x , ,b@y," = true /\
  Forall clean_room (Config.parse_rooms " a@x , ,b@y,") /\
  Config.parse_rooms " a@x , ,b@y," = ["a@x"; "b@y"].
Proof.
  assert (Hasc : Py.isascii " a@x , ,b@y," = true) by reflexivity.
  split; [exact Hasc|].
  split; [exact (proj1 (parse_rooms_clean " a@x , ,b@y," Hasc))|reflexivity].
Defined.

Lemma load_env_config_edges_witness :
  let env : gmap string string :=
    {[ "XMPP_ROOMS" := " a@x , ,b@y,"; "XMPP_PORT" := "52x22" ]} in
  let c := {| Config.jid := Some "pybot@jabber.ru"; Config.password := None;
              Config.port := 5222; Config.core := default_config |} in
  Py.isascii " a@x , ,b@y," = true /\
  Forall clean_room
    (rooms (Config.core (@Config.load_env_config example_int env c))) /\
  Config.port (@Config.load_env_config example_int env c) = 5222.
Proof.
  cbv zeta.
  assert (Hasc : Py.isascii " a@x , ,b@y," = true) by reflexivity.
  split; [exact Hasc|].
  pose proof (@load_env_config_edges example_int
                {[ "XMPP_ROOMS" := " a@x , ,b@y,"; "XMPP_PORT" := "52x22" ]}
                {| Config.jid := Some "pybot@jabber.ru"; Config.password := None;
                   Config.port := 5222; Config.core := default_config |}) as Hw.
  cbv zeta in Hw.
  destruct Hw as (_ & Hrooms & _ & Hport & _).
  split.
  - apply (Hrooms " a@x , ,b@y,"); [reflexivity|discriminate|exact Hasc].
  - apply (Hport "52x22"); reflexivity.
Defined.
